(** * PDF content-stream matrices: a model of [pikepdf.models.matrix.PdfMatrix]

    The class wraps a tuple of three rows, [self.values], and offers a
    polymorphic constructor, matrix multiplication ([@]), three transform
    builders, six coefficient accessors, equality and a textual encoding.

    Python floats are IEEE 754 binary64 numbers: they are modelled by the
    kernel's primitive floats, so every arithmetic step of the source is the
    same rounding step here.  Python exceptions are modelled by an error
    result.  The identity of objects is modelled where the class can
    observe it: in [==] on tuples, which looks at identity before
    equality, and in the store of instances. *)

From Stdlib Require Import ZArith List String Ascii Bool Lia Floats.
From Stdlib Require Import DecimalString.
Import ListNotations.

Local Open Scope Z_scope.

#[local] Set Warnings "-register-all".

(** ** Python values *)

(** The part of Python's universe that can reach the class: integers,
    floats, [None] (a value that is neither a number nor a sequence), tuples
    and lists. *)
Inductive value : Type :=
  | VInt (z : Z)
  | VFloat (x : float)
  | VNone
  | VTuple (l : list value)
  | VList (l : list value).

(** An instance holds [self.values]: a tuple of three rows, each a tuple.
    The rows are kept as the lists of their elements. *)
Record PdfMatrix : Type := mkPdfMatrix {
  values : list value * list value * list value
}.

(** What a caller can pass: a plain value or an instance of the class. *)
Inductive pyobj : Type :=
  | OVal (v : value)
  | OMat (m : PdfMatrix).

(** ** Exceptions *)

Inductive value_error : Type :=
  | invalid_arguments (args : list pyobj)
  | unpack_mismatch
  | math_domain_error.

Inductive exn : Type :=
  | TypeError
  | IndexError
  | AttributeError
  | OverflowError
  | ValueError (e : value_error).

Inductive result (A : Type) : Type :=
  | Ok (a : A)
  | Raise (e : exn).

Arguments Ok {A} a.
Arguments Raise {A} e.

Definition bind {A B : Type} (r : result A) (k : A -> result B) : result B :=
  match r with
  | Ok a => k a
  | Raise e => Raise e
  end.

Notation "x <- r ;; k" := (bind r (fun x => k))
  (at level 61, r at next level, right associativity).

Fixpoint mapM {A B : Type} (f : A -> result B) (l : list A) : result (list B) :=
  match l with
  | [] => Ok []
  | x :: xs => y <- f x ;; ys <- mapM f xs ;; Ok (y :: ys)
  end.

(** ** Builtins *)

Module Builtins.

(** [float(z)] for an integer: the nearest binary64 number, ties to even;
    [OverflowError] when that is beyond the largest finite float. *)
Definition float_of_int (z : Z) : result float :=
  match binary_normalize prec emax z 0 false with
  | S754_infinity _ => Raise OverflowError
  | sf => Ok (SF2Prim sf)
  end.

(** [float(v)]. *)
Definition float_of_value (v : value) : result float :=
  match v with
  | VInt z => float_of_int z
  | VFloat x => Ok x
  | VNone | VTuple _ | VList _ => Raise TypeError
  end.

(** [float(o)]: an instance of the class defines no [__float__]. *)
Definition float (o : pyobj) : result PrimFloat.float :=
  match o with
  | OVal v => float_of_value v
  | OMat _ => Raise TypeError
  end.

(** [len(v)]: numbers and [None] have no length. *)
Definition len_value (v : value) : result Z :=
  match v with
  | VTuple l | VList l => Ok (Z.of_nat (List.length l))
  | VInt _ | VFloat _ | VNone => Raise TypeError
  end.

(** [tuple(v)] (also the elements that iterating [v] yields). *)
Definition tuple (v : value) : result (list value) :=
  match v with
  | VTuple l | VList l => Ok l
  | VInt _ | VFloat _ | VNone => Raise TypeError
  end.

(** [row[i]] on a tuple, for a non-negative constant [i]. *)
Definition getitem (row : list value) (i : nat) : result value :=
  match nth_error row i with
  | Some v => Ok v
  | None => Raise IndexError
  end.

(** [v[i]] on a value. *)
Definition getitem_value (v : value) (i : nat) : result value :=
  match v with
  | VTuple l | VList l => getitem l i
  | VInt _ | VFloat _ | VNone => Raise TypeError
  end.

(** [zip(r0, r1, r2)]: stops at the shortest argument. *)
Fixpoint zip3 (r0 r1 r2 : list value) : list (list value) :=
  match r0, r1, r2 with
  | x :: xs, y :: ys, z :: zs => [x; y; z] :: zip3 xs ys zs
  | _, _, _ => []
  end.

(** [sum] of floats: starts from the integer [0] and adds from left to
    right; the first addition turns the integer into [0.0].  (CPython 3.12
    and later carry a compensation term besides; it stays zero as long as
    the partial sums are exact.) *)
Definition sum (ts : list PrimFloat.float) : value :=
  match ts with
  | [] => VInt 0
  | t :: ts' => VFloat (fold_left PrimFloat.add ts' (0 + t)%float)
  end.

(** Equality of an integer and a float is exact: the float is finite and
    denotes the same number. *)
Definition int_eq_float (z : Z) (x : PrimFloat.float) : bool :=
  match Prim2SF x with
  | S754_zero _ => Z.eqb z 0
  | S754_finite s m e =>
      let sm := if s then Z.neg m else Z.pos m in
      if Z.leb 0 e then Z.eqb z (sm * 2 ^ e) else Z.eqb (z * 2 ^ (- e)) sm
  | S754_infinity _ | S754_nan => false
  end.

(** [u == v] for two values that share no object: numbers compare by
    value, floats by IEEE equality (no tolerance), sequences of the same
    kind element by element.  ([py_eq_shared] below is [==] when objects
    are shared.) *)
Fixpoint py_eq (u v : value) {struct u} : bool :=
  let fix all2 (l l' : list value) {struct l} : bool :=
    match l, l' with
    | [], [] => true
    | x :: xs, y :: ys => py_eq x y && all2 xs ys
    | _, _ => false
    end in
  match u, v with
  | VInt z, VInt z' => Z.eqb z z'
  | VInt z, VFloat x => int_eq_float z x
  | VFloat x, VInt z => int_eq_float z x
  | VFloat x, VFloat y => PrimFloat.eqb x y
  | VNone, VNone => true
  | VTuple l, VTuple l' => all2 l l'
  | VList l, VList l' => all2 l l'
  | _, _ => false
  end.

(** *** Equality and object identity *)

(** Python's sequences compare two elements by identity before they ask
    [==]: an element that is the very same object on both sides counts as
    equal.  Which objects two values share is a fact of the heap, not of
    the values; it is described position by position: [Same] for one
    object on both sides, [Apart inner] for two objects, whose own
    elements are shared as [inner] says.  A position that the description
    does not reach is [Apart []]. *)
Inductive sharing : Type :=
  | Same
  | Apart (inner : list sharing).

(** One object holds one value: the same float, bit for bit (so [0.0] and
    [-0.0] are two values, and NaN is one), the same integer, the same
    elements. *)
Definition identical_float (x y : PrimFloat.float) : bool :=
  match Prim2SF x, Prim2SF y with
  | S754_zero s, S754_zero s' => Bool.eqb s s'
  | S754_infinity s, S754_infinity s' => Bool.eqb s s'
  | S754_nan, S754_nan => true
  | S754_finite s m e, S754_finite s' m' e' =>
      Bool.eqb s s' && Pos.eqb m m' && Z.eqb e e'
  | _, _ => false
  end.

Fixpoint identical (u v : value) {struct u} : bool :=
  let fix all2 (l l' : list value) {struct l} : bool :=
    match l, l' with
    | [], [] => true
    | x :: xs, y :: ys => identical x y && all2 xs ys
    | _, _ => false
    end in
  match u, v with
  | VInt z, VInt z' => Z.eqb z z'
  | VFloat x, VFloat y => identical_float x y
  | VNone, VNone => true
  | VTuple l, VTuple l' => all2 l l'
  | VList l, VList l' => all2 l l'
  | _, _ => false
  end.

(** [u == v], where the elements of [u] and [v] are shared as [sh] says.
    A [Same] on two elements that hold different values describes no
    heap; it is read as [Apart []]. *)
Fixpoint py_eq_shared (sh : list sharing) (u v : value) {struct u} : bool :=
  let fix all2 (sh : list sharing) (l l' : list value) {struct l} : bool :=
    match l, l' with
    | [], [] => true
    | x :: xs, y :: ys =>
        match sh with
        | Same :: sh' =>
            (identical x y || py_eq_shared [] x y) && all2 sh' xs ys
        | Apart inner :: sh' => py_eq_shared inner x y && all2 sh' xs ys
        | [] => py_eq_shared [] x y && all2 [] xs ys
        end
    | _, _ => false
    end in
  match u, v with
  | VInt z, VInt z' => Z.eqb z z'
  | VInt z, VFloat x => int_eq_float z x
  | VFloat x, VInt z => int_eq_float z x
  | VFloat x, VFloat y => PrimFloat.eqb x y
  | VNone, VNone => true
  | VTuple l, VTuple l' => all2 sh l l'
  | VList l, VList l' => all2 sh l l'
  | _, _ => false
  end.

(** The sharing of the elements at position [i]. *)
Definition share_at (sh : list sharing) (i : nat) : sharing :=
  nth i sh (Apart []).

(** The comparison of two elements of a sequence: the same object, or
    [==]. *)
Definition same_or_eq (s : sharing) (u v : value) : bool :=
  match s with
  | Same => identical u v || py_eq_shared [] u v
  | Apart inner => py_eq_shared inner u v
  end.

(** Six elements that are the same objects on both sides. *)
Definition all_same : list sharing := [Same; Same; Same; Same; Same; Same].

(** *** The format specification [.6f] *)

Definition digit (n : Z) : ascii := ascii_of_nat (48 + Z.to_nat (n mod 10)).

(** Decimal numeral of a non-negative integer. *)
Definition decimal (n : Z) : string :=
  NilZero.string_of_uint (N.to_uint (Z.to_N n)).

(** The integer nearest to [m * 2^e * 10^6], ties to even. *)
Definition scaled_round (m : positive) (e : Z) : Z :=
  let n := Z.pos m * 10 ^ 6 in
  if Z.leb 0 e then n * 2 ^ e
  else
    let dd := 2 ^ (- e) in
    let q := n / dd in
    let r := n mod dd in
    match Z.compare (2 * r) dd with
    | Lt => q
    | Gt => q + 1
    | Eq => if Z.even q then q else q + 1
    end.

(** The six digits written after the point. *)
Definition fraction6 (n : Z) : string :=
  String (digit (n / 100000))
    (String (digit (n / 10000))
       (String (digit (n / 1000))
          (String (digit (n / 100))
             (String (digit (n / 10)) (String (digit n) EmptyString))))).

Definition sign_string (s : bool) : string := if s then "-" else "".

(** [format(x, '.6f')] for a float: correctly rounded to six decimals. *)
Definition format_f6 (x : PrimFloat.float) : string :=
  match Prim2SF x with
  | S754_nan => "nan"
  | S754_infinity s => sign_string s ++ "inf"
  | S754_zero s => sign_string s ++ "0.000000"
  | S754_finite s m e =>
      let n := scaled_round m e in
      sign_string s ++ decimal (n / 10 ^ 6) ++ "." ++ fraction6 n
  end.

(** [format(v, '.6f')]: an integer is converted to a float first; other
    values do not support the format. *)
Definition format_value (v : value) : result string :=
  x <- float_of_value v ;; Ok (format_f6 x).

End Builtins.

(** ** The class *)

Module Matrix.
Import Builtins.

(** The body shared by the two six-coefficient branches of [__init__]:
    [a, b, c, d, e, f = map(float, xs)] followed by the grid literal.  The
    third column holds the integers 0, 0, 1.  Unpacking anything but six
    items is Python's own [ValueError]; both callers pass six. *)
Definition from_six (xs : list pyobj) : result PdfMatrix :=
  fs <- mapM float xs ;;
  match fs with
  | [a; b; c; d; e; f] =>
      Ok (mkPdfMatrix ([VFloat a; VFloat b; VInt 0],
                       [VFloat c; VFloat d; VInt 0],
                       [VFloat e; VFloat f; VInt 1]))
  | _ => Raise (ValueError unpack_mismatch)
  end.

(** [PdfMatrix.__init__(self, *args)]: the branches in source order. *)
Definition __init__ (args : list pyobj) : result PdfMatrix :=
  match args with
  | [] =>
      Ok (mkPdfMatrix ([VInt 1; VInt 0; VInt 0],
                       [VInt 0; VInt 1; VInt 0],
                       [VInt 0; VInt 0; VInt 1]))
  | a0 :: _ =>
      if Nat.eqb (List.length args) 6 then from_six args
      else
        match a0 with
        | OMat m => Ok (mkPdfMatrix (values m))
        | OVal v =>
            n <- len_value v ;;
            if Z.eqb n 6 then
              xs <- tuple v ;; from_six (map OVal xs)
            else if Z.eqb n 3 then
              r0 <- getitem_value v 0 ;;
              n0 <- len_value r0 ;;
              if Z.eqb n0 3 then
                t0 <- tuple r0 ;;
                r1 <- getitem_value v 1 ;;
                t1 <- tuple r1 ;;
                r2 <- getitem_value v 2 ;;
                t2 <- tuple r2 ;;
                Ok (mkPdfMatrix (t0, t1, t2))
              else Raise (ValueError (invalid_arguments args))
            else Raise (ValueError (invalid_arguments args))
        end
  end.

(** [PdfMatrix.identity()]. *)
Definition identity : result PdfMatrix := __init__ [].

(** [self @ other]: one entry per row of [self] and column of [other];
    each entry is [sum(float(i) * float(j) for i, j in zip(row, col))]. *)
Definition entry (row col : list value) : result value :=
  ts <- mapM (fun ij => x <- float_of_value (fst ij) ;;
                        y <- float_of_value (snd ij) ;;
                        Ok (x * y)%float)
             (combine row col) ;;
  Ok (sum ts).

(** The nested list comprehension: for each row of [a], the entries
    against the columns [zip( *b )]. *)
Definition products (self other : PdfMatrix) : result (list (list value)) :=
  let '(a0, a1, a2) := values self in
  let '(b0, b1, b2) := values other in
  mapM (fun row => mapM (entry row) (zip3 b0 b1 b2)) [a0; a1; a2].

Definition __matmul__ (self other : PdfMatrix) : result PdfMatrix :=
  rows <- products self other ;;
  __init__ [OVal (VList (map VList rows))].

(** [self.scaled(x, y)]. *)
Definition scaled (self : PdfMatrix) (x y : value) : result PdfMatrix :=
  m <- __init__ [OVal (VTuple [x; VInt 0; VInt 0; y; VInt 0; VInt 0])] ;;
  __matmul__ self m.

(** [self.translated(x, y)]. *)
Definition translated (self : PdfMatrix) (x y : value) : result PdfMatrix :=
  m <- __init__ [OVal (VTuple [VInt 1; VInt 0; VInt 0; VInt 1; x; y])] ;;
  __matmul__ self m.

(** [math.pi]. *)
Definition pi : PrimFloat.float := 0x1.921fb54442d18p+1%float.

Section Rotation.

(** [math.cos] and [math.sin] on finite arguments and NaN are the C
    library's; they are parameters of the model.  On an infinite argument
    the [math] module raises [ValueError]. *)
Variables cos sin : PrimFloat.float -> PrimFloat.float.

Definition math_fun (f : PrimFloat.float -> PrimFloat.float)
  (x : PrimFloat.float) : result PrimFloat.float :=
  if is_infinity x then Raise (ValueError math_domain_error) else Ok (f x).

(** [angle_degrees_ccw / 180.0 * pi]: true division of a number by a
    float. *)
Definition radians (angle_degrees_ccw : value) : result PrimFloat.float :=
  x <- float_of_value angle_degrees_ccw ;;
  Ok (x / 180 * pi)%float.

(** [self.rotated(angle_degrees_ccw)]. *)
Definition rotated (self : PdfMatrix) (angle_degrees_ccw : value)
  : result PdfMatrix :=
  angle <- radians angle_degrees_ccw ;;
  c <- math_fun cos angle ;;
  s <- math_fun sin angle ;;
  m <- __init__ [OVal (VTuple [VFloat c; VFloat s; VFloat (- s)%float;
                               VFloat c; VInt 0; VInt 0])] ;;
  __matmul__ self m.

End Rotation.

(** The six accessors. *)
Definition row0 (self : PdfMatrix) : list value := fst (fst (values self)).
Definition row1 (self : PdfMatrix) : list value := snd (fst (values self)).
Definition row2 (self : PdfMatrix) : list value := snd (values self).

Definition a (self : PdfMatrix) : result value := getitem (row0 self) 0.
Definition b (self : PdfMatrix) : result value := getitem (row0 self) 1.
Definition c (self : PdfMatrix) : result value := getitem (row1 self) 0.
Definition d (self : PdfMatrix) : result value := getitem (row1 self) 1.
Definition e (self : PdfMatrix) : result value := getitem (row2 self) 0.
Definition f (self : PdfMatrix) : result value := getitem (row2 self) 1.

(** [self.shorthand]: the tuple [(a, b, c, d, e, f)]. *)
Definition shorthand (self : PdfMatrix) : result (list value) :=
  va <- a self ;; vb <- b self ;; vc <- c self ;;
  vd <- d self ;; ve <- e self ;; vf <- f self ;;
  Ok [va; vb; vc; vd; ve; vf].

(** [self.__eq__(other)].  The two shorthand tuples are new objects; their
    elements are the coefficient objects of the two instances, shared as
    [shared] says (all of them when [other] is [self] or holds the same
    [values] tuple). *)
Definition __eq__ (shared : list sharing) (self : PdfMatrix) (other : pyobj)
  : result bool :=
  match other with
  | OMat m =>
      s <- shorthand self ;;
      t <- shorthand m ;;
      Ok (py_eq_shared shared (VTuple s) (VTuple t))
  | OVal _ => Ok false
  end.

(** [self.encode()]: the six coefficients under [.6f], joined by single
    spaces, as bytes. *)
Definition encode (self : PdfMatrix) : result (list Byte.byte) :=
  va <- a self ;; vb <- b self ;; vc <- c self ;;
  vd <- d self ;; ve <- e self ;; vf <- f self ;;
  sa <- format_value va ;; sb <- format_value vb ;; sc <- format_value vc ;;
  sd <- format_value vd ;; se <- format_value ve ;; sf <- format_value vf ;;
  Ok (list_byte_of_string
        (sa ++ " " ++ sb ++ " " ++ sc ++ " " ++ sd ++ " " ++ se ++ " " ++ sf)).

End Matrix.

(** ** Instances in a store *)

(** Objects have an identity.  The store keeps, for each instance, the
    [values] attribute that [__init__] assigned to it; no other method of
    the class assigns an attribute. *)
Module Store.
Import Builtins Matrix.

Definition ref : Type := nat.

(** An instance in the store: the identity of its [values] tuple and the
    tuple. *)
Definition store : Type := list (nat * PdfMatrix).

(** An argument of a call: a plain value or a reference to an instance. *)
Inductive arg : Type :=
  | AVal (v : value)
  | ARef (r : ref).

(** [self.values] through a reference. *)
Definition load (h : store) (r : ref) : result PdfMatrix :=
  match nth_error h r with
  | Some (_, m) => Ok m
  | None => Raise AttributeError
  end.

(** The identity of [r.values]. *)
Definition grid_of (h : store) (r : ref) : nat :=
  match nth_error h r with
  | Some (g, _) => g
  | None => r
  end.

Definition load_arg (h : store) (x : arg) : result pyobj :=
  match x with
  | AVal v => Ok (OVal v)
  | ARef r => m <- load h r ;; Ok (OMat m)
  end.

(** The identity of the [values] tuple that [__init__] assigns: the copy
    branch ([self.values = args[0].values]) assigns the tuple of its
    source; every other branch makes a tuple, which is named after the
    new instance. *)
Definition new_grid (h : store) (args : list arg) : nat :=
  match args with
  | ARef r :: _ =>
      if Nat.eqb (List.length args) 6 then List.length h else grid_of h r
  | _ => List.length h
  end.

(** [PdfMatrix(...)]: a fresh object, initialised by [__init__]. *)
Definition new (h : store) (args : list arg) : result ref * store :=
  match (xs <- mapM (load_arg h) args ;; __init__ xs) with
  | Ok m => (Ok (List.length h), h ++ [(new_grid h args, m)])
  | Raise e => (Raise e, h)
  end.

(** Sequencing of calls that thread the store. *)
Definition and_then {A B : Type} (c : result A * store)
  (k : A -> store -> result B * store) : result B * store :=
  match c with
  | (Ok x, h) => k x h
  | (Raise e, h) => (Raise e, h)
  end.

Definition lift {A : Type} (h : store) (r : result A) : result A * store :=
  (r, h).

(** [self @ other]. *)
Definition matmul (h : store) (self other : ref) : result ref * store :=
  and_then (lift h (x <- load h self ;; y <- load h other ;; products x y))
    (fun rows h1 => new h1 [AVal (VList (map VList rows))]).

(** [self.scaled(x, y)]. *)
Definition scaled (h : store) (self : ref) (x y : value)
  : result ref * store :=
  and_then (new h [AVal (VTuple [x; VInt 0; VInt 0; y; VInt 0; VInt 0])])
    (fun m h1 => matmul h1 self m).

(** [self.translated(x, y)]. *)
Definition translated (h : store) (self : ref) (x y : value)
  : result ref * store :=
  and_then (new h [AVal (VTuple [VInt 1; VInt 0; VInt 0; VInt 1; x; y])])
    (fun m h1 => matmul h1 self m).

(** [self.rotated(angle_degrees_ccw)]. *)
Definition rotated (cos sin : PrimFloat.float -> PrimFloat.float)
  (h : store) (self : ref) (angle_degrees_ccw : value)
  : result ref * store :=
  and_then (lift h (angle <- radians angle_degrees_ccw ;;
                    c <- math_fun cos angle ;;
                    s <- math_fun sin angle ;;
                    Ok (c, s)))
    (fun cs h1 =>
       and_then
         (new h1 [AVal (VTuple [VFloat (fst cs); VFloat (snd cs);
                                VFloat (- snd cs)%float; VFloat (fst cs);
                                VInt 0; VInt 0])])
         (fun m h2 => matmul h2 self m)).

(** [r.shorthand] through a reference. *)
Definition shorthand_of (h : store) (r : ref) : result (list value) :=
  m <- load h r ;; shorthand m.

(** [self == other] through references.  Two instances that hold the same
    [values] tuple have the same coefficient objects; otherwise their
    coefficient objects are shared as [apart] says. *)
Definition eq (h : store) (apart : list sharing) (self other : ref)
  : result bool :=
  m <- load h self ;;
  n <- load h other ;;
  __eq__ (if Nat.eqb (grid_of h self) (grid_of h other) then all_same
          else apart) m (OMat n).

(** What a call returns, against what the method computes on grids: a
    reference to a new instance that holds the computed grid, or the same
    error. *)
Definition returns (h : store) (c : result ref * store)
  (r : result PdfMatrix) : Prop :=
  match r with
  | Ok C =>
      exists l, fst c = Ok l /\ load h l = Raise AttributeError
                /\ load (snd c) l = Ok C
  | Raise err => fst c = Raise err
  end.

(** A call that returns a new instance: a reference that named nothing
    before the call and names an instance after it. *)
Definition returns_new_instance (h : store) (c : result ref * store) : Prop :=
  exists l C,
    fst c = Ok l /\ load h l = Raise AttributeError /\ load (snd c) l = Ok C.

(** The store after a call keeps every instance it had. *)
Definition extends (h h' : store) : Prop := exists ext, h' = h ++ ext.

(** A returned reference is to an object made during the call. *)
Definition fresh (h : store) (c : result ref * store) : Prop :=
  forall l, fst c = Ok l -> (List.length h <= l < List.length (snd c))%nat.

(** The frame condition of a call: every instance of the store before is
    the same instance after, and a returned reference is to a new
    instance. *)
Definition frame (h : store) (c : result ref * store) : Prop :=
  (forall l m, load h l = Ok m -> load (snd c) l = Ok m)
  /\ (forall l, fst c = Ok l ->
        load h l = Raise AttributeError /\ exists m, load (snd c) l = Ok m).

End Store.

(** ** Vocabulary of the statements *)

Module Grid.
Import Builtins Matrix.

(** [self.values[i][j]]. *)
Definition cell (self : PdfMatrix) (i j : nat) : result value :=
  match i with
  | 0%nat => getitem (row0 self) j
  | 1%nat => getitem (row1 self) j
  | 2%nat => getitem (row2 self) j
  | _ => Raise IndexError
  end.

(** The grid read as floats, row by row. *)
Definition floats (self : PdfMatrix) : result (list (list PrimFloat.float)) :=
  mapM (mapM float_of_value) [row0 self; row1 self; row2 self].

(** Three rows of three entries. *)
Definition square (self : PdfMatrix) : bool :=
  forallb (fun r => Nat.eqb (List.length r) 3) [row0 self; row1 self; row2 self].

(** The sum over [k] of [x[i][k] * y[k][j]], accumulated from zero in the
    order k = 0, 1, 2. *)
Definition sigma (x y : list (list PrimFloat.float)) (i j : nat)
  : PrimFloat.float :=
  fold_left
    (fun acc k => (acc + nth k (nth i x []) 0 * nth j (nth k y []) 0)%float)
    [0; 1; 2]%nat 0%float.

(** The same sum over three explicit factors on each side. *)
Definition dot3 (x0 x1 x2 y0 y1 y2 : PrimFloat.float) : PrimFloat.float :=
  (0 + x0 * y0 + x1 * y1 + x2 * y2)%float.

(** The grid that [self @ other] builds from the floats of its operands. *)
Definition product_grid
  (x00 x01 x02 x10 x11 x12 x20 x21 x22 : PrimFloat.float)
  (y00 y01 y02 y10 y11 y12 y20 y21 y22 : PrimFloat.float) : PdfMatrix :=
  mkPdfMatrix
    ([VFloat (dot3 x00 x01 x02 y00 y10 y20);
      VFloat (dot3 x00 x01 x02 y01 y11 y21);
      VFloat (dot3 x00 x01 x02 y02 y12 y22)],
     [VFloat (dot3 x10 x11 x12 y00 y10 y20);
      VFloat (dot3 x10 x11 x12 y01 y11 y21);
      VFloat (dot3 x10 x11 x12 y02 y12 y22)],
     [VFloat (dot3 x20 x21 x22 y00 y10 y20);
      VFloat (dot3 x20 x21 x22 y01 y11 y21);
      VFloat (dot3 x20 x21 x22 y02 y12 y22)]).

(** The grid of [PdfMatrix((c, s, -s, c, 0, 0))]. *)
Definition rotation_grid (c s : PrimFloat.float) : PdfMatrix :=
  mkPdfMatrix ([VFloat c; VFloat s; VInt 0],
               [VFloat (- s)%float; VFloat c; VInt 0],
               [VFloat 0; VFloat 0; VInt 1]).

(** The third column as a tuple. *)
Definition third_column (self : PdfMatrix) : result (list value) :=
  x <- cell self 0 2 ;; y <- cell self 1 2 ;; z <- cell self 2 2 ;;
  Ok [x; y; z].

(** The invariant of the class docstring: the third column is
    [(0, 0, 1)] under [==]. *)
Definition invariant (self : PdfMatrix) : bool :=
  match third_column self with
  | Ok col => py_eq (VTuple col) (VTuple [VInt 0; VInt 0; VInt 1])
  | Raise _ => false
  end.

(** A float that is neither infinite nor NaN. *)
Definition finite (x : PrimFloat.float) : bool :=
  match Prim2SF x with
  | S754_zero _ | S754_finite _ _ _ => true
  | S754_infinity _ | S754_nan => false
  end.

(** The mantissa of [1.0], which is [2^52 * 2^-52]. *)
Definition two52 : positive := 4503599627370496%positive.

(** A float that is [0.0] or [-0.0]. *)
Definition zero (x : PrimFloat.float) : bool :=
  match Prim2SF x with
  | S754_zero _ => true
  | _ => false
  end.

(** Equal, or both zero: what [==] sees on finite floats. *)
Definition same (x y : PrimFloat.float) : Prop :=
  x = y \/ (zero x = true /\ zero y = true).

(** A number that [float] turns into a finite float. *)
Definition finite_value (v : value) : bool :=
  match float_of_value v with
  | Ok x => finite x
  | Raise _ => false
  end.

(** A number that [float] turns into a finite float without rounding: a
    finite float, or an integer that some float denotes. *)
Definition exact_value (v : value) : bool :=
  match float_of_value v with
  | Ok x => finite x && py_eq (VFloat x) v
  | Raise _ => false
  end.

(** Every entry of a three by three grid satisfies [p]. *)
Definition all_entries (p : value -> bool) (self : PdfMatrix) : bool :=
  square self && forallb (forallb p) [row0 self; row1 self; row2 self].

(** A value equal to a copy of itself under [==]: there is no NaN in
    it. *)
Definition reflexive_value (v : value) : bool := py_eq v v.

(** Within [tol] of a target. *)
Definition close (tol x target : PrimFloat.float) : bool :=
  (abs (x - target) <=? tol)%float.

(** A field written by [.6f] for a finite number: an optional minus sign,
    at least one digit, a point, six digits. *)
Definition is_digit (ch : ascii) : bool :=
  (48 <=? nat_of_ascii ch)%nat && (nat_of_ascii ch <=? 57)%nat.

Fixpoint all_digits (s : string) : bool :=
  match s with
  | EmptyString => true
  | String ch s' => is_digit ch && all_digits s'
  end.

(** Characters of the ASCII range, which UTF-8 encodes as themselves. *)
Fixpoint ascii7 (s : string) : bool :=
  match s with
  | EmptyString => true
  | String ch s' => (nat_of_ascii ch <? 128)%nat && ascii7 s'
  end.

(** A text without a space. *)
Fixpoint no_space (s : string) : bool :=
  match s with
  | EmptyString => true
  | String ch s' => negb (Ascii.eqb ch " ") && no_space s'
  end.

Definition fixed6 (s : string) : Prop :=
  exists (neg : bool) (whole fraction : string),
    s = (sign_string neg ++ whole ++ "." ++ fraction)%string
    /\ whole <> EmptyString
    /\ all_digits whole = true
    /\ String.length fraction = 6%nat
    /\ all_digits fraction = true.

End Grid.

(** ** Vocabulary of the further properties *)

Module Shape.
Import Builtins Matrix Grid.

(** What [sum] returns: a float, or the integer [0] of an empty sum. *)
Definition sum_value (v : value) : bool :=
  match v with
  | VInt z => Z.eqb z 0
  | VFloat _ => true
  | VNone | VTuple _ | VList _ => false
  end.

(** Every row has the two entries that the accessors read. *)
Definition two_columns (self : PdfMatrix) : bool :=
  forallb (fun r => Nat.leb 2 (List.length r)) [row0 self; row1 self; row2 self].

(** Two lists of floats that agree entry by entry up to the sign of a
    zero. *)
Definition same_all (rs xs : list PrimFloat.float) : Prop :=
  Forall2 same rs xs.

End Shape.

(** * Properties *)

Import Builtins Matrix Grid Shape.

(** ** The result monad *)

Lemma bind_Ok {A B : Type} (r : result A) (k : A -> result B) (y : B) :
  bind r k = Ok y -> exists x, r = Ok x /\ k x = Ok y.
Proof.
  destruct r as [x|err]; cbn; intros H; [|discriminate].
  exists x. split; [reflexivity|exact H].
Qed.

Lemma mapM_nil_inv {A B : Type} (f : A -> result B) (l : list A) :
  mapM f l = Ok [] -> l = [].
Proof.
  destruct l as [|x xs]; [reflexivity|]. cbn.
  destruct (f x); cbn; [|intros H; discriminate H].
  destruct (mapM f xs); cbn; intros H; discriminate H.
Qed.

Lemma mapM_cons_inv {A B : Type} (f : A -> result B) (l : list A)
  (y : B) (ys : list B) :
  mapM f l = Ok (y :: ys) ->
  exists x xs, l = x :: xs /\ f x = Ok y /\ mapM f xs = Ok ys.
Proof.
  destruct l as [|x xs]; cbn; [intros H; discriminate H|].
  destruct (f x) as [y'|] eqn:Hx; cbn; [|intros H; discriminate H].
  destruct (mapM f xs) as [ys'|] eqn:Hxs; cbn; [|intros H; discriminate H].
  intros H. injection H as -> ->. now exists x, xs.
Qed.

(** Reading a list of known length out of [mapM]. *)
Ltac mapM_inv H :=
  repeat match type of H with
  | mapM _ _ = Ok (_ :: _) =>
      let x := fresh "v" in
      let xs := fresh "vs" in
      let Hx := fresh "Hv" in
      apply mapM_cons_inv in H; destruct H as (x & xs & -> & Hx & H)
  | mapM _ _ = Ok [] => apply mapM_nil_inv in H; subst
  end.

(** ** Construction *)

(** C10: the raw-grid branch of the constructor checks only the length of
    the outer sequence and of its first row.  Whenever the single argument
    is a sequence of three sequences and the first one has three elements,
    the three rows are copied as they are, whatever the lengths and the
    contents of the second and third; [((1,0,0),(0,),())] is accepted. *)
Theorem init_grid_check_is_shallow :
  (forall (outer r0 r1 r2 : value) (t0 t1 t2 : list value),
     tuple outer = Ok [r0; r1; r2] ->
     tuple r0 = Ok t0 -> List.length t0 = 3%nat ->
     tuple r1 = Ok t1 -> tuple r2 = Ok t2 ->
     __init__ [OVal outer] = Ok (mkPdfMatrix (t0, t1, t2)))
  /\ __init__ [OVal (VTuple [VTuple [VInt 1; VInt 0; VInt 0];
                             VTuple [VInt 0]; VTuple []])]
     = Ok (mkPdfMatrix ([VInt 1; VInt 0; VInt 0], [VInt 0], [])).
Proof.
  split; [|reflexivity].
  intros outer r0 r1 r2 t0 t1 t2 Houter H0 Hlen H1 H2.
  assert (Hn : len_value outer = Ok 3)
    by (destruct outer; cbn in *; try discriminate;
        injection Houter as ->; reflexivity).
  assert (Hg : forall i, getitem_value outer i = getitem [r0; r1; r2] i)
    by (intros i; destruct outer; cbn in *; try discriminate;
        injection Houter as ->; reflexivity).
  assert (Hn0 : len_value r0 = Ok 3)
    by (destruct r0; cbn in *; try discriminate;
        injection H0 as ->; rewrite Hlen; reflexivity).
  unfold __init__. cbn [List.length Nat.eqb].
  rewrite Hn. cbn [bind Z.eqb Pos.eqb]. rewrite !Hg. cbn [getitem nth_error bind].
  rewrite Hn0. cbn [bind Z.eqb Pos.eqb]. rewrite H0, H1, H2. reflexivity.
Qed.

Lemma init_grid_check_is_shallow_witness :
  __init__ [OVal (VList [VTuple [VInt 1; VInt 0; VInt 7];
                         VList [VNone]; VTuple []])]
  = Ok (mkPdfMatrix ([VInt 1; VInt 0; VInt 7], [VNone], [])).
Proof.
  apply (proj1 init_grid_check_is_shallow
           (VList [VTuple [VInt 1; VInt 0; VInt 7]; VList [VNone]; VTuple []])
           (VTuple [VInt 1; VInt 0; VInt 7]) (VList [VNone]) (VTuple []));
    reflexivity.
Defined.

(** C3, at the inputs it names: five scalar arguments leave the
    constructor through [len(args[0])], which raises [TypeError] on a
    number, and never reach the [ValueError] of the last branch; a single
    sequence of length four does reach it, and the error carries the
    argument list. *)
Theorem init_five_scalars_raise_TypeError :
  __init__ [OVal (VInt 1); OVal (VInt 2); OVal (VInt 3); OVal (VInt 4);
            OVal (VInt 5)]
  = Raise TypeError
  /\ __init__ [OVal (VTuple [VInt 1; VInt 2; VInt 3; VInt 4])]
     = Raise (ValueError
                (invalid_arguments
                   [OVal (VTuple [VInt 1; VInt 2; VInt 3; VInt 4])])).
Proof. split; reflexivity. Qed.

(** The six-coefficient branches on arguments that [float] accepts. *)
Lemma from_six_Ok (xs : list pyobj) (xa xb xc xd xe xf : PrimFloat.float) :
  mapM float xs = Ok [xa; xb; xc; xd; xe; xf] ->
  from_six xs
  = Ok (mkPdfMatrix ([VFloat xa; VFloat xb; VInt 0],
                     [VFloat xc; VFloat xd; VInt 0],
                     [VFloat xe; VFloat xf; VInt 1])).
Proof. intros H. unfold from_six. rewrite H. reflexivity. Qed.

Lemma mapM_float_OVal (vs : list value) :
  mapM float (map OVal vs) = mapM float_of_value vs.
Proof.
  induction vs as [|v vs IH]; [reflexivity|].
  cbn [map mapM]. rewrite IH. reflexivity.
Qed.

Lemma init_six_scalars (va vb vc vd ve vf : value)
  (xa xb xc xd xe xf : PrimFloat.float) :
  mapM float_of_value [va; vb; vc; vd; ve; vf] = Ok [xa; xb; xc; xd; xe; xf] ->
  __init__ [OVal va; OVal vb; OVal vc; OVal vd; OVal ve; OVal vf]
  = Ok (mkPdfMatrix ([VFloat xa; VFloat xb; VInt 0],
                     [VFloat xc; VFloat xd; VInt 0],
                     [VFloat xe; VFloat xf; VInt 1])).
Proof.
  intros H. unfold __init__. cbn [List.length Nat.eqb].
  apply from_six_Ok.
  change [OVal va; OVal vb; OVal vc; OVal vd; OVal ve; OVal vf]
    with (map OVal [va; vb; vc; vd; ve; vf]).
  rewrite mapM_float_OVal. exact H.
Qed.

Lemma init_six_sequence (s va vb vc vd ve vf : value)
  (xa xb xc xd xe xf : PrimFloat.float) :
  tuple s = Ok [va; vb; vc; vd; ve; vf] ->
  mapM float_of_value [va; vb; vc; vd; ve; vf] = Ok [xa; xb; xc; xd; xe; xf] ->
  __init__ [OVal s]
  = Ok (mkPdfMatrix ([VFloat xa; VFloat xb; VInt 0],
                     [VFloat xc; VFloat xd; VInt 0],
                     [VFloat xe; VFloat xf; VInt 1])).
Proof.
  intros Hs H. unfold __init__. cbn [List.length Nat.eqb].
  assert (Hn : len_value s = Ok 6)
    by (destruct s; cbn in *; try discriminate;
        injection Hs as ->; reflexivity).
  rewrite Hn. cbn [bind Z.eqb Pos.eqb]. rewrite Hs. cbn [bind].
  apply from_six_Ok. rewrite mapM_float_OVal. exact H.
Qed.

(** C5: six scalars, passed as six arguments or as one sequence of six,
    come back from [shorthand] as the tuple of their [float] images; the
    accessors [a], [b], [c], [d], [e], [f] read the grid at (0,0), (0,1),
    (1,0), (1,1), (2,0), (2,1). *)
Theorem shorthand_round_trip (va vb vc vd ve vf : value)
  (xa xb xc xd xe xf : PrimFloat.float) :
  mapM float_of_value [va; vb; vc; vd; ve; vf] = Ok [xa; xb; xc; xd; xe; xf] ->
  (exists m,
     __init__ [OVal va; OVal vb; OVal vc; OVal vd; OVal ve; OVal vf] = Ok m
     /\ shorthand m
        = Ok [VFloat xa; VFloat xb; VFloat xc; VFloat xd; VFloat xe; VFloat xf])
  /\ (forall s, tuple s = Ok [va; vb; vc; vd; ve; vf] ->
      exists m,
        __init__ [OVal s] = Ok m
        /\ shorthand m
           = Ok [VFloat xa; VFloat xb; VFloat xc; VFloat xd; VFloat xe;
                 VFloat xf])
  /\ (forall m,
        a m = cell m 0 0 /\ b m = cell m 0 1 /\ c m = cell m 1 0
        /\ d m = cell m 1 1 /\ e m = cell m 2 0 /\ f m = cell m 2 1).
Proof.
  intros H. repeat split.
  - eexists. split; [apply (init_six_scalars _ _ _ _ _ _ _ _ _ _ _ _ H)|].
    reflexivity.
  - intros s Hs. eexists.
    split; [apply (init_six_sequence _ _ _ _ _ _ _ _ _ _ _ _ _ Hs H)|].
    reflexivity.
Qed.

Lemma shorthand_round_trip_witness :
  exists m,
    __init__ [OVal (VInt 1); OVal (VFloat 2.5); OVal (VInt 0); OVal (VInt (-4));
              OVal (VFloat 0.5); OVal (VInt 6)] = Ok m
    /\ shorthand m
       = Ok [VFloat 1; VFloat 2.5; VFloat 0; VFloat (-4); VFloat 0.5; VFloat 6].
Proof.
  apply (proj1 (shorthand_round_trip
                  (VInt 1) (VFloat 2.5) (VInt 0) (VInt (-4)) (VFloat 0.5)
                  (VInt 6) 1 2.5 0 (-4) 0.5 6 eq_refl)).
Defined.

(** ** Composition on numeric grids *)

Section NumericGrids.

Variables x00 x01 x02 x10 x11 x12 x20 x21 x22 : PrimFloat.float.
Variables y00 y01 y02 y10 y11 y12 y20 y21 y22 : PrimFloat.float.

Lemma entry_three (a0 a1 a2 b0 b1 b2 : value)
  (u0 u1 u2 w0 w1 w2 : PrimFloat.float) :
  float_of_value a0 = Ok u0 -> float_of_value a1 = Ok u1 ->
  float_of_value a2 = Ok u2 ->
  float_of_value b0 = Ok w0 -> float_of_value b1 = Ok w1 ->
  float_of_value b2 = Ok w2 ->
  entry [a0; a1; a2] [b0; b1; b2] = Ok (VFloat (dot3 u0 u1 u2 w0 w1 w2)).
Proof.
  intros Ha0 Ha1 Ha2 Hb0 Hb1 Hb2. unfold entry.
  cbn [combine mapM fst snd].
  rewrite Ha0, Ha1, Ha2, Hb0, Hb1, Hb2. reflexivity.
Qed.

Lemma matmul_numeric (A B : PdfMatrix) :
  floats A = Ok [[x00; x01; x02]; [x10; x11; x12]; [x20; x21; x22]] ->
  floats B = Ok [[y00; y01; y02]; [y10; y11; y12]; [y20; y21; y22]] ->
  __matmul__ A B
  = Ok (product_grid x00 x01 x02 x10 x11 x12 x20 x21 x22
                     y00 y01 y02 y10 y11 y12 y20 y21 y22).
Proof.
  destruct A as [[[a0 a1] a2]], B as [[[b0 b1] b2]].
  unfold floats, row0, row1, row2. cbn [values fst snd].
  intros HA HB.
  apply mapM_cons_inv in HA. destruct HA as (? & ? & E & HA0 & HA).
  injection E as <- <-.
  apply mapM_cons_inv in HA. destruct HA as (? & ? & E & HA1 & HA).
  injection E as <- <-.
  apply mapM_cons_inv in HA. destruct HA as (? & ? & E & HA2 & _).
  injection E as <- _.
  apply mapM_cons_inv in HB. destruct HB as (? & ? & E & HB0 & HB).
  injection E as <- <-.
  apply mapM_cons_inv in HB. destruct HB as (? & ? & E & HB1 & HB).
  injection E as <- <-.
  apply mapM_cons_inv in HB. destruct HB as (? & ? & E & HB2 & _).
  injection E as <- _.
  mapM_inv HA0. mapM_inv HA1. mapM_inv HA2.
  mapM_inv HB0. mapM_inv HB1. mapM_inv HB2.
  unfold __matmul__, products. cbn [values zip3 mapM].
  repeat (erewrite entry_three by eassumption; cbn [bind]).
  reflexivity.
Qed.

End NumericGrids.

Lemma shape_of_floats (g : list (list PrimFloat.float)) (A : PdfMatrix) :
  floats A = Ok g -> square A = true ->
  exists x00 x01 x02 x10 x11 x12 x20 x21 x22,
    g = [[x00; x01; x02]; [x10; x11; x12]; [x20; x21; x22]].
Proof.
  destruct A as [[[a0 a1] a2]].
  unfold floats, square, row0, row1, row2. cbn [values fst snd forallb].
  intros Hg Hs.
  apply andb_true_iff in Hs. destruct Hs as [H0 Hs].
  apply andb_true_iff in Hs. destruct Hs as [H1 Hs].
  apply andb_true_iff in Hs. destruct Hs as [H2 _].
  apply Nat.eqb_eq in H0, H1, H2.
  destruct a0 as [|? [|? [|? [|]]]]; try discriminate H0.
  destruct a1 as [|? [|? [|? [|]]]]; try discriminate H1.
  destruct a2 as [|? [|? [|? [|]]]]; try discriminate H2.
  cbn [mapM] in Hg.
  repeat match type of Hg with
  | context [float_of_value ?v] =>
      destruct (float_of_value v); cbn [bind] in Hg; [|discriminate Hg]
  end.
  injection Hg as <-. repeat eexists.
Qed.

(** C1, as the code has it: for two instances whose grids are three by
    three and hold numbers that [float] accepts (the third column may be
    anything of that kind), [self @ other] returns an instance whose entry
    at row i, column j is the sum over k of
    [float(self[i][k]) * float(other[k][j])], accumulated from zero in the
    order k = 0, 1, 2. *)
Theorem matmul_entries (A B : PdfMatrix) (x y : list (list PrimFloat.float)) :
  square A = true -> square B = true ->
  floats A = Ok x -> floats B = Ok y ->
  exists C,
    __matmul__ A B = Ok C
    /\ forall i j, (i < 3)%nat -> (j < 3)%nat ->
         cell C i j = Ok (VFloat (sigma x y i j)).
Proof.
  intros HsA HsB HA HB.
  destruct (shape_of_floats x A HA HsA)
    as (x00 & x01 & x02 & x10 & x11 & x12 & x20 & x21 & x22 & ->).
  destruct (shape_of_floats y B HB HsB)
    as (y00 & y01 & y02 & y10 & y11 & y12 & y20 & y21 & y22 & ->).
  eexists. split; [apply (matmul_numeric _ _ _ _ _ _ _ _ _ _ _ _ _ _ _ _ _ _ A B HA HB)|].
  intros i j Hi Hj.
  destruct i as [|[|[|i]]]; [| | |lia];
    (destruct j as [|[|[|j]]]; [| | |lia]); reflexivity.
Qed.

Lemma matmul_entries_witness :
  exists C,
    __matmul__
      (mkPdfMatrix ([VInt 1; VInt 2; VInt 5], [VInt 3; VInt 4; VInt 6],
                    [VInt 0; VInt 0; VInt 7]))
      (mkPdfMatrix ([VFloat 0.5; VInt 0; VInt 0], [VInt 0; VInt 2; VInt 0],
                    [VInt 1; VInt 1; VInt 1])) = Ok C
    /\ forall i j, (i < 3)%nat -> (j < 3)%nat ->
         cell C i j
         = Ok (VFloat (sigma [[1; 2; 5]; [3; 4; 6]; [0; 0; 7]]%float
                             [[0.5; 0; 0]; [0; 2; 0]; [1; 1; 1]]%float i j)).
Proof.
  apply (matmul_entries
           (mkPdfMatrix ([VInt 1; VInt 2; VInt 5], [VInt 3; VInt 4; VInt 6],
                         [VInt 0; VInt 0; VInt 7]))
           (mkPdfMatrix ([VFloat 0.5; VInt 0; VInt 0], [VInt 0; VInt 2; VInt 0],
                         [VInt 1; VInt 1; VInt 1])));
    reflexivity.
Defined.

(** C1 as stated fails: the raw-grid constructor accepts
    [((1,0,0),(0,),())], and composing the identity with that instance
    raises [ValueError] instead of returning an instance. *)
Lemma matmul_raises_on_ragged_grid :
  __init__ [OVal (VTuple [VTuple [VInt 1; VInt 0; VInt 0];
                          VTuple [VInt 0]; VTuple []])]
  = Ok (mkPdfMatrix ([VInt 1; VInt 0; VInt 0], [VInt 0], []))
  /\ (I <- identity ;;
      __matmul__ I (mkPdfMatrix ([VInt 1; VInt 0; VInt 0], [VInt 0], [])))
     = Raise (ValueError
                (invalid_arguments
                   [OVal (VList [VList []; VList []; VList []])])).
Proof. split; reflexivity. Qed.

(** ** Binary64 facts *)

Module FloatFacts.

Lemma Prim2SF_one : Prim2SF 1 = S754_finite false two52 (-52).
Proof. reflexivity. Qed.

Lemma digits2_two52 (m : positive) :
  Z.pos (digits2_pos (two52 * m)) = Z.pos (digits2_pos m) + 52.
Proof. unfold two52. cbn [Pos.mul digits2_pos]. lia. Qed.

Lemma shr_two52 (m : positive) :
  iter_pos shr_1 52
    {| shr_m := Z.pos (two52 * m); shr_r := false; shr_s := false |}
  = {| shr_m := Z.pos m; shr_r := false; shr_s := false |}.
Proof. reflexivity. Qed.

(** Rounding [m * 2^52] at exponent [e - 52] gives back [m] at exponent
    [e]: the product of a float with one needs no rounding. *)
Lemma round_two52 (s : bool) (m : positive) (e : Z) :
  bounded prec emax m e = true ->
  binary_round_aux prec emax s (Z.pos (two52 * m)) (-52 + e) loc_Exact
  = S754_finite s m e.
Proof.
  intros Hb. unfold bounded, canonical_mantissa in Hb.
  apply andb_true_iff in Hb. destruct Hb as [Hc He].
  apply Z.eqb_eq in Hc.
  unfold binary_round_aux, shr_fexp.
  unfold Zdigits2 at 1. rewrite digits2_two52.
  replace (Z.pos (digits2_pos m) + 52 + (-52 + e))
    with (Z.pos (digits2_pos m) + e) by lia.
  rewrite Hc.
  replace (e - (-52 + e)) with 52 by lia.
  unfold shr_record_of_loc, shr at 1.
  rewrite shr_two52.
  cbn [shr_m shr_r shr_s loc_of_shr_record round_nearest_even].
  replace (-52 + e + 52) with e by lia.
  unfold Zdigits2. rewrite Hc. rewrite Z.sub_diag.
  cbn [shr shr_m]. rewrite He. reflexivity.
Qed.

Lemma mul_1_l (x : PrimFloat.float) : finite x = true -> (1 * x)%float = x.
Proof.
  unfold finite. intros Hx. apply Prim2SF_inj.
  rewrite mul_spec, Prim2SF_one.
  pose proof (Prim2SF_valid x) as Hv.
  destruct (Prim2SF x) as [s|s| |s m e]; try discriminate.
  - reflexivity.
  - cbn [valid_binary] in Hv. unfold SF64mul, SFmul.
    cbn [xorb]. apply round_two52. exact Hv.
Qed.

Lemma mul_1_r (x : PrimFloat.float) : finite x = true -> (x * 1)%float = x.
Proof.
  unfold finite. intros Hx. apply Prim2SF_inj.
  rewrite mul_spec, Prim2SF_one.
  pose proof (Prim2SF_valid x) as Hv.
  destruct (Prim2SF x) as [s|s| |s m e]; try discriminate.
  - cbn. now rewrite xorb_false_r.
  - cbn [valid_binary] in Hv. unfold SF64mul, SFmul.
    rewrite xorb_false_r, Pos.mul_comm, Z.add_comm.
    apply round_two52. exact Hv.
Qed.

Lemma mul_zero_l (z x : PrimFloat.float) :
  zero z = true -> finite x = true -> zero (z * x) = true.
Proof.
  unfold zero, finite. rewrite mul_spec.
  destruct (Prim2SF z), (Prim2SF x); try discriminate; reflexivity.
Qed.

Lemma mul_zero_r (x z : PrimFloat.float) :
  finite x = true -> zero z = true -> zero (x * z) = true.
Proof.
  unfold zero, finite. rewrite mul_spec.
  destruct (Prim2SF z), (Prim2SF x); try discriminate; reflexivity.
Qed.

Lemma zero_finite (x : PrimFloat.float) : zero x = true -> finite x = true.
Proof. unfold zero, finite. destruct (Prim2SF x); easy. Qed.

Lemma add_zero_r (x z : PrimFloat.float) :
  finite x = true -> zero z = true -> same (x + z) x.
Proof.
  unfold same, finite, zero. intros Hx Hz.
  destruct (Prim2SF z) as [sz| | |] eqn:Ez; try discriminate.
  destruct (Prim2SF x) as [sx| | |sx mx ex] eqn:Ex; try discriminate.
  - right. split; [|reflexivity]. rewrite add_spec, Ex, Ez.
    destruct sx, sz; reflexivity.
  - left. apply Prim2SF_inj. rewrite add_spec, Ex, Ez. reflexivity.
Qed.

Lemma add_zero_l (z x : PrimFloat.float) :
  zero z = true -> finite x = true -> same (z + x) x.
Proof.
  unfold same, finite, zero. intros Hz Hx.
  destruct (Prim2SF z) as [sz| | |] eqn:Ez; try discriminate.
  destruct (Prim2SF x) as [sx| | |sx mx ex] eqn:Ex; try discriminate.
  - right. split; [|reflexivity]. rewrite add_spec, Ex, Ez.
    destruct sx, sz; reflexivity.
  - left. apply Prim2SF_inj. rewrite add_spec, Ex, Ez. reflexivity.
Qed.

Lemma zero_add_zero (y z : PrimFloat.float) :
  zero y = true -> zero z = true -> zero (y + z) = true.
Proof.
  unfold zero. rewrite add_spec.
  destruct (Prim2SF y) as [sy| | |]; try discriminate.
  destruct (Prim2SF z) as [sz| | |]; try discriminate.
  destruct sy, sz; reflexivity.
Qed.

Lemma same_add_zero (r x z : PrimFloat.float) :
  same r x -> finite x = true -> zero z = true -> same (r + z) x.
Proof.
  intros [->|[Hr Hx0]] Hx Hz.
  - now apply add_zero_r.
  - right. split; [|exact Hx0]. now apply zero_add_zero.
Qed.

(** A sum of three terms of which two are zero. *)
Lemma sum3_first (t1 t2 x : PrimFloat.float) :
  finite x = true -> zero t1 = true -> zero t2 = true ->
  same (0 + x + t1 + t2) x.
Proof.
  intros Hx H1 H2.
  apply same_add_zero; [|assumption|assumption].
  apply same_add_zero; [|assumption|assumption].
  now apply add_zero_l.
Qed.

Lemma sum3_second (t0 t2 y : PrimFloat.float) :
  zero t0 = true -> finite y = true -> zero t2 = true ->
  same (0 + t0 + y + t2) y.
Proof.
  intros H0 Hy H2.
  apply same_add_zero; [|assumption|assumption].
  apply add_zero_l; [|assumption].
  now apply zero_add_zero.
Qed.

Lemma sum3_third (t0 t1 z : PrimFloat.float) :
  zero t0 = true -> zero t1 = true -> finite z = true ->
  same (0 + t0 + t1 + z) z.
Proof.
  intros H0 H1 Hz.
  apply add_zero_l; [|assumption].
  apply zero_add_zero; [|assumption].
  now apply zero_add_zero.
Qed.

(** A row against a unit column, and a unit row against a column. *)
Lemma dot3_unit_0_r (x y z z1 z2 : PrimFloat.float) :
  finite x = true -> finite y = true -> finite z = true ->
  zero z1 = true -> zero z2 = true ->
  same (dot3 x y z 1 z1 z2) x.
Proof.
  intros. unfold dot3. rewrite mul_1_r by assumption.
  apply sum3_first; auto using mul_zero_r.
Qed.

Lemma dot3_unit_1_r (x y z z0 z2 : PrimFloat.float) :
  finite x = true -> finite y = true -> finite z = true ->
  zero z0 = true -> zero z2 = true ->
  same (dot3 x y z z0 1 z2) y.
Proof.
  intros. unfold dot3. rewrite mul_1_r by assumption.
  apply sum3_second; auto using mul_zero_r.
Qed.

Lemma dot3_unit_2_r (x y z z0 z1 : PrimFloat.float) :
  finite x = true -> finite y = true -> finite z = true ->
  zero z0 = true -> zero z1 = true ->
  same (dot3 x y z z0 z1 1) z.
Proof.
  intros. unfold dot3. rewrite mul_1_r by assumption.
  apply sum3_third; auto using mul_zero_r.
Qed.

Lemma dot3_unit_0_l (x y z : PrimFloat.float) :
  finite x = true -> finite y = true -> finite z = true ->
  same (dot3 1 0 0 x y z) x.
Proof.
  intros. unfold dot3. rewrite mul_1_l by assumption.
  apply sum3_first; auto using mul_zero_l.
Qed.

Lemma dot3_unit_1_l (x y z : PrimFloat.float) :
  finite x = true -> finite y = true -> finite z = true ->
  same (dot3 0 1 0 x y z) y.
Proof.
  intros. unfold dot3. rewrite mul_1_l by assumption.
  apply sum3_second; auto using mul_zero_l.
Qed.

Lemma dot3_unit_2_l (x y z : PrimFloat.float) :
  finite x = true -> finite y = true -> finite z = true ->
  same (dot3 0 0 1 x y z) z.
Proof.
  intros. unfold dot3. rewrite mul_1_l by assumption.
  apply sum3_third; auto using mul_zero_l.
Qed.

(** [==] does not tell two floats apart that are the same up to the sign
    of zero. *)
Lemma py_eq_same (r x : PrimFloat.float) (v : value) :
  same r x -> py_eq (VFloat x) v = true -> py_eq (VFloat r) v = true.
Proof.
  intros [->|[Hr Hx]] H; [exact H|].
  unfold zero in Hr, Hx.
  destruct (Prim2SF r) as [sr| | |] eqn:Er; try discriminate.
  destruct (Prim2SF x) as [sx| | |] eqn:Ex; try discriminate.
  destruct v as [z|y| | |]; cbn [py_eq] in *; try discriminate.
  - unfold int_eq_float in *. rewrite Er. rewrite Ex in H. exact H.
  - rewrite eqb_spec in *. rewrite Er. rewrite Ex in H.
    unfold SFeqb, SFcompare in *. destruct (Prim2SF y); auto.
Qed.

End FloatFacts.

(** ** Grids whose entries satisfy a predicate *)

Lemma all_entries_inv (p : value -> bool) (M : PdfMatrix) :
  all_entries p M = true ->
  exists m00 m01 m02 m10 m11 m12 m20 m21 m22,
    M = mkPdfMatrix ([m00; m01; m02], [m10; m11; m12], [m20; m21; m22])
    /\ (p m00 = true /\ p m01 = true /\ p m02 = true)
    /\ (p m10 = true /\ p m11 = true /\ p m12 = true)
    /\ (p m20 = true /\ p m21 = true /\ p m22 = true).
Proof.
  destruct M as [[[r0 r1] r2]].
  unfold all_entries, square, row0, row1, row2. cbn [values fst snd forallb].
  intros H.
  repeat match type of H with
  | _ && _ = true => apply andb_true_iff in H; destruct H as [? H]
  end.
  repeat match goal with
  | Hn : Nat.eqb _ _ = true |- _ => apply Nat.eqb_eq in Hn
  end.
  destruct r0 as [|? [|? [|? [|]]]]; try discriminate.
  destruct r1 as [|? [|? [|? [|]]]]; try discriminate.
  destruct r2 as [|? [|? [|? [|]]]]; try discriminate.
  cbn [forallb] in *.
  repeat match goal with
  | Hc : _ && _ = true |- _ => apply andb_true_iff in Hc; destruct Hc
  end.
  do 9 eexists. repeat split; eassumption.
Qed.

Lemma finite_value_inv (v : value) :
  finite_value v = true ->
  exists x, float_of_value v = Ok x /\ finite x = true.
Proof.
  unfold finite_value. destruct (float_of_value v) as [x|]; [|discriminate].
  intros H. now exists x.
Qed.

Lemma exact_value_inv (v : value) :
  exact_value v = true ->
  exists x,
    float_of_value v = Ok x /\ finite x = true /\ py_eq (VFloat x) v = true.
Proof.
  unfold exact_value. destruct (float_of_value v) as [x|]; [|discriminate].
  intros H. apply andb_true_iff in H. destruct H. now exists x.
Qed.

Lemma floats_of_grid (m00 m01 m02 m10 m11 m12 m20 m21 m22 : value)
  (x00 x01 x02 x10 x11 x12 x20 x21 x22 : PrimFloat.float) :
  float_of_value m00 = Ok x00 -> float_of_value m01 = Ok x01 ->
  float_of_value m02 = Ok x02 -> float_of_value m10 = Ok x10 ->
  float_of_value m11 = Ok x11 -> float_of_value m12 = Ok x12 ->
  float_of_value m20 = Ok x20 -> float_of_value m21 = Ok x21 ->
  float_of_value m22 = Ok x22 ->
  floats (mkPdfMatrix ([m00; m01; m02], [m10; m11; m12], [m20; m21; m22]))
  = Ok [[x00; x01; x02]; [x10; x11; x12]; [x20; x21; x22]].
Proof.
  intros. unfold floats, row0, row1, row2. cbn [values fst snd mapM].
  repeat match goal with
  | Hf : float_of_value _ = Ok _ |- _ => rewrite Hf; clear Hf
  end.
  reflexivity.
Qed.

Lemma py_eq_tuple6 (a1 a2 a3 a4 a5 a6 b1 b2 b3 b4 b5 b6 : value) :
  py_eq (VTuple [a1; a2; a3; a4; a5; a6]) (VTuple [b1; b2; b3; b4; b5; b6])
  = py_eq a1 b1 && (py_eq a2 b2 && (py_eq a3 b3 && (py_eq a4 b4
      && (py_eq a5 b5 && (py_eq a6 b6 && true))))).
Proof. reflexivity. Qed.

(** Sharing can only make two values equal: what [==] accepts without
    shared objects, it accepts with them. *)
Lemma py_eq_shared_mono :
  forall (u v : value) (sh : list sharing),
    py_eq u v = true -> py_eq_shared sh u v = true.
Proof.
  fix IH 1. intros u v sh.
  destruct u as [z|x| |l|l], v as [z'|x'| |l'|l']; cbn [py_eq py_eq_shared];
    try (intros H; exact H).
  - revert sh l'. induction l as [|w ws IHl]; intros sh [|w' ws'] H;
      try exact H.
    apply andb_true_iff in H. destruct H as [Hw Hws].
    destruct sh as [|[|inner] sh']; apply andb_true_intro; split; auto.
    apply orb_true_iff. right. auto.
  - revert sh l'. induction l as [|w ws IHl]; intros sh [|w' ws'] H;
      try exact H.
    apply andb_true_iff in H. destruct H as [Hw Hws].
    destruct sh as [|[|inner] sh']; apply andb_true_intro; split; auto.
    apply orb_true_iff. right. auto.
Qed.

(** Without shared objects, [py_eq_shared] is [py_eq]. *)
Lemma py_eq_shared_nil : forall u v : value, py_eq_shared [] u v = py_eq u v.
Proof.
  fix IH 1. intros u v.
  destruct u as [z|x| |l|l], v as [z'|x'| |l'|l']; cbn [py_eq py_eq_shared];
    try reflexivity.
  - revert l'. induction l as [|w ws IHl]; intros [|w' ws']; try reflexivity.
    now rewrite IH, IHl.
  - revert l'. induction l as [|w ws IHl]; intros [|w' ws']; try reflexivity.
    now rewrite IH, IHl.
Qed.

Lemma same_or_eq_mono (s : sharing) (u v : value) :
  py_eq u v = true -> same_or_eq s u v = true.
Proof.
  intros H. destruct s as [|inner]; cbn [same_or_eq].
  - apply orb_true_iff. right. now apply py_eq_shared_mono.
  - now apply py_eq_shared_mono.
Qed.

(** A value is identical to itself. *)
Lemma identical_float_refl (x : PrimFloat.float) : identical_float x x = true.
Proof.
  unfold identical_float. destruct (Prim2SF x) as [s|s| |s m e];
    try reflexivity; try apply Bool.eqb_reflx.
  now rewrite Bool.eqb_reflx, Pos.eqb_refl, Z.eqb_refl.
Qed.

Lemma identical_refl : forall v : value, identical v v = true.
Proof.
  fix IH 1. intros v.
  destruct v as [z|x| |l|l]; cbn [identical].
  - apply Z.eqb_refl.
  - apply identical_float_refl.
  - reflexivity.
  - induction l as [|w ws IHl]; [reflexivity|]. now rewrite IH, IHl.
  - induction l as [|w ws IHl]; [reflexivity|]. now rewrite IH, IHl.
Qed.

Lemma same_or_eq_refl (v : value) : same_or_eq Same v v = true.
Proof. cbn [same_or_eq]. now rewrite identical_refl. Qed.

Lemma py_eq_shared_tuple6 (sh : list sharing)
  (a1 a2 a3 a4 a5 a6 b1 b2 b3 b4 b5 b6 : value) :
  py_eq_shared sh (VTuple [a1; a2; a3; a4; a5; a6])
                  (VTuple [b1; b2; b3; b4; b5; b6])
  = same_or_eq (share_at sh 0) a1 b1 && (same_or_eq (share_at sh 1) a2 b2
    && (same_or_eq (share_at sh 2) a3 b3 && (same_or_eq (share_at sh 3) a4 b4
    && (same_or_eq (share_at sh 4) a5 b5
    && (same_or_eq (share_at sh 5) a6 b6 && true))))).
Proof.
  destruct sh as [|s0 [|s1 [|s2 [|s3 [|s4 [|s5 sh]]]]]];
    repeat match goal with s : sharing |- _ => destruct s end;
    reflexivity.
Qed.

(** Two instances with equal shorthand tuples are equal whatever objects
    they share. *)
Lemma eq_of_py_eq (sh : list sharing) (s t : list value) :
  py_eq (VTuple s) (VTuple t) = true ->
  Ok (py_eq_shared sh (VTuple s) (VTuple t)) = Ok true.
Proof. intros H. f_equal. now apply py_eq_shared_mono. Qed.

Lemma identity_floats :
  exists I,
    identity = Ok I
    /\ floats I = Ok [[1; 0; 0]; [0; 1; 0]; [0; 0; 1]]%float.
Proof. eexists. split; reflexivity. Qed.

(** ** Identity laws *)

(** C6, as the code has it: for every instance whose grid is three by
    three and whose entries are finite floats or integers that [float]
    converts without rounding, composing with the identity on either side
    gives an instance equal to it under [__eq__]. *)
Theorem identity_laws (M : PdfMatrix) :
  all_entries exact_value M = true ->
  exists I L R,
    identity = Ok I
    /\ __matmul__ I M = Ok L
    /\ (forall shared, __eq__ shared L (OMat M) = Ok true)
    /\ __matmul__ M I = Ok R
    /\ (forall shared, __eq__ shared R (OMat M) = Ok true).
Proof.
  intros H. apply all_entries_inv in H.
  destruct H as (m00 & m01 & m02 & m10 & m11 & m12 & m20 & m21 & m22 & ->
                 & (H00 & H01 & H02) & (H10 & H11 & H12) & (H20 & H21 & H22)).
  apply exact_value_inv in H00, H01, H02, H10, H11, H12, H20, H21, H22.
  destruct H00 as (x00 & F00 & N00 & E00), H01 as (x01 & F01 & N01 & E01),
    H02 as (x02 & F02 & N02 & E02), H10 as (x10 & F10 & N10 & E10),
    H11 as (x11 & F11 & N11 & E11), H12 as (x12 & F12 & N12 & E12),
    H20 as (x20 & F20 & N20 & E20), H21 as (x21 & F21 & N21 & E21),
    H22 as (x22 & F22 & N22 & E22).
  pose proof (floats_of_grid _ _ _ _ _ _ _ _ _ _ _ _ _ _ _ _ _ _
                F00 F01 F02 F10 F11 F12 F20 F21 F22) as HM.
  destruct identity_floats as (I & HI & HIf).
  exists I. do 2 eexists. split; [exact HI|].
  split; [apply (matmul_numeric _ _ _ _ _ _ _ _ _ _ _ _ _ _ _ _ _ _ I _ HIf HM)|].
  split.
  { intros shared.
    unfold __eq__, shorthand, a, b, c, d, e, f, product_grid, row0, row1, row2.
    cbn [values fst snd getitem nth_error bind].
    apply eq_of_py_eq. rewrite py_eq_tuple6.
    repeat (apply andb_true_intro; split); try reflexivity;
      (eapply FloatFacts.py_eq_same; [|eassumption]);
      auto using FloatFacts.dot3_unit_0_l, FloatFacts.dot3_unit_1_l,
        FloatFacts.dot3_unit_2_l. }
  split; [apply (matmul_numeric _ _ _ _ _ _ _ _ _ _ _ _ _ _ _ _ _ _ _ I HM HIf)|].
  intros shared.
  unfold __eq__, shorthand, a, b, c, d, e, f, product_grid, row0, row1, row2.
  cbn [values fst snd getitem nth_error bind].
  apply eq_of_py_eq. rewrite py_eq_tuple6.
  repeat (apply andb_true_intro; split); try reflexivity;
    (eapply FloatFacts.py_eq_same; [|eassumption]);
    auto using FloatFacts.dot3_unit_0_r, FloatFacts.dot3_unit_1_r,
      FloatFacts.dot3_unit_2_r.
Qed.

Lemma identity_laws_witness :
  exists I L R,
    identity = Ok I
    /\ __matmul__ I (mkPdfMatrix ([VFloat 0.5; VInt 2; VInt 0],
                                  [VFloat (-3); VFloat 1.25; VInt 0],
                                  [VInt 7; VFloat (-0); VInt 1])) = Ok L
    /\ (forall shared,
          __eq__ shared L
            (OMat (mkPdfMatrix ([VFloat 0.5; VInt 2; VInt 0],
                                [VFloat (-3); VFloat 1.25; VInt 0],
                                [VInt 7; VFloat (-0); VInt 1]))) = Ok true)
    /\ __matmul__ (mkPdfMatrix ([VFloat 0.5; VInt 2; VInt 0],
                                [VFloat (-3); VFloat 1.25; VInt 0],
                                [VInt 7; VFloat (-0); VInt 1])) I = Ok R
    /\ (forall shared,
          __eq__ shared R
            (OMat (mkPdfMatrix ([VFloat 0.5; VInt 2; VInt 0],
                                [VFloat (-3); VFloat 1.25; VInt 0],
                                [VInt 7; VFloat (-0); VInt 1]))) = Ok true).
Proof.
  apply (identity_laws (mkPdfMatrix ([VFloat 0.5; VInt 2; VInt 0],
                                     [VFloat (-3); VFloat 1.25; VInt 0],
                                     [VInt 7; VFloat (-0); VInt 1]))).
  vm_compute. reflexivity.
Defined.

(** C6 as stated fails: the instance [PdfMatrix(inf, 0, 0, 1, 0, 0)] has
    third column (0, 0, 1), and the identity composed with it differs from
    it, because [0.0 * inf] is NaN.  The coefficients c and e of the two
    differ in value, so they are not one object; the result is [False]
    whether or not the others are shared. *)
Lemma identity_law_fails_on_infinity :
  __init__ [OVal (VFloat infinity); OVal (VInt 0); OVal (VInt 0);
            OVal (VInt 1); OVal (VInt 0); OVal (VInt 0)]
  = Ok (mkPdfMatrix ([VFloat infinity; VFloat 0; VInt 0],
                     [VFloat 0; VFloat 1; VInt 0],
                     [VFloat 0; VFloat 0; VInt 1]))
  /\ invariant (mkPdfMatrix ([VFloat infinity; VFloat 0; VInt 0],
                             [VFloat 0; VFloat 1; VInt 0],
                             [VFloat 0; VFloat 0; VInt 1])) = true
  /\ (I <- identity ;;
      L <- __matmul__ I (mkPdfMatrix ([VFloat infinity; VFloat 0; VInt 0],
                                      [VFloat 0; VFloat 1; VInt 0],
                                      [VFloat 0; VFloat 0; VInt 1])) ;;
      shorthand L)
     = Ok [VFloat infinity; VFloat 0; VFloat nan; VFloat 1; VFloat nan;
           VFloat 0]
  /\ (I <- identity ;;
      L <- __matmul__ I (mkPdfMatrix ([VFloat infinity; VFloat 0; VInt 0],
                                      [VFloat 0; VFloat 1; VInt 0],
                                      [VFloat 0; VFloat 0; VInt 1])) ;;
      __eq__ [] L (OMat (mkPdfMatrix ([VFloat infinity; VFloat 0; VInt 0],
                                      [VFloat 0; VFloat 1; VInt 0],
                                      [VFloat 0; VFloat 0; VInt 1]))))
     = Ok false
  /\ (I <- identity ;;
      L <- __matmul__ I (mkPdfMatrix ([VFloat infinity; VFloat 0; VInt 0],
                                      [VFloat 0; VFloat 1; VInt 0],
                                      [VFloat 0; VFloat 0; VInt 1])) ;;
      __eq__ [Same; Same; Apart []; Same; Apart []; Same] L
        (OMat (mkPdfMatrix ([VFloat infinity; VFloat 0; VInt 0],
                            [VFloat 0; VFloat 1; VInt 0],
                            [VFloat 0; VFloat 0; VInt 1]))))
     = Ok false.
Proof. repeat split. Qed.

(** ** The third column *)

Module ColumnFacts.
Import FloatFacts.

Lemma digits2_log2 (m : positive) :
  Z.pos (digits2_pos m) = Z.log2 (Z.pos m) + 1.
Proof.
  assert (Hs : forall p, digits2_pos p = Pos.size p)
    by (induction p as [p IH|p IH|]; cbn; now rewrite ?IH).
  rewrite Hs. destruct m as [p|p|]; cbn; lia.
Qed.

(** The only float that equals the integer one is [1.0]. *)
Lemma int_eq_float_one (y : PrimFloat.float) :
  int_eq_float 1 y = true -> y = 1%float.
Proof.
  unfold int_eq_float. intros H.
  pose proof (Prim2SF_valid y) as Hv.
  destruct (Prim2SF y) as [s|s| |s m e] eqn:Ey; try discriminate.
  cbn [valid_binary] in Hv. unfold bounded, canonical_mantissa in Hv.
  apply andb_true_iff in Hv. destruct Hv as [Hc _]. apply Z.eqb_eq in Hc.
  destruct (Z.leb_spec 0 e) as [He|He]; apply Z.eqb_eq in H.
  - exfalso. destruct s; [lia|].
    assert (H2 : 0 < 2 ^ e) by (apply Z.pow_pos_nonneg; lia).
    assert (Hm : Z.pos m = 1) by nia. assert (Hp : 2 ^ e = 1) by nia.
    injection Hm as ->.
    destruct (Z.eq_dec e 0) as [->|Hne]; [discriminate Hc|].
    assert (1 < 2 ^ e) by (apply Z.pow_gt_1; lia). lia.
  - destruct s; [lia|]. rewrite Z.mul_1_l in H.
    rewrite digits2_log2, <- H, Z.log2_pow2 in Hc by lia.
    replace (- e + 1 + e) with 1 in Hc by lia.
    assert (He52 : e = -52) by (rewrite <- Hc; reflexivity).
    subst e. change (2 ^ (- (-52))) with (Z.pos two52) in H.
    injection H as <-. apply Prim2SF_inj. rewrite Ey. reflexivity.
Qed.

(** The floats that equal the integer zero are the two zeros. *)
Lemma int_eq_float_zero (y : PrimFloat.float) :
  int_eq_float 0 y = true -> zero y = true.
Proof.
  unfold int_eq_float, zero.
  destruct (Prim2SF y) as [s|s| |s m e]; try discriminate; [reflexivity|].
  destruct (Z.leb_spec 0 e) as [He|He]; intros H; apply Z.eqb_eq in H.
  - assert (H2 : 0 < 2 ^ e) by (apply Z.pow_pos_nonneg; lia).
    destruct s; nia.
  - destruct s; lia.
Qed.

Lemma value_one (v : value) (y : PrimFloat.float) :
  float_of_value v = Ok y -> py_eq v (VInt 1) = true -> y = 1%float.
Proof.
  destruct v as [z|x| | |]; cbn [float_of_value py_eq]; try discriminate.
  - intros Hy Hz. apply Z.eqb_eq in Hz. subst z.
    vm_compute in Hy. now injection Hy as <-.
  - intros Hy Hx. injection Hy as ->. now apply int_eq_float_one.
Qed.

Lemma value_zero (v : value) (y : PrimFloat.float) :
  float_of_value v = Ok y -> py_eq v (VInt 0) = true -> zero y = true.
Proof.
  destruct v as [z|x| | |]; cbn [float_of_value py_eq]; try discriminate.
  - intros Hy Hz. apply Z.eqb_eq in Hz. subst z.
    vm_compute in Hy. now injection Hy as <-.
  - intros Hy Hx. injection Hy as ->. now apply int_eq_float_zero.
Qed.

(** Comparing a number with a small integer, or its float image with it,
    is the same comparison. *)
Lemma float_image_eq (v : value) (y : PrimFloat.float) (k : Z) :
  k = 0 \/ k = 1 ->
  float_of_value v = Ok y -> py_eq v (VInt k) = true ->
  py_eq (VFloat y) (VInt k) = true.
Proof.
  intros Hk.
  destruct v as [z|x| | |]; cbn [float_of_value py_eq]; try discriminate.
  - intros Hy Hz. apply Z.eqb_eq in Hz. subst z.
    destruct Hk as [->| ->]; vm_compute in Hy; now injection Hy as <-.
  - intros Hy Hx. now injection Hy as <-.
Qed.

Lemma py_eq_tuple3 (a1 a2 a3 b1 b2 b3 : value) :
  py_eq (VTuple [a1; a2; a3]) (VTuple [b1; b2; b3])
  = py_eq a1 b1 && (py_eq a2 b2 && (py_eq a3 b3 && true)).
Proof. reflexivity. Qed.

Lemma invariant_grid (m00 m01 m02 m10 m11 m12 m20 m21 m22 : value) :
  invariant (mkPdfMatrix ([m00; m01; m02], [m10; m11; m12], [m20; m21; m22]))
  = py_eq m02 (VInt 0) && (py_eq m12 (VInt 0) && (py_eq m22 (VInt 1) && true)).
Proof. reflexivity. Qed.

(** Composition keeps the invariant when the left operand has finite
    entries. *)
Lemma matmul_invariant (A B : PdfMatrix) :
  all_entries finite_value A = true ->
  square B = true -> (exists y, floats B = Ok y) ->
  invariant A = true -> invariant B = true ->
  exists C, __matmul__ A B = Ok C /\ invariant C = true.
Proof.
  intros HA HsB [y HB] HiA HiB.
  apply all_entries_inv in HA.
  destruct HA as (m00 & m01 & m02 & m10 & m11 & m12 & m20 & m21 & m22 & ->
                 & (H00 & H01 & H02) & (H10 & H11 & H12) & (H20 & H21 & H22)).
  apply finite_value_inv in H00, H01, H02, H10, H11, H12, H20, H21, H22.
  destruct H00 as (x00 & F00 & N00), H01 as (x01 & F01 & N01),
    H02 as (x02 & F02 & N02), H10 as (x10 & F10 & N10),
    H11 as (x11 & F11 & N11), H12 as (x12 & F12 & N12),
    H20 as (x20 & F20 & N20), H21 as (x21 & F21 & N21),
    H22 as (x22 & F22 & N22).
  pose proof (floats_of_grid _ _ _ _ _ _ _ _ _ _ _ _ _ _ _ _ _ _
                F00 F01 F02 F10 F11 F12 F20 F21 F22) as HAf.
  destruct (shape_of_floats y B HB HsB)
    as (y00 & y01 & y02 & y10 & y11 & y12 & y20 & y21 & y22 & ->).
  destruct B as [[[b0 b1] b2]].
  assert (HB' := HB).
  unfold floats, row0, row1, row2 in HB'. cbn [values fst snd] in HB'.
  apply mapM_cons_inv in HB'. destruct HB' as (? & ? & E & HB0 & HB').
  injection E as <- <-.
  apply mapM_cons_inv in HB'. destruct HB' as (? & ? & E & HB1 & HB').
  injection E as <- <-.
  apply mapM_cons_inv in HB'. destruct HB' as (? & ? & E & HB2 & _).
  injection E as <- _.
  mapM_inv HB0. mapM_inv HB1. mapM_inv HB2.
  rewrite invariant_grid in HiA, HiB.
  repeat match goal with
  | Hc : _ && _ = true |- _ => apply andb_true_iff in Hc; destruct Hc
  end.
  eexists.
  split; [apply (matmul_numeric _ _ _ _ _ _ _ _ _ _ _ _ _ _ _ _ _ _ _ _ HAf HB)|].
  unfold product_grid. rewrite invariant_grid.
  assert (y22 = 1%float) as -> by eauto using value_one.
  assert (zero y02 = true) by eauto using value_zero.
  assert (zero y12 = true) by eauto using value_zero.
  repeat (apply andb_true_intro; split); try reflexivity;
    (eapply py_eq_same; [apply dot3_unit_2_r; assumption |]);
    eapply float_image_eq; eauto.
Qed.

End ColumnFacts.

Lemma float_of_int_0 : float_of_int 0 = Ok 0%float.
Proof. reflexivity. Qed.

Lemma float_of_int_1 : float_of_int 1 = Ok 1%float.
Proof. reflexivity. Qed.

Lemma init_six_invariant (xs : list pyobj) (M : PdfMatrix) :
  from_six xs = Ok M -> invariant M = true.
Proof.
  unfold from_six. intros H. apply bind_Ok in H. destruct H as (fs & _ & H).
  destruct fs as [|? [|? [|? [|? [|? [|? [|]]]]]]]; try discriminate H.
  injection H as <-. reflexivity.
Qed.

(** A transform builder: the receiver composed with a matrix made from a
    tuple of six numbers. *)
Lemma builder_invariant (M : PdfMatrix) (v1 v2 v3 v4 v5 v6 : value)
  (x1 x2 x3 x4 x5 x6 : PrimFloat.float) :
  mapM float_of_value [v1; v2; v3; v4; v5; v6] = Ok [x1; x2; x3; x4; x5; x6] ->
  all_entries finite_value M = true -> invariant M = true ->
  exists C,
    (m <- __init__ [OVal (VTuple [v1; v2; v3; v4; v5; v6])] ;; __matmul__ M m)
    = Ok C
    /\ invariant C = true.
Proof.
  intros Hv HM Hi.
  rewrite (init_six_sequence (VTuple [v1; v2; v3; v4; v5; v6])
             v1 v2 v3 v4 v5 v6 x1 x2 x3 x4 x5 x6 eq_refl Hv).
  cbn [bind].
  apply ColumnFacts.matmul_invariant; try assumption; try reflexivity.
  eexists. reflexivity.
Qed.

(** C2, as the code has it.  The constructor without arguments, with six
    scalars and with a sequence of six scalars always gives third column
    (0, 0, 1).  The copy constructor gives the grid of its source, so its
    third column is the source's.  Composition gives third column
    (0, 0, 1) when both operands have it, the left one has finite entries
    and the right one is a three by three grid of numbers; [scaled],
    [translated] and [rotated] give it when the receiver has it and has
    finite entries.  The raw-grid branch checks nothing about the third
    column. *)
Theorem third_column_invariant
  (cos sin : PrimFloat.float -> PrimFloat.float) :
  (exists I, __init__ [] = Ok I /\ invariant I = true)
  /\ (forall o1 o2 o3 o4 o5 o6 M,
        __init__ [o1; o2; o3; o4; o5; o6] = Ok M -> invariant M = true)
  /\ (forall s v1 v2 v3 v4 v5 v6 M,
        tuple s = Ok [v1; v2; v3; v4; v5; v6] ->
        __init__ [OVal s] = Ok M -> invariant M = true)
  /\ (forall m, exists M,
        __init__ [OMat m] = Ok M /\ values M = values m
        /\ invariant M = invariant m)
  /\ (forall A B y,
        all_entries finite_value A = true ->
        square B = true -> floats B = Ok y ->
        invariant A = true -> invariant B = true ->
        exists C, __matmul__ A B = Ok C /\ invariant C = true)
  /\ (forall M x y fx fy,
        all_entries finite_value M = true -> invariant M = true ->
        float_of_value x = Ok fx -> float_of_value y = Ok fy ->
        (exists C, scaled M x y = Ok C /\ invariant C = true)
        /\ (exists C, translated M x y = Ok C /\ invariant C = true))
  /\ (forall M angle theta,
        all_entries finite_value M = true -> invariant M = true ->
        radians angle = Ok theta -> is_infinity theta = false ->
        exists C, rotated cos sin M angle = Ok C /\ invariant C = true).
Proof.
  split; [eexists; split; reflexivity|].
  split; [intros o1 o2 o3 o4 o5 o6 M H; now apply init_six_invariant in H|].
  split.
  { intros s v1 v2 v3 v4 v5 v6 M Hs H.
    unfold __init__ in H. cbn [List.length Nat.eqb] in H.
    assert (Hn : len_value s = Ok 6)
      by (destruct s; cbn in *; try discriminate;
          injection Hs as ->; reflexivity).
    rewrite Hn in H. cbn [bind Z.eqb Pos.eqb] in H. rewrite Hs in H.
    cbn [bind] in H. now apply init_six_invariant in H. }
  split; [intros [vals]; eexists; repeat split|].
  split.
  { intros A B y HA HsB HB HiA HiB.
    apply ColumnFacts.matmul_invariant; try assumption. now exists y. }
  split.
  { intros M x y fx fy HM Hi Hx Hy. split.
    - unfold scaled. eapply builder_invariant; try assumption.
      cbn [mapM]. rewrite Hx, Hy. cbn [float_of_value].
      rewrite float_of_int_0. reflexivity.
    - unfold translated. eapply builder_invariant; try assumption.
      cbn [mapM]. rewrite Hx, Hy. cbn [float_of_value].
      rewrite float_of_int_0, float_of_int_1. reflexivity. }
  intros M angle theta HM Hi Ht Hinf.
  unfold rotated. rewrite Ht. cbn [bind]. unfold math_fun. rewrite Hinf.
  cbn [bind]. eapply builder_invariant; try assumption.
  cbn [mapM float_of_value bind]. rewrite float_of_int_0. reflexivity.
Qed.

Lemma third_column_invariant_witness :
  exists C,
    scaled (mkPdfMatrix ([VFloat 0.5; VInt 2; VInt 0],
                         [VFloat (-3); VFloat 1.25; VInt 0],
                         [VInt 7; VFloat (-0); VInt 1]))
           (VInt 2) (VFloat 3.5) = Ok C
    /\ invariant C = true.
Proof.
  apply (proj1 (proj1 (proj2 (proj2 (proj2 (proj2 (proj2
           (third_column_invariant (fun _ => 1%float) (fun _ => 0%float)))))))
           (mkPdfMatrix ([VFloat 0.5; VInt 2; VInt 0],
                         [VFloat (-3); VFloat 1.25; VInt 0],
                         [VInt 7; VFloat (-0); VInt 1]))
           (VInt 2) (VFloat 3.5) 2%float 3.5%float
           eq_refl eq_refl eq_refl eq_refl)).
Defined.

(** C2 as stated fails: the raw-grid branch accepts a grid whose third
    column is (5, 0, 1). *)
Lemma grid_constructor_does_not_enforce_invariant :
  __init__ [OVal (VTuple [VTuple [VInt 1; VInt 0; VInt 5];
                          VTuple [VInt 0; VInt 1; VInt 0];
                          VTuple [VInt 0; VInt 0; VInt 1]])]
  = Ok (mkPdfMatrix ([VInt 1; VInt 0; VInt 5], [VInt 0; VInt 1; VInt 0],
                     [VInt 0; VInt 0; VInt 1]))
  /\ third_column (mkPdfMatrix ([VInt 1; VInt 0; VInt 5],
                                [VInt 0; VInt 1; VInt 0],
                                [VInt 0; VInt 0; VInt 1]))
     = Ok [VInt 5; VInt 0; VInt 1]
  /\ invariant (mkPdfMatrix ([VInt 1; VInt 0; VInt 5],
                             [VInt 0; VInt 1; VInt 0],
                             [VInt 0; VInt 0; VInt 1])) = false.
Proof. repeat split. Qed.

(** ** Equality *)

Lemma shorthand_inv (M : PdfMatrix) (va vb vc vd ve vf : value) :
  shorthand M = Ok [va; vb; vc; vd; ve; vf] ->
  a M = Ok va /\ b M = Ok vb /\ c M = Ok vc
  /\ d M = Ok vd /\ e M = Ok ve /\ f M = Ok vf.
Proof.
  unfold shorthand. intros H.
  repeat match type of H with
  | bind _ _ = Ok _ =>
      let Hx := fresh "Hx" in
      apply bind_Ok in H; destruct H as (? & Hx & H)
  end.
  injection H as -> -> -> -> -> ->. now repeat split.
Qed.

(** Two instances that hold the same coefficient objects are equal. *)
Lemma eq_all_same (M N : PdfMatrix) (a1 a2 a3 a4 a5 a6 : value) :
  shorthand M = Ok [a1; a2; a3; a4; a5; a6] ->
  shorthand N = Ok [a1; a2; a3; a4; a5; a6] ->
  __eq__ all_same M (OMat N) = Ok true.
Proof.
  intros HM HN. unfold __eq__. rewrite HM, HN. cbn [bind].
  rewrite py_eq_shared_tuple6. unfold all_same, share_at. cbn [nth].
  now rewrite !same_or_eq_refl.
Qed.

Lemma load_app_old (h ext : Store.store) (r : Store.ref) (M : PdfMatrix) :
  Store.load h r = Ok M ->
  Store.load (h ++ ext) r = Ok M
  /\ Store.grid_of (h ++ ext) r = Store.grid_of h r.
Proof.
  unfold Store.load, Store.grid_of.
  destruct (nth_error h r) as [[g m]|] eqn:E; [|discriminate].
  intros H. rewrite nth_error_app1, E; [now split|].
  apply nth_error_Some. now rewrite E.
Qed.

Lemma load_app_new (h : Store.store) (g : nat) (M : PdfMatrix) :
  Store.load (h ++ [(g, M)]) (List.length h) = Ok M
  /\ Store.grid_of (h ++ [(g, M)]) (List.length h) = g.
Proof.
  unfold Store.load, Store.grid_of. rewrite nth_error_app2 by lia.
  rewrite Nat.sub_diag. now split.
Qed.

(** C7, as the code has it: [__eq__] on two instances compares their
    shorthand tuples position by position, and two coefficients are equal
    there when they are the same object or are equal under [==], where
    floats compare by IEEE equality without tolerance.  So two instances
    that share no coefficient object are equal exactly when their
    shorthand tuples are equal element-wise; an instance is equal to
    itself and to its copy, NaN coefficients included; instances made
    from the same six coefficients by the three constructor paths are
    equal, every coefficient being shared or not NaN; and [__eq__] is
    [False] on anything that is not an instance. *)
Theorem eq_is_shorthand_equality :
  (forall shared M N a1 a2 a3 a4 a5 a6 b1 b2 b3 b4 b5 b6,
     shorthand M = Ok [a1; a2; a3; a4; a5; a6] ->
     shorthand N = Ok [b1; b2; b3; b4; b5; b6] ->
     __eq__ shared M (OMat N)
     = Ok (same_or_eq (share_at shared 0) a1 b1
           && same_or_eq (share_at shared 1) a2 b2
           && same_or_eq (share_at shared 2) a3 b3
           && same_or_eq (share_at shared 3) a4 b4
           && same_or_eq (share_at shared 4) a5 b5
           && same_or_eq (share_at shared 5) a6 b6)
     /\ __eq__ [] M (OMat N)
        = Ok (py_eq a1 b1 && py_eq a2 b2 && py_eq a3 b3
              && py_eq a4 b4 && py_eq a5 b5 && py_eq a6 b6))
  /\ (forall x y, py_eq (VFloat x) (VFloat y) = PrimFloat.eqb x y)
  /\ (forall shared M v, __eq__ shared M (OVal v) = Ok false)
  /\ (forall h apart r M a1 a2 a3 a4 a5 a6,
        Store.load h r = Ok M ->
        shorthand M = Ok [a1; a2; a3; a4; a5; a6] ->
        Store.eq h apart r r = Ok true
        /\ exists l,
             fst (Store.new h [Store.ARef r]) = Ok l
             /\ Store.eq (snd (Store.new h [Store.ARef r])) apart r l = Ok true
             /\ Store.eq (snd (Store.new h [Store.ARef r])) apart l r
                = Ok true)
  /\ (forall shared s v1 v2 v3 v4 v5 v6 x1 x2 x3 x4 x5 x6,
        tuple s = Ok [v1; v2; v3; v4; v5; v6] ->
        mapM float_of_value [v1; v2; v3; v4; v5; v6]
        = Ok [x1; x2; x3; x4; x5; x6] ->
        forallb (fun i => same_or_eq (share_at shared i)
                            (VFloat (nth i [x1; x2; x3; x4; x5; x6] 0%float))
                            (VFloat (nth i [x1; x2; x3; x4; x5; x6] 0%float)))
                [0; 1; 2; 3; 4; 5]%nat = true ->
        exists M1 M2 M3,
          __init__ [OVal v1; OVal v2; OVal v3; OVal v4; OVal v5; OVal v6]
          = Ok M1
          /\ __init__ [OVal s] = Ok M2
          /\ __init__ [OMat M1] = Ok M3
          /\ __eq__ shared M1 (OMat M2) = Ok true
          /\ __eq__ all_same M1 (OMat M3) = Ok true
          /\ __eq__ shared M2 (OMat M3) = Ok true).
Proof.
  split.
  { intros shared M N a1 a2 a3 a4 a5 a6 b1 b2 b3 b4 b5 b6 HM HN.
    unfold __eq__. rewrite HM, HN. cbn [bind]. split.
    - rewrite py_eq_shared_tuple6. now rewrite andb_true_r, !andb_assoc.
    - rewrite py_eq_shared_nil, py_eq_tuple6.
      now rewrite andb_true_r, !andb_assoc. }
  split; [reflexivity|]. split; [reflexivity|].
  split.
  { intros h apart r M a1 a2 a3 a4 a5 a6 Hr HM.
    pose proof (eq_all_same M M _ _ _ _ _ _ HM HM) as Hsame.
    split.
    - unfold Store.eq. rewrite Hr. cbn [bind]. now rewrite Nat.eqb_refl.
    - unfold Store.new. cbn [mapM Store.load_arg]. rewrite Hr. cbn [bind].
      assert (Hc : __init__ [OMat M] = Ok (mkPdfMatrix (values M)))
        by reflexivity.
      rewrite Hc. cbn [fst snd Store.new_grid List.length Nat.eqb].
      exists (List.length h). split; [reflexivity|].
      destruct (load_app_old h [(Store.grid_of h r, mkPdfMatrix (values M))]
                  r M Hr) as [Hl Hg].
      destruct (load_app_new h (Store.grid_of h r) (mkPdfMatrix (values M)))
        as [Hl' Hg'].
      assert (HM' : shorthand (mkPdfMatrix (values M))
                    = Ok [a1; a2; a3; a4; a5; a6]) by (destruct M; exact HM).
      unfold Store.eq. rewrite Hl, Hl', Hg, Hg', Nat.eqb_refl. cbn [bind].
      split; eapply eq_all_same; eassumption. }
  intros shared s v1 v2 v3 v4 v5 v6 x1 x2 x3 x4 x5 x6 Hs Hv Hx.
  do 3 eexists.
  split; [apply (init_six_scalars _ _ _ _ _ _ _ _ _ _ _ _ Hv)|].
  split; [apply (init_six_sequence _ _ _ _ _ _ _ _ _ _ _ _ _ Hs Hv)|].
  split; [reflexivity|].
  assert (He : py_eq_shared shared
                 (VTuple [VFloat x1; VFloat x2; VFloat x3; VFloat x4;
                          VFloat x5; VFloat x6])
                 (VTuple [VFloat x1; VFloat x2; VFloat x3; VFloat x4;
                          VFloat x5; VFloat x6]) = true).
  { rewrite py_eq_shared_tuple6. cbn [forallb nth] in Hx. exact Hx. }
  repeat split; unfold __eq__, shorthand, a, b, c, d, e, f, row0, row1, row2;
    cbn [values fst snd getitem nth_error bind]; try now rewrite He.
  rewrite py_eq_shared_tuple6. unfold all_same, share_at. cbn [nth].
  now rewrite !same_or_eq_refl.
Qed.

Lemma eq_is_shorthand_equality_witness :
  Store.eq [(0%nat, mkPdfMatrix ([VFloat nan; VFloat 0; VInt 0],
                                 [VFloat 0; VFloat 1; VInt 0],
                                 [VFloat 0; VFloat 0; VInt 1]))] [] 0%nat 0%nat
  = Ok true
  /\ exists l,
       fst (Store.new
              [(0%nat, mkPdfMatrix ([VFloat nan; VFloat 0; VInt 0],
                                    [VFloat 0; VFloat 1; VInt 0],
                                    [VFloat 0; VFloat 0; VInt 1]))]
              [Store.ARef 0%nat]) = Ok l
       /\ Store.eq
            (snd (Store.new
                    [(0%nat, mkPdfMatrix ([VFloat nan; VFloat 0; VInt 0],
                                          [VFloat 0; VFloat 1; VInt 0],
                                          [VFloat 0; VFloat 0; VInt 1]))]
                    [Store.ARef 0%nat])) [] 0%nat l = Ok true
       /\ Store.eq
            (snd (Store.new
                    [(0%nat, mkPdfMatrix ([VFloat nan; VFloat 0; VInt 0],
                                          [VFloat 0; VFloat 1; VInt 0],
                                          [VFloat 0; VFloat 0; VInt 1]))]
                    [Store.ARef 0%nat])) [] l 0%nat = Ok true.
Proof.
  apply (proj1 (proj2 (proj2 (proj2 eq_is_shorthand_equality)))
           [(0%nat, mkPdfMatrix ([VFloat nan; VFloat 0; VInt 0],
                                 [VFloat 0; VFloat 1; VInt 0],
                                 [VFloat 0; VFloat 0; VInt 1]))]
           [] 0%nat
           (mkPdfMatrix ([VFloat nan; VFloat 0; VInt 0],
                         [VFloat 0; VFloat 1; VInt 0],
                         [VFloat 0; VFloat 0; VInt 1]))
           (VFloat nan) (VFloat 0) (VFloat 0) (VFloat 1) (VFloat 0) (VFloat 0)
           eq_refl eq_refl).
Defined.

(** C7 as stated fails: the instance [m = PdfMatrix(nan, 0, 0, 1, 0, 0)] is
    equal to itself, [m.__eq__(m)] is [True], although the first elements
    of the two shorthand tuples, one NaN object, are not equal under
    floating-point equality. *)
Lemma nan_instance_equals_itself :
  __init__ [OVal (VFloat nan); OVal (VInt 0); OVal (VInt 0); OVal (VInt 1);
            OVal (VInt 0); OVal (VInt 0)]
  = Ok (mkPdfMatrix ([VFloat nan; VFloat 0; VInt 0],
                     [VFloat 0; VFloat 1; VInt 0],
                     [VFloat 0; VFloat 0; VInt 1]))
  /\ shorthand (mkPdfMatrix ([VFloat nan; VFloat 0; VInt 0],
                             [VFloat 0; VFloat 1; VInt 0],
                             [VFloat 0; VFloat 0; VInt 1]))
     = Ok [VFloat nan; VFloat 0; VFloat 0; VFloat 1; VFloat 0; VFloat 0]
  /\ Store.eq [(0%nat, mkPdfMatrix ([VFloat nan; VFloat 0; VInt 0],
                                    [VFloat 0; VFloat 1; VInt 0],
                                    [VFloat 0; VFloat 0; VInt 1]))] [] 0%nat 0%nat
     = Ok true
  /\ py_eq (VFloat nan) (VFloat nan) = false
  /\ forallb (fun v => py_eq v v)
       [VFloat nan; VFloat 0; VFloat 0; VFloat 1; VFloat 0; VFloat 0] = false.
Proof. repeat split. Qed.

(** ** Encoding *)

Module FormatFacts.

Lemma digit_code (n : Z) : nat_of_ascii (digit n) = (48 + Z.to_nat (n mod 10))%nat.
Proof.
  unfold digit. apply nat_ascii_embedding.
  pose proof (Z.mod_pos_bound n 10 ltac:(lia)). lia.
Qed.

Lemma digit_is_digit (n : Z) : is_digit (digit n) = true.
Proof.
  unfold is_digit. rewrite digit_code.
  pose proof (Z.mod_pos_bound n 10 ltac:(lia)).
  apply andb_true_intro. split; apply Nat.leb_le; lia.
Qed.

Lemma fraction6_shape (n : Z) :
  String.length (fraction6 n) = 6%nat /\ all_digits (fraction6 n) = true.
Proof.
  split; [reflexivity|]. unfold fraction6. cbn [all_digits].
  now rewrite !digit_is_digit.
Qed.

Lemma uint_digits (u : Decimal.uint) :
  all_digits (NilEmpty.string_of_uint u) = true.
Proof. induction u; cbn; auto. Qed.

Lemma decimal_shape (n : Z) :
  decimal n <> EmptyString /\ all_digits (decimal n) = true.
Proof.
  unfold decimal, NilZero.string_of_uint.
  destruct (N.to_uint (Z.to_N n)) as [|u|u|u|u|u|u|u|u|u|u] eqn:E;
    (split; [cbn; discriminate|]); try reflexivity;
    rewrite <- E; apply uint_digits.
Qed.

Lemma digits_ascii7 (s : string) : all_digits s = true -> ascii7 s = true.
Proof.
  induction s as [|ch s IH]; [reflexivity|]. cbn [all_digits ascii7].
  intros H. apply andb_true_iff in H. destruct H as [Hc Hs].
  rewrite (IH Hs), andb_true_r. unfold is_digit in Hc.
  apply andb_true_iff in Hc. destruct Hc as [_ Hc].
  apply Nat.leb_le in Hc. apply Nat.ltb_lt. lia.
Qed.

Lemma ascii7_app (s t : string) :
  ascii7 (s ++ t) = ascii7 s && ascii7 t.
Proof.
  induction s as [|ch s IH]; [reflexivity|].
  cbn [append ascii7]. now rewrite IH, andb_assoc.
Qed.

(** A finite number is written with exactly six digits after the point. *)
Lemma format_f6_fixed (x : PrimFloat.float) :
  finite x = true -> fixed6 (format_f6 x).
Proof.
  unfold finite, format_f6, fixed6.
  destruct (Prim2SF x) as [s|s| |s m ex]; try discriminate; intros _.
  - exists s, "0"%string, "000000"%string. now repeat split.
  - exists s, (decimal (scaled_round m ex / 10 ^ 6)),
      (fraction6 (scaled_round m ex)).
    pose proof (decimal_shape (scaled_round m ex / 10 ^ 6)) as [Hn Hd].
    pose proof (fraction6_shape (scaled_round m ex)) as [Hl Hf].
    now repeat split.
Qed.

(** Whatever the float, the field is plain ASCII. *)
Lemma format_f6_ascii7 (x : PrimFloat.float) : ascii7 (format_f6 x) = true.
Proof.
  unfold format_f6.
  destruct (Prim2SF x) as [s|s| |s m ex]; try (destruct s; reflexivity);
    try reflexivity.
  rewrite !ascii7_app.
  pose proof (decimal_shape (scaled_round m ex / 10 ^ 6)) as [_ Hd].
  pose proof (fraction6_shape (scaled_round m ex)) as [_ Hf].
  rewrite (digits_ascii7 _ Hd), (digits_ascii7 _ Hf).
  destruct s; reflexivity.
Qed.

Lemma digits_no_space (s : string) : all_digits s = true -> no_space s = true.
Proof.
  induction s as [|ch s IH]; [reflexivity|]. cbn [all_digits no_space].
  intros H. apply andb_true_iff in H. destruct H as [Hc Hs].
  rewrite (IH Hs), andb_true_r.
  destruct (Ascii.eqb_spec ch " ") as [->|]; [discriminate Hc|reflexivity].
Qed.

Lemma no_space_app (s t : string) :
  no_space (s ++ t) = no_space s && no_space t.
Proof.
  induction s as [|ch s IH]; [reflexivity|].
  cbn [append no_space]. now rewrite IH, andb_assoc.
Qed.

(** Whatever the float, the field holds no space. *)
Lemma format_f6_no_space (x : PrimFloat.float) : no_space (format_f6 x) = true.
Proof.
  unfold format_f6.
  destruct (Prim2SF x) as [s|s| |s m ex]; try (destruct s; reflexivity);
    try reflexivity.
  rewrite !no_space_app.
  pose proof (decimal_shape (scaled_round m ex / 10 ^ 6)) as [_ Hd].
  pose proof (fraction6_shape (scaled_round m ex)) as [_ Hf].
  rewrite (digits_no_space _ Hd), (digits_no_space _ Hf).
  destruct s; reflexivity.
Qed.

End FormatFacts.

(** C4, as the code has it: [encode] writes the six coefficients in the
    order a b c d e f, each under the format [.6f], with one space between
    two fields and nothing before the first or after the last; the text is
    ASCII and no field holds a space; a finite coefficient is written with
    exactly six digits after the point, an infinite one as [inf] or
    [-inf] and NaN as [nan]; and the identity encodes to
    ["1.000000 0.000000 0.000000 1.000000 0.000000 0.000000"]. *)
Theorem encode_format :
  (forall M va vb vc vd ve vf xa xb xc xd xe xf,
     shorthand M = Ok [va; vb; vc; vd; ve; vf] ->
     mapM float_of_value [va; vb; vc; vd; ve; vf]
     = Ok [xa; xb; xc; xd; xe; xf] ->
     let text :=
       (format_f6 xa ++ " " ++ format_f6 xb ++ " " ++ format_f6 xc ++ " "
        ++ format_f6 xd ++ " " ++ format_f6 xe ++ " " ++ format_f6 xf)%string
     in
     encode M = Ok (list_byte_of_string text)
     /\ ascii7 text = true
     /\ (forall x, In x [xa; xb; xc; xd; xe; xf] ->
         no_space (format_f6 x) = true
         /\ (finite x = true -> fixed6 (format_f6 x))
         /\ (finite x = false ->
             format_f6 x = "inf"%string \/ format_f6 x = "-inf"%string
             \/ format_f6 x = "nan"%string)))
  /\ (exists I,
        identity = Ok I
        /\ encode I
           = Ok (list_byte_of_string
                   "1.000000 0.000000 0.000000 1.000000 0.000000 0.000000")).
Proof.
  split; [|eexists; split; reflexivity].
  intros M va vb vc vd ve vf xa xb xc xd xe xf HM Hv text.
  apply shorthand_inv in HM.
  destruct HM as (Ha & Hb & Hc & Hd & He & Hf).
  cbn [mapM] in Hv.
  repeat match type of Hv with
  | context [float_of_value ?v] =>
      destruct (float_of_value v) eqn:?; cbn [bind] in Hv; [|discriminate Hv]
  end.
  injection Hv as <- <- <- <- <- <-.
  split; [|split].
  - unfold encode, format_value.
    rewrite Ha, Hb, Hc, Hd, He, Hf. cbn [bind].
    repeat match goal with
    | Hx : float_of_value _ = Ok _ |- _ => rewrite Hx; clear Hx
    end.
    reflexivity.
  - unfold text. rewrite !FormatFacts.ascii7_app.
    rewrite !FormatFacts.format_f6_ascii7. reflexivity.
  - intros x _. split; [apply FormatFacts.format_f6_no_space|].
    split; [apply FormatFacts.format_f6_fixed|].
    unfold finite, format_f6.
    destruct (Prim2SF x) as [s|s| |s m ex]; try discriminate; intros _.
    + destruct s; auto.
    + auto.
Qed.

Lemma encode_format_witness :
  encode (mkPdfMatrix ([VFloat 0.5; VInt 2; VInt 0],
                       [VFloat (-3); VFloat 1.25; VInt 0],
                       [VInt 7; VFloat (-0); VInt 1]))
  = Ok (list_byte_of_string
          "0.500000 2.000000 -3.000000 1.250000 7.000000 -0.000000").
Proof.
  apply (proj1 (proj1 encode_format
           (mkPdfMatrix ([VFloat 0.5; VInt 2; VInt 0],
                         [VFloat (-3); VFloat 1.25; VInt 0],
                         [VInt 7; VFloat (-0); VInt 1]))
           (VFloat 0.5) (VInt 2) (VFloat (-3)) (VFloat 1.25) (VInt 7)
           (VFloat (-0)) 0.5%float 2%float (-3)%float 1.25%float 7%float
           (-0)%float eq_refl eq_refl)).
Defined.

(** C4 as stated fails: the constructor accepts an infinite and a NaN
    coefficient, and [encode] writes them as [inf] and [nan], which have
    no digit after a point. *)
Lemma encode_writes_inf_and_nan :
  __init__ [OVal (VFloat infinity); OVal (VInt 0); OVal (VInt 0);
            OVal (VInt 1); OVal (VFloat nan); OVal (VFloat neg_infinity)]
  = Ok (mkPdfMatrix ([VFloat infinity; VFloat 0; VInt 0],
                     [VFloat 0; VFloat 1; VInt 0],
                     [VFloat nan; VFloat neg_infinity; VInt 1]))
  /\ encode (mkPdfMatrix ([VFloat infinity; VFloat 0; VInt 0],
                          [VFloat 0; VFloat 1; VInt 0],
                          [VFloat nan; VFloat neg_infinity; VInt 1]))
     = Ok (list_byte_of_string "inf 0.000000 0.000000 1.000000 nan -inf")
  /\ ~ fixed6 (format_f6 infinity)
  /\ ~ fixed6 (format_f6 nan)
  /\ ~ fixed6 (format_f6 neg_infinity).
Proof.
  split; [reflexivity|]. split; [reflexivity|].
  repeat split; intros (neg & whole & fr & E & Hne & Hd & _);
    (destruct neg; cbn in E; [try discriminate E|]);
    (destruct whole as [|ch w]; [now apply Hne|]);
    cbn in E; injection E as <- _; discriminate Hd.
Qed.

(** ** Immutability *)

Module StoreFacts.
Import Store.

Lemma extends_refl (h : store) : extends h h.
Proof. exists []. now rewrite app_nil_r. Qed.

Lemma extends_trans (h1 h2 h3 : store) :
  extends h1 h2 -> extends h2 h3 -> extends h1 h3.
Proof.
  intros [e1 ->] [e2 ->]. exists (e1 ++ e2). now rewrite app_assoc.
Qed.

Lemma extends_length (h h' : store) :
  extends h h' -> (List.length h <= List.length h')%nat.
Proof. intros [ext ->]. rewrite length_app. lia. Qed.

Lemma load_extends (h h' : store) (l : ref) (m : PdfMatrix) :
  extends h h' -> load h l = Ok m -> load h' l = Ok m.
Proof.
  intros [ext ->] H. now apply load_app_old.
Qed.

Lemma new_grows (h : store) (args : list arg) :
  extends h (snd (new h args)) /\ fresh h (new h args).
Proof.
  unfold new, fresh.
  destruct (xs <- mapM (load_arg h) args ;; Matrix.__init__ xs) as [m|err];
    cbn [fst snd].
  - split; [now exists [(new_grid h args, m)]|].
    intros l H. injection H as <-. rewrite length_app. cbn. lia.
  - split; [apply extends_refl|discriminate].
Qed.

Lemma matmul_grows (h : store) (self other : ref) :
  extends h (snd (matmul h self other)) /\ fresh h (matmul h self other).
Proof.
  unfold matmul, and_then, lift.
  destruct (x <- load h self ;; y <- load h other ;; Matrix.products x y)
    as [rows|err].
  - apply new_grows.
  - split; [apply extends_refl|intros l H; discriminate H].
Qed.

(** A call that first builds a matrix from plain values and then
    multiplies the receiver by it. *)
Lemma build_then_matmul_grows (h : store) (self : ref) (args : list arg) :
  let c := and_then (new h args) (fun m h1 => matmul h1 self m) in
  extends h (snd c) /\ fresh h c.
Proof.
  cbn zeta. unfold and_then.
  destruct (new_grows h args) as [He Hf].
  destruct (new h args) as [[m|err] h1]; cbn [fst snd] in *.
  - destruct (matmul_grows h1 self m) as [He2 Hf2]. split.
    + eapply extends_trans; eassumption.
    + intros l Hl. specialize (Hf2 l Hl).
      apply extends_length in He. lia.
  - split; [exact He|intros l H; discriminate H].
Qed.

Lemma grows_frame (h : store) (c : result ref * store) :
  extends h (snd c) -> fresh h c -> frame h c.
Proof.
  intros He Hf. split.
  - intros l m. now apply load_extends.
  - intros l Hl. specialize (Hf l Hl). unfold load. split.
    + destruct (nth_error h l) eqn:E; [|reflexivity].
      assert (l < List.length h)%nat by (apply nth_error_Some; now rewrite E).
      lia.
    + destruct (nth_error (snd c) l) as [[g m]|] eqn:E; [now exists m|].
      apply nth_error_None in E. lia.
Qed.

Lemma rotated_grows (cos sin : PrimFloat.float -> PrimFloat.float)
  (h : store) (self : ref) (angle : value) :
  extends h (snd (rotated cos sin h self angle))
  /\ fresh h (rotated cos sin h self angle).
Proof.
  unfold rotated, lift. unfold and_then at 1.
  destruct (angle0 <- Matrix.radians angle ;;
            c <- Matrix.math_fun cos angle0 ;;
            s <- Matrix.math_fun sin angle0 ;; Ok (c, s)) as [cs|err].
  - apply build_then_matmul_grows.
  - split; [apply extends_refl|intros l H; discriminate H].
Qed.

(** The store-passing methods compute what the methods on grids
    compute. *)
Lemma new_values (h : store) (v : value) :
  new h [AVal v]
  = match Matrix.__init__ [OVal v] with
    | Ok m => (Ok (List.length h), h ++ [(List.length h, m)])
    | Raise err => (Raise err, h)
    end.
Proof. reflexivity. Qed.

Lemma matmul_refines (h : store) (self other : ref) (A B : PdfMatrix) :
  load h self = Ok A -> load h other = Ok B ->
  matmul h self other
  = match Matrix.__matmul__ A B with
    | Ok C => (Ok (List.length h), h ++ [(List.length h, C)])
    | Raise err => (Raise err, h)
    end.
Proof.
  intros HA HB. unfold matmul, Matrix.__matmul__, and_then, lift.
  rewrite HA, HB. cbn [bind].
  destruct (Matrix.products A B) as [rows|err]; cbn [bind]; [|reflexivity].
  apply new_values.
Qed.

Lemma load_last (h : store) (g : nat) (m : PdfMatrix) :
  load (h ++ [(g, m)]) (List.length h) = Ok m.
Proof. apply load_app_new. Qed.

Lemma load_beyond (h : store) (l : ref) :
  (List.length h <= l)%nat -> load h l = Raise AttributeError.
Proof.
  intros H. unfold load. apply nth_error_None in H. now rewrite H.
Qed.

Lemma build_then_matmul_refines (h : store) (self : ref) (v : value)
  (A : PdfMatrix) :
  load h self = Ok A ->
  and_then (new h [AVal v]) (fun m h1 => matmul h1 self m)
  = match Matrix.__init__ [OVal v] with
    | Ok T =>
        match Matrix.__matmul__ A T with
        | Ok C =>
            (Ok (S (List.length h)),
             h ++ [(List.length h, T); (S (List.length h), C)])
        | Raise err => (Raise err, h ++ [(List.length h, T)])
        end
    | Raise err => (Raise err, h)
    end.
Proof.
  intros HA. rewrite new_values.
  destruct (Matrix.__init__ [OVal v]) as [T|err]; cbn [and_then]; [|reflexivity].
  rewrite (matmul_refines (h ++ [(List.length h, T)]) self (List.length h)
             A T).
  - destruct (Matrix.__matmul__ A T) as [C|err]; [|reflexivity].
    rewrite length_app, <- app_assoc. cbn [List.length app].
    now rewrite Nat.add_1_r.
  - apply (load_extends h); [now exists [(List.length h, T)]|exact HA].
  - apply load_last.
Qed.

(** What the calls return. *)
Lemma matmul_returns (h : store) (self other : ref) (A B : PdfMatrix) :
  load h self = Ok A -> load h other = Ok B ->
  returns h (matmul h self other) (Matrix.__matmul__ A B).
Proof.
  intros HA HB. rewrite (matmul_refines h self other A B HA HB).
  destruct (Matrix.__matmul__ A B) as [C|err]; [|reflexivity].
  exists (List.length h). cbn [fst snd].
  split; [reflexivity|]. split; [now apply load_beyond|apply load_last].
Qed.

Lemma build_then_matmul_returns (h : store) (self : ref) (v : value)
  (A : PdfMatrix) :
  load h self = Ok A ->
  returns h (and_then (new h [AVal v]) (fun m h1 => matmul h1 self m))
    (T <- Matrix.__init__ [OVal v] ;; Matrix.__matmul__ A T).
Proof.
  intros HA. rewrite (build_then_matmul_refines h self v A HA).
  destruct (Matrix.__init__ [OVal v]) as [T|err]; cbn [bind]; [|reflexivity].
  destruct (Matrix.__matmul__ A T) as [C|err]; [|reflexivity].
  exists (S (List.length h)). cbn [fst snd].
  split; [reflexivity|]. split; [apply load_beyond; lia|].
  unfold load. rewrite nth_error_app2 by lia.
  replace (S (List.length h) - List.length h)%nat with 1%nat by lia.
  reflexivity.
Qed.

Lemma scaled_returns (h : store) (self : ref) (x y : value) (A : PdfMatrix) :
  load h self = Ok A ->
  returns h (scaled h self x y) (Matrix.scaled A x y).
Proof. apply build_then_matmul_returns. Qed.

Lemma translated_returns (h : store) (self : ref) (x y : value)
  (A : PdfMatrix) :
  load h self = Ok A ->
  returns h (translated h self x y) (Matrix.translated A x y).
Proof. apply build_then_matmul_returns. Qed.

Lemma rotated_returns (cos sin : PrimFloat.float -> PrimFloat.float)
  (h : store) (self : ref) (angle : value) (A : PdfMatrix) :
  load h self = Ok A ->
  returns h (rotated cos sin h self angle) (Matrix.rotated cos sin A angle).
Proof.
  intros HA. unfold rotated, Matrix.rotated, lift.
  destruct (Matrix.radians angle) as [t|err]; cbn [bind and_then];
    [|reflexivity].
  destruct (Matrix.math_fun cos t) as [c|err]; cbn [bind and_then];
    [|reflexivity].
  destruct (Matrix.math_fun sin t) as [s|err]; cbn [bind and_then fst snd];
    [|reflexivity].
  now apply build_then_matmul_returns.
Qed.

(** On a three by three grid of numbers, the builders and composition
    return. *)
Lemma build_then_matmul_Ok (M : PdfMatrix) (g : list (list PrimFloat.float))
  (v1 v2 v3 v4 v5 v6 : value) (x1 x2 x3 x4 x5 x6 : PrimFloat.float) :
  square M = true -> floats M = Ok g ->
  mapM float_of_value [v1; v2; v3; v4; v5; v6] = Ok [x1; x2; x3; x4; x5; x6] ->
  exists C,
    (T <- Matrix.__init__ [OVal (VTuple [v1; v2; v3; v4; v5; v6])] ;;
     Matrix.__matmul__ M T) = Ok C.
Proof.
  intros Hs Hg Hv.
  destruct (shape_of_floats g M Hg Hs)
    as (x00 & x01 & x02 & x10 & x11 & x12 & x20 & x21 & x22 & ->).
  rewrite (init_six_sequence (VTuple [v1; v2; v3; v4; v5; v6])
             v1 v2 v3 v4 v5 v6 x1 x2 x3 x4 x5 x6 eq_refl Hv).
  cbn [bind]. eexists. eapply matmul_numeric; [exact Hg|reflexivity].
Qed.

Lemma returns_Ok (h : store) (c : result ref * store) (r : result PdfMatrix) :
  returns h c r -> (exists C, r = Ok C) -> returns_new_instance h c.
Proof.
  intros H [C ->]. destruct H as (l & H). now exists l, C.
Qed.

Lemma scaled_refines (h : store) (self : ref) (x y : value) (A : PdfMatrix) :
  load h self = Ok A ->
  fst (scaled h self x y)
  = (C <- Matrix.scaled A x y ;; Ok (S (List.length h))).
Proof.
  intros HA. unfold scaled, Matrix.scaled.
  rewrite (build_then_matmul_refines h self _ A HA).
  destruct (Matrix.__init__ _) as [T|err]; cbn [bind]; [|reflexivity].
  destruct (Matrix.__matmul__ A T) as [C|err]; reflexivity.
Qed.

Lemma translated_refines (h : store) (self : ref) (x y : value)
  (A : PdfMatrix) :
  load h self = Ok A ->
  fst (translated h self x y)
  = (C <- Matrix.translated A x y ;; Ok (S (List.length h))).
Proof.
  intros HA. unfold translated, Matrix.translated.
  rewrite (build_then_matmul_refines h self _ A HA).
  destruct (Matrix.__init__ _) as [T|err]; cbn [bind]; [|reflexivity].
  destruct (Matrix.__matmul__ A T) as [C|err]; reflexivity.
Qed.

Lemma rotated_refines (cos sin : PrimFloat.float -> PrimFloat.float)
  (h : store) (self : ref) (angle : value) (A : PdfMatrix) :
  load h self = Ok A ->
  fst (rotated cos sin h self angle)
  = (C <- Matrix.rotated cos sin A angle ;; Ok (S (List.length h))).
Proof.
  intros HA. unfold rotated, Matrix.rotated, lift.
  destruct (Matrix.radians angle) as [t|err]; cbn [bind and_then];
    [|reflexivity].
  destruct (Matrix.math_fun cos t) as [c|err]; cbn [bind and_then];
    [|reflexivity].
  destruct (Matrix.math_fun sin t) as [s|err]; cbn [bind and_then fst snd];
    [|reflexivity].
  rewrite (build_then_matmul_refines h self _ A HA).
  destruct (Matrix.__init__ _) as [T|err]; cbn [bind]; [|reflexivity].
  destruct (Matrix.__matmul__ A T) as [C|err]; reflexivity.
Qed.

End StoreFacts.

(** C8: a call of [scaled], [translated], [rotated] or [@] on a live
    instance leaves that instance, and every other instance of the store,
    with the grid and the shorthand it had.  What the call returns is what
    the method computes: a reference to an instance that did not exist
    before the call and holds the computed grid, or the error of the
    method.  On a receiver whose grid is three by three numbers the call
    returns a new instance, given numbers as factors or offsets, an angle
    whose radians are finite, or an operand of the same kind. *)
Theorem transforms_leave_receiver_unchanged
  (cos sin : PrimFloat.float -> PrimFloat.float)
  (h : Store.store) (self other : Store.ref) (x y angle : value)
  (M : PdfMatrix) :
  Store.load h self = Ok M ->
  Forall
    (fun c =>
       Store.load (snd c) self = Ok M
       /\ Store.shorthand_of (snd c) self = shorthand M
       /\ Store.frame h c)
    [Store.scaled h self x y; Store.translated h self x y;
     Store.rotated cos sin h self angle; Store.matmul h self other]
  /\ Store.returns h (Store.scaled h self x y) (scaled M x y)
  /\ Store.returns h (Store.translated h self x y) (translated M x y)
  /\ Store.returns h (Store.rotated cos sin h self angle)
       (rotated cos sin M angle)
  /\ (forall N, Store.load h other = Ok N ->
        Store.returns h (Store.matmul h self other) (__matmul__ M N))
  /\ (forall g, square M = true -> floats M = Ok g ->
        (forall fx fy, float_of_value x = Ok fx -> float_of_value y = Ok fy ->
           Store.returns_new_instance h (Store.scaled h self x y)
           /\ Store.returns_new_instance h (Store.translated h self x y))
        /\ (forall theta, radians angle = Ok theta ->
              is_infinity theta = false ->
              Store.returns_new_instance h
                (Store.rotated cos sin h self angle))
        /\ (forall N g', Store.load h other = Ok N ->
              square N = true -> floats N = Ok g' ->
              Store.returns_new_instance h (Store.matmul h self other))).
Proof.
  intros HM.
  assert (Hall : forall c,
             Store.extends h (snd c) -> Store.fresh h c ->
             Store.load (snd c) self = Ok M
             /\ Store.shorthand_of (snd c) self = shorthand M
             /\ Store.frame h c).
  { intros c He Hf.
    pose proof (StoreFacts.load_extends _ _ _ _ He HM) as HM'.
    split; [exact HM'|]. split.
    - unfold Store.shorthand_of. now rewrite HM'.
    - now apply StoreFacts.grows_frame. }
  split.
  { repeat (apply Forall_cons; [apply Hall|]); [..|apply Forall_nil].
    - apply (StoreFacts.build_then_matmul_grows h self).
    - apply (StoreFacts.build_then_matmul_grows h self).
    - apply (StoreFacts.build_then_matmul_grows h self).
    - apply (StoreFacts.build_then_matmul_grows h self).
    - apply StoreFacts.rotated_grows.
    - apply StoreFacts.rotated_grows.
    - apply StoreFacts.matmul_grows.
    - apply StoreFacts.matmul_grows. }
  split; [now apply StoreFacts.scaled_returns|].
  split; [now apply StoreFacts.translated_returns|].
  split; [now apply StoreFacts.rotated_returns|].
  split; [intros N HN; now apply StoreFacts.matmul_returns|].
  intros g Hs Hg. split; [|split].
  - intros fx fy Hx Hy. split.
    + apply (StoreFacts.returns_Ok h _ (scaled M x y));
        [now apply StoreFacts.scaled_returns|].
      unfold scaled.
      eapply StoreFacts.build_then_matmul_Ok; [exact Hs|exact Hg|].
      cbn [mapM]. rewrite Hx, Hy. reflexivity.
    + apply (StoreFacts.returns_Ok h _ (translated M x y));
        [now apply StoreFacts.translated_returns|].
      unfold translated.
      eapply StoreFacts.build_then_matmul_Ok; [exact Hs|exact Hg|].
      cbn [mapM]. rewrite Hx, Hy. reflexivity.
  - intros theta Ht Hinf.
    apply (StoreFacts.returns_Ok h _ (rotated cos sin M angle));
      [now apply StoreFacts.rotated_returns|].
    unfold rotated. rewrite Ht. cbn [bind]. unfold math_fun. rewrite Hinf.
    cbn [bind].
    eapply StoreFacts.build_then_matmul_Ok; [exact Hs|exact Hg|reflexivity].
  - intros N g' HN HsN HgN.
    apply (StoreFacts.returns_Ok h _ (__matmul__ M N));
      [now apply StoreFacts.matmul_returns|].
    destruct (shape_of_floats g M Hg Hs)
      as (x00 & x01 & x02 & x10 & x11 & x12 & x20 & x21 & x22 & ->).
    destruct (shape_of_floats g' N HgN HsN)
      as (y00 & y01 & y02 & y10 & y11 & y12 & y20 & y21 & y22 & ->).
    eexists. eapply matmul_numeric; eassumption.
Qed.

Lemma transforms_leave_receiver_unchanged_witness :
  Forall
    (fun c =>
       Store.load (snd c) 0%nat
       = Ok (mkPdfMatrix ([VInt 1; VInt 0; VInt 0], [VInt 0; VInt 1; VInt 0],
                          [VInt 0; VInt 0; VInt 1]))
       /\ Store.shorthand_of (snd c) 0%nat
          = shorthand (mkPdfMatrix ([VInt 1; VInt 0; VInt 0], [VInt 0; VInt 1; VInt 0],
                                    [VInt 0; VInt 0; VInt 1]))
       /\ Store.frame
            [(0%nat, mkPdfMatrix ([VInt 1; VInt 0; VInt 0], [VInt 0; VInt 1; VInt 0],
                                [VInt 0; VInt 0; VInt 1]))] c)
    [Store.scaled
       [(0%nat, mkPdfMatrix ([VInt 1; VInt 0; VInt 0], [VInt 0; VInt 1; VInt 0],
                           [VInt 0; VInt 0; VInt 1]))]
       0%nat (VInt 2) (VInt 3);
     Store.translated
       [(0%nat, mkPdfMatrix ([VInt 1; VInt 0; VInt 0], [VInt 0; VInt 1; VInt 0],
                           [VInt 0; VInt 0; VInt 1]))]
       0%nat (VInt 2) (VInt 3);
     Store.rotated (fun _ => 1%float) (fun _ => 0%float)
       [(0%nat, mkPdfMatrix ([VInt 1; VInt 0; VInt 0], [VInt 0; VInt 1; VInt 0],
                           [VInt 0; VInt 0; VInt 1]))]
       0%nat (VInt 90);
     Store.matmul
       [(0%nat, mkPdfMatrix ([VInt 1; VInt 0; VInt 0], [VInt 0; VInt 1; VInt 0],
                           [VInt 0; VInt 0; VInt 1]))]
       0%nat 0%nat]
  /\ Store.returns_new_instance
       [(0%nat, mkPdfMatrix ([VInt 1; VInt 0; VInt 0], [VInt 0; VInt 1; VInt 0],
                           [VInt 0; VInt 0; VInt 1]))]
       (Store.scaled
          [(0%nat, mkPdfMatrix ([VInt 1; VInt 0; VInt 0], [VInt 0; VInt 1; VInt 0],
                              [VInt 0; VInt 0; VInt 1]))]
          0%nat (VInt 2) (VInt 3))
  /\ Store.returns_new_instance
       [(0%nat, mkPdfMatrix ([VInt 1; VInt 0; VInt 0], [VInt 0; VInt 1; VInt 0],
                           [VInt 0; VInt 0; VInt 1]))]
       (Store.matmul
          [(0%nat, mkPdfMatrix ([VInt 1; VInt 0; VInt 0], [VInt 0; VInt 1; VInt 0],
                              [VInt 0; VInt 0; VInt 1]))]
          0%nat 0%nat).
Proof.
  pose proof
    (transforms_leave_receiver_unchanged
       (fun _ => 1%float) (fun _ => 0%float)
       [(0%nat, mkPdfMatrix ([VInt 1; VInt 0; VInt 0], [VInt 0; VInt 1; VInt 0],
                           [VInt 0; VInt 0; VInt 1]))]
       0%nat 0%nat (VInt 2) (VInt 3) (VInt 90)
       (mkPdfMatrix ([VInt 1; VInt 0; VInt 0], [VInt 0; VInt 1; VInt 0],
                    [VInt 0; VInt 0; VInt 1]))
       eq_refl) as (Hframe & _ & _ & _ & _ & Hnew).
  split; [exact Hframe|].
  destruct (Hnew [[1; 0; 0]; [0; 1; 0]; [0; 0; 1]]%float eq_refl eq_refl)
    as (Hbuild & _ & Hmat).
  split.
  - exact (proj1 (Hbuild 2%float 3%float eq_refl eq_refl)).
  - exact (Hmat _ [[1; 0; 0]; [0; 1; 0]; [0; 0; 1]]%float
             eq_refl eq_refl eq_refl).
Defined.

(** ** Rotation *)

Module RotationFacts.
Import FloatFacts.

Lemma finite_opp (x : PrimFloat.float) :
  finite x = true -> finite (- x) = true.
Proof.
  unfold finite. rewrite opp_spec. destruct (Prim2SF x); easy.
Qed.

(** The sign given to [binary_round] only signs its result. *)
Lemma abs_binary_round (s s' : bool) (m : positive) (ex : Z) :
  SFabs (binary_round prec emax s m ex)
  = SFabs (binary_round prec emax s' m ex).
Proof.
  unfold binary_round.
  destruct (shl_align m ex (fexp prec emax (Z.pos (digits2_pos m) + ex)))
    as [mz ez].
  unfold binary_round_aux.
  destruct (shr_fexp prec emax (Z.pos mz) ez loc_Exact) as [mrs e1].
  destruct (shr_fexp prec emax
              (round_nearest_even (shr_m mrs) (loc_of_shr_record mrs)) e1
              loc_Exact) as [mrs2 e2].
  destruct (shr_m mrs2); try reflexivity.
  destruct (e2 <=? emax - prec); reflexivity.
Qed.

Lemma abs_binary_normalize_opp (z ex : Z) :
  SFabs (binary_normalize prec emax (- z) ex false)
  = SFabs (binary_normalize prec emax z ex false).
Proof.
  destruct z as [|p|p]; cbn [Z.opp binary_normalize]; try reflexivity;
    apply abs_binary_round.
Qed.

(** Distance is symmetric under negation of both points. *)
Lemma abs_sub_opp (x t : PrimFloat.float) :
  abs (- x - - t) = abs (x - t).
Proof.
  apply Prim2SF_inj. rewrite !abs_spec, !sub_spec, !opp_spec.
  destruct (Prim2SF x) as [sx|sx| |sx mx ex],
           (Prim2SF t) as [st|st| |st mt et];
    try (destruct sx, st; reflexivity); try (destruct sx; reflexivity);
    try (destruct st; reflexivity); try reflexivity.
  unfold SF64sub, SFsub, SFopp.
  rewrite <- abs_binary_normalize_opp. f_equal. f_equal.
  destruct sx, st; cbn [negb cond_Zopp]; lia.
Qed.

Lemma close_opp (tol x t : PrimFloat.float) :
  close tol x t = true -> close tol (- x) (- t) = true.
Proof. unfold close. now rewrite abs_sub_opp. Qed.

(** The distance to a target does not see the sign of a zero. *)
Lemma close_same (tol r x t : PrimFloat.float) :
  same r x -> close tol x t = true -> close tol r t = true.
Proof.
  intros [->|[Hr Hx]] H; [exact H|].
  unfold close in *. unfold zero in Hr, Hx.
  assert (E : abs (r - t) = abs (x - t)); [|now rewrite E].
  apply Prim2SF_inj. rewrite !abs_spec, !sub_spec.
  destruct (Prim2SF r) as [sr| | |]; try discriminate.
  destruct (Prim2SF x) as [sx| | |]; try discriminate.
  destruct (Prim2SF t) as [st|st| |st mt et]; try reflexivity.
  destruct sr, sx, st; reflexivity.
Qed.

(** With a finite tolerance and a finite target, what is close is
    finite. *)
Lemma close_finite (tol x t : PrimFloat.float) :
  finite tol = true -> finite t = true -> close tol x t = true ->
  finite x = true.
Proof.
  unfold finite, close. rewrite leb_spec, abs_spec, sub_spec.
  destruct (Prim2SF x) as [sx|sx| |sx mx ex]; try reflexivity;
    destruct (Prim2SF t) as [st|st| |st mt et]; try discriminate;
    destruct (Prim2SF tol) as [sl|sl| |sl ml el]; try discriminate;
    intros _ _ H; cbn in H; try discriminate H;
    destruct sx, st; cbn in H; try discriminate H; destruct sl; discriminate H.
Qed.

(** A tolerance that bounds a distance is not negative. *)
Lemma close_zero (tol x t : PrimFloat.float) :
  close tol x t = true -> close tol 0 0 = true.
Proof.
  unfold close. change (abs (0 - 0)) with 0%float.
  rewrite !leb_spec, abs_spec.
  destruct (Prim2SF (x - t)) as [s|s| |s m ex];
    destruct (Prim2SF tol) as [sl|sl| |sl ml el]; cbn; try discriminate;
    try reflexivity; destruct sl; try discriminate; reflexivity.
Qed.

Section WithLibm.

Variables cos sin : PrimFloat.float -> PrimFloat.float.

(** The matrix that [rotated] multiplies by. *)
Lemma rotated_unfold (M : PdfMatrix) (angle : value) (theta : PrimFloat.float) :
  radians angle = Ok theta -> is_infinity theta = false ->
  __init__ [OVal (VTuple [VFloat (cos theta); VFloat (sin theta);
                          VFloat (- sin theta); VFloat (cos theta);
                          VInt 0; VInt 0])]
  = Ok (rotation_grid (cos theta) (sin theta))
  /\ rotated cos sin M angle
     = __matmul__ M (rotation_grid (cos theta) (sin theta)).
Proof.
  intros Ht Hinf. split; [reflexivity|].
  unfold rotated. rewrite Ht. cbn [bind]. unfold math_fun. rewrite Hinf.
  reflexivity.
Qed.

(** The identity, rotated: the coefficients are those of the rotation
    matrix, up to the sign of a zero. *)
Lemma identity_rotated (angle : value) (theta : PrimFloat.float) :
  radians angle = Ok theta -> is_infinity theta = false ->
  finite (cos theta) = true -> finite (sin theta) = true ->
  exists I C r1 r2 r3 r4 r5 r6,
    identity = Ok I
    /\ rotated cos sin I angle = Ok C
    /\ shorthand C
       = Ok [VFloat r1; VFloat r2; VFloat r3; VFloat r4; VFloat r5; VFloat r6]
    /\ same r1 (cos theta) /\ same r2 (sin theta)
    /\ same r3 (- sin theta) /\ same r4 (cos theta)
    /\ same r5 0 /\ same r6 0.
Proof.
  intros Ht Hinf Hc Hs.
  destruct identity_floats as (I & HI & HIf).
  exists I. do 7 eexists. split; [exact HI|].
  destruct (rotated_unfold I angle theta Ht Hinf) as [_ ->].
  assert (HR : floats (rotation_grid (cos theta) (sin theta))
               = Ok [[cos theta; sin theta; 0];
                     [- sin theta; cos theta; 0]; [0; 0; 1]]%float)
    by reflexivity.
  split; [apply (matmul_numeric _ _ _ _ _ _ _ _ _ _ _ _ _ _ _ _ _ _ _ _ HIf HR)|].
  split; [reflexivity|].
  pose proof (finite_opp _ Hs) as Hs'.
  assert (H0 : finite 0 = true) by reflexivity.
  repeat split; auto using dot3_unit_0_l, dot3_unit_1_l, dot3_unit_2_l.
Qed.

End WithLibm.

End RotationFacts.

(** C9: [rotated] multiplies the receiver by the matrix whose shorthand is
    (cos t, sin t, -sin t, cos t, 0, 0), where t is the angle in radians,
    computed as [angle / 180.0 * pi].  When the library's cosine and sine
    of zero are one and zero, the identity rotated by 0 degrees has
    shorthand equal to (1, 0, 0, 1, 0, 0); when its cosine and sine of
    [90 / 180.0 * pi] are within a finite tolerance of zero and one, the
    identity rotated by 90 degrees has shorthand within that tolerance of
    (0, 1, -1, 0, 0, 0). *)
Theorem rotated_is_compose_with_rotation
  (cos sin : PrimFloat.float -> PrimFloat.float) :
  (forall angle x,
     float_of_value angle = Ok x -> radians angle = Ok (x / 180 * pi)%float)
  /\ (forall M angle theta,
        radians angle = Ok theta -> is_infinity theta = false ->
        exists R,
          __init__ [OVal (VTuple [VFloat (cos theta); VFloat (sin theta);
                                  VFloat (- sin theta); VFloat (cos theta);
                                  VInt 0; VInt 0])] = Ok R
          /\ shorthand R
             = Ok [VFloat (cos theta); VFloat (sin theta);
                   VFloat (- sin theta); VFloat (cos theta);
                   VFloat 0; VFloat 0]
          /\ rotated cos sin M angle = __matmul__ M R)
  /\ ((cos 0 = 1)%float -> (sin 0 = 0)%float ->
      exists I C s,
        identity = Ok I
        /\ rotated cos sin I (VInt 0) = Ok C
        /\ shorthand C = Ok s
        /\ py_eq (VTuple s)
                 (VTuple [VInt 1; VInt 0; VInt 0; VInt 1; VInt 0; VInt 0])
           = true)
  /\ (forall tol,
        finite tol = true ->
        close tol (cos (90 / 180 * pi))%float 0 = true ->
        close tol (sin (90 / 180 * pi))%float 1 = true ->
        exists I C r1 r2 r3 r4 r5 r6,
          identity = Ok I
          /\ rotated cos sin I (VInt 90) = Ok C
          /\ shorthand C
             = Ok [VFloat r1; VFloat r2; VFloat r3; VFloat r4; VFloat r5;
                   VFloat r6]
          /\ close tol r1 0 = true /\ close tol r2 1 = true
          /\ close tol r3 (-1) = true /\ close tol r4 0 = true
          /\ close tol r5 0 = true /\ close tol r6 0 = true).
Proof.
  split; [intros angle x Hx; unfold radians; now rewrite Hx|].
  split.
  { intros M angle theta Ht Hinf.
    destruct (RotationFacts.rotated_unfold cos sin M angle theta Ht Hinf)
      as [HR HM].
    eexists. split; [exact HR|]. split; [reflexivity|exact HM]. }
  split.
  { intros Hc Hs.
    destruct (RotationFacts.rotated_unfold cos sin
                (mkPdfMatrix ([VInt 1; VInt 0; VInt 0],
                              [VInt 0; VInt 1; VInt 0],
                              [VInt 0; VInt 0; VInt 1]))
                (VInt 0) 0%float eq_refl eq_refl) as [_ HM].
    rewrite Hc, Hs in HM.
    do 3 eexists. split; [reflexivity|]. split; [exact HM|].
    split; reflexivity. }
  intros tol Htol Hc Hs.
  assert (Hfc : finite (cos (90 / 180 * pi))%float = true)
    by (eapply RotationFacts.close_finite; [exact Htol| |exact Hc]; reflexivity).
  assert (Hfs : finite (sin (90 / 180 * pi))%float = true)
    by (eapply RotationFacts.close_finite; [exact Htol| |exact Hs]; reflexivity).
  destruct (RotationFacts.identity_rotated cos sin (VInt 90)
              (90 / 180 * pi)%float
              eq_refl eq_refl Hfc Hfs)
    as (I & C & r1 & r2 & r3 & r4 & r5 & r6 & HI & HC & Hsh
        & S1 & S2 & S3 & S4 & S5 & S6).
  exists I, C, r1, r2, r3, r4, r5, r6.
  pose proof (RotationFacts.close_zero _ _ _ Hc) as H0.
  pose proof (RotationFacts.close_opp _ _ _ Hs) as Hs'.
  repeat split; try assumption; eapply RotationFacts.close_same; eassumption.
Qed.

Lemma rotated_is_compose_with_rotation_witness :
  exists I C r1 r2 r3 r4 r5 r6,
    identity = Ok I
    /\ rotated (fun t => if (t =? 0)%float then 1 else 0x1.1a62633145c07p-54)%float
               (fun t => if (t =? 0)%float then 0 else 1)%float I (VInt 90)
       = Ok C
    /\ shorthand C
       = Ok [VFloat r1; VFloat r2; VFloat r3; VFloat r4; VFloat r5; VFloat r6]
    /\ close 0x1p-30 r1 0 = true /\ close 0x1p-30 r2 1 = true
    /\ close 0x1p-30 r3 (-1) = true /\ close 0x1p-30 r4 0 = true
    /\ close 0x1p-30 r5 0 = true /\ close 0x1p-30 r6 0 = true.
Proof.
  apply (proj2 (proj2 (proj2
           (rotated_is_compose_with_rotation
              (fun t => if (t =? 0)%float then 1 else 0x1.1a62633145c07p-54)%float
              (fun t => if (t =? 0)%float then 0 else 1)%float)))
           0x1p-30%float);
    reflexivity.
Defined.

(** * Further properties of the class *)

(** ** Edge cases of the constructor *)

Lemma length_not_six {A : Type} (x : A) (rest : list A) :
  List.length rest <> 5%nat -> Nat.eqb (List.length (x :: rest)) 6 = false.
Proof. intros H. apply Nat.eqb_neq. cbn [List.length]. lia. Qed.

Lemma len_value_tuple (v : value) (l : list value) :
  tuple v = Ok l -> len_value v = Ok (Z.of_nat (List.length l)).
Proof.
  destruct v; cbn; intros H; try discriminate H; now injection H as ->.
Qed.

Lemma getitem_value_tuple (v : value) (l : list value) (i : nat) :
  tuple v = Ok l -> getitem_value v i = getitem l i.
Proof.
  destruct v; cbn; intros H; try discriminate H; now injection H as ->.
Qed.

(** X1: a first argument that is a sequence of a length other than six and
    three, or a sequence of three whose first element is a sequence of a
    length other than three, is refused with the [ValueError] that carries
    the whole argument list, whatever follows it (unless six arguments are
    given). *)
Theorem init_refuses_other_lengths (v : value) (l : list value)
  (rest : list pyobj) :
  tuple v = Ok l -> List.length rest <> 5%nat ->
  (List.length l <> 6%nat /\ List.length l <> 3%nat)
  \/ (exists r0 r1 r2 t0,
        l = [r0; r1; r2] /\ tuple r0 = Ok t0 /\ List.length t0 <> 3%nat) ->
  __init__ (OVal v :: rest)
  = Raise (ValueError (invalid_arguments (OVal v :: rest))).
Proof.
  intros Hv Hrest Hl. unfold __init__.
  rewrite (length_not_six _ _ Hrest), (len_value_tuple _ _ Hv). cbn [bind].
  destruct Hl as [[H6 H3]|(r0 & r1 & r2 & t0 & -> & H0 & Ht0)].
  - destruct (Z.eqb_spec (Z.of_nat (List.length l)) 6) as [E|_]; [lia|].
    destruct (Z.eqb_spec (Z.of_nat (List.length l)) 3) as [E|_]; [lia|].
    reflexivity.
  - cbn [List.length Z.of_nat Pos.of_succ_nat Pos.succ Z.eqb Pos.eqb].
    rewrite (getitem_value_tuple _ _ _ Hv). cbn [getitem nth_error bind].
    rewrite (len_value_tuple _ _ H0). cbn [bind].
    destruct (Z.eqb_spec (Z.of_nat (List.length t0)) 3) as [E|_]; [lia|].
    reflexivity.
Qed.

Lemma init_refuses_other_lengths_witness :
  __init__ [OVal (VList [VTuple [VInt 1; VInt 2]; VNone; VInt 3]); OMat
              (mkPdfMatrix ([], [], []))]
  = Raise (ValueError
             (invalid_arguments
                [OVal (VList [VTuple [VInt 1; VInt 2]; VNone; VInt 3]);
                 OMat (mkPdfMatrix ([], [], []))])).
Proof.
  apply (init_refuses_other_lengths
           (VList [VTuple [VInt 1; VInt 2]; VNone; VInt 3])
           [VTuple [VInt 1; VInt 2]; VNone; VInt 3]
           [OMat (mkPdfMatrix ([], [], []))] eq_refl).
  - cbn. lia.
  - right. exists (VTuple [VInt 1; VInt 2]), VNone, (VInt 3), [VInt 1; VInt 2].
    repeat split. cbn. lia.
Defined.

(** X2: when the first argument is a number or [None] and the arguments
    are not six, the constructor raises [TypeError] (from [len]), never the
    [ValueError] of its last branch; so does a sequence of three whose
    first element is a number or [None]. *)
Theorem init_TypeError_on_scalars (v : value) (rest : list pyobj) :
  List.length rest <> 5%nat ->
  len_value v = Raise TypeError
  \/ (exists l r0 r1 r2,
        tuple v = Ok l /\ l = [r0; r1; r2] /\ len_value r0 = Raise TypeError) ->
  __init__ (OVal v :: rest) = Raise TypeError.
Proof.
  intros Hrest H. unfold __init__. rewrite (length_not_six _ _ Hrest).
  destruct H as [H|(l & r0 & r1 & r2 & Hv & -> & H0)].
  - now rewrite H.
  - rewrite (len_value_tuple _ _ Hv). cbn [bind].
    cbn [List.length Z.of_nat Pos.of_succ_nat Pos.succ Z.eqb Pos.eqb].
    rewrite (getitem_value_tuple _ _ _ Hv). cbn [getitem nth_error bind].
    now rewrite H0.
Qed.

Lemma init_TypeError_on_scalars_witness :
  __init__ [OVal (VFloat 1.5); OVal (VInt 2)] = Raise TypeError.
Proof.
  apply (init_TypeError_on_scalars (VFloat 1.5) [OVal (VInt 2)]).
  - cbn. lia.
  - left. reflexivity.
Defined.

(** X3: arguments after the first are ignored by the copy branch and by
    the raw-grid branch: an instance followed by any arguments (other than
    five) is copied, a grid followed by any arguments (other than five) is
    taken; with five more, the six arguments go to [float], and an
    instance in first place is a [TypeError]. *)
Theorem init_ignores_trailing_arguments :
  (forall m rest,
     List.length rest <> 5%nat ->
     __init__ (OMat m :: rest) = Ok (mkPdfMatrix (values m)))
  /\ (forall outer r0 r1 r2 t0 t1 t2 rest,
        List.length rest <> 5%nat ->
        tuple outer = Ok [r0; r1; r2] ->
        tuple r0 = Ok t0 -> List.length t0 = 3%nat ->
        tuple r1 = Ok t1 -> tuple r2 = Ok t2 ->
        __init__ (OVal outer :: rest) = Ok (mkPdfMatrix (t0, t1, t2)))
  /\ (forall m rest,
        List.length rest = 5%nat ->
        __init__ (OMat m :: rest) = Raise TypeError).
Proof.
  split; [|split].
  - intros m rest Hrest. unfold __init__.
    now rewrite (length_not_six _ _ Hrest).
  - intros outer r0 r1 r2 t0 t1 t2 rest Hrest Houter H0 Hlen H1 H2.
    unfold __init__. rewrite (length_not_six _ _ Hrest).
    rewrite (len_value_tuple _ _ Houter). cbn [bind].
    cbn [List.length Z.of_nat Pos.of_succ_nat Pos.succ Z.eqb Pos.eqb].
    rewrite !(getitem_value_tuple _ _ _ Houter). cbn [getitem nth_error bind].
    rewrite (len_value_tuple _ _ H0), Hlen. cbn [bind Z.of_nat Pos.of_succ_nat
      Pos.succ Z.eqb Pos.eqb].
    now rewrite H0, H1, H2.
  - intros m rest Hrest. unfold __init__. cbn [List.length].
    rewrite Hrest. reflexivity.
Qed.

Lemma init_ignores_trailing_arguments_witness :
  __init__ [OMat (mkPdfMatrix ([VInt 1], [], [])); OVal VNone; OVal (VInt 3)]
  = Ok (mkPdfMatrix ([VInt 1], [], [])).
Proof.
  apply (proj1 init_ignores_trailing_arguments
           (mkPdfMatrix ([VInt 1], [], [])) [OVal VNone; OVal (VInt 3)]).
  cbn. lia.
Defined.

(** ** Accessors on ragged grids *)

Lemma getitem_Ok (row : list value) (i : nat) :
  (i < List.length row)%nat -> exists v, getitem row i = Ok v.
Proof.
  intros H. unfold getitem.
  destruct (nth_error row i) as [v|] eqn:E; [now exists v|].
  apply nth_error_None in E. lia.
Qed.

Lemma getitem_IndexError (row : list value) (i : nat) :
  (List.length row <= i)%nat -> getitem row i = Raise IndexError.
Proof.
  intros H. unfold getitem. apply nth_error_None in H. now rewrite H.
Qed.

Lemma shorthand_two_columns (M : PdfMatrix) :
  two_columns M = true ->
  exists va vb vc vd ve vf, shorthand M = Ok [va; vb; vc; vd; ve; vf].
Proof.
  unfold two_columns. cbn [forallb]. intros H.
  repeat match type of H with
  | _ && _ = true => apply andb_true_iff in H; destruct H as [? H]
  end.
  repeat match goal with
  | Hn : Nat.leb _ _ = true |- _ => apply Nat.leb_le in Hn
  end.
  unfold shorthand, a, b, c, d, e, f.
  destruct (getitem_Ok (row0 M) 0 ltac:(lia)) as [va ->].
  destruct (getitem_Ok (row0 M) 1 ltac:(lia)) as [vb ->].
  destruct (getitem_Ok (row1 M) 0 ltac:(lia)) as [vc ->].
  destruct (getitem_Ok (row1 M) 1 ltac:(lia)) as [vd ->].
  destruct (getitem_Ok (row2 M) 0 ltac:(lia)) as [ve ->].
  destruct (getitem_Ok (row2 M) 1 ltac:(lia)) as [vf ->].
  now exists va, vb, vc, vd, ve, vf.
Qed.

Lemma shorthand_ragged (M : PdfMatrix) :
  two_columns M = false -> shorthand M = Raise IndexError.
Proof.
  unfold two_columns. cbn [forallb]. rewrite andb_true_r. intros H.
  unfold shorthand, a, b, c, d, e, f.
  destruct (Nat.leb_spec 2 (List.length (row0 M))) as [H0|H0].
  - destruct (getitem_Ok (row0 M) 0 ltac:(lia)) as [va ->].
    destruct (getitem_Ok (row0 M) 1 ltac:(lia)) as [vb ->]. cbn [bind].
    destruct (Nat.leb_spec 2 (List.length (row1 M))) as [H1|H1].
    + destruct (getitem_Ok (row1 M) 0 ltac:(lia)) as [vc ->].
      destruct (getitem_Ok (row1 M) 1 ltac:(lia)) as [vd ->]. cbn [bind].
      destruct (Nat.leb_spec 2 (List.length (row2 M))) as [H2|H2];
        [discriminate H|].
      destruct (row2 M) as [|ve [|vf r]]; cbn in H2 |- *; [reflexivity..|lia].
    + destruct (row1 M) as [|vc [|vd r]]; cbn in H1 |- *; [reflexivity..|lia].
  - destruct (row0 M) as [|va [|vb r]]; cbn in H0 |- *; [reflexivity..|lia].
Qed.

(** X4: the accessors read two entries of each row.  When every row has
    at least two entries, [shorthand] returns a six-tuple; when some row
    is shorter (the raw-grid constructor allows it), [shorthand],
    [encode] and [__eq__] with any instance raise [IndexError]. *)
Theorem shorthand_needs_two_columns (M : PdfMatrix) :
  (two_columns M = true ->
   exists va vb vc vd ve vf, shorthand M = Ok [va; vb; vc; vd; ve; vf])
  /\ (two_columns M = false ->
      shorthand M = Raise IndexError
      /\ encode M = Raise IndexError
      /\ (forall shared N, __eq__ shared M (OMat N) = Raise IndexError)
      /\ (forall shared N, two_columns N = true ->
            __eq__ shared N (OMat M) = Raise IndexError)).
Proof.
  split; [apply shorthand_two_columns|].
  intros H. pose proof (shorthand_ragged M H) as Hs.
  split; [exact Hs|]. split; [|split].
  - unfold shorthand in Hs. unfold encode.
    destruct (a M); cbn [bind] in *; [|now injection Hs as ->].
    destruct (b M); cbn [bind] in *; [|now injection Hs as ->].
    destruct (c M); cbn [bind] in *; [|now injection Hs as ->].
    destruct (d M); cbn [bind] in *; [|now injection Hs as ->].
    destruct (e M); cbn [bind] in *; [|now injection Hs as ->].
    destruct (f M); cbn [bind] in *; [discriminate Hs|now injection Hs as ->].
  - intros shared N. unfold __eq__. now rewrite Hs.
  - intros shared N HN. unfold __eq__.
    destruct (shorthand_two_columns N HN)
      as (va & vb & vc & vd & ve & vf & ->).
    cbn [bind]. now rewrite Hs.
Qed.

Lemma shorthand_needs_two_columns_witness :
  shorthand (mkPdfMatrix ([VInt 1; VInt 0; VInt 0], [VInt 0], []))
  = Raise IndexError
  /\ encode (mkPdfMatrix ([VInt 1; VInt 0; VInt 0], [VInt 0], []))
     = Raise IndexError
  /\ (forall shared N,
        __eq__ shared (mkPdfMatrix ([VInt 1; VInt 0; VInt 0], [VInt 0], []))
          (OMat N)
        = Raise IndexError)
  /\ (forall shared N, two_columns N = true ->
        __eq__ shared N
          (OMat (mkPdfMatrix ([VInt 1; VInt 0; VInt 0], [VInt 0], [])))
        = Raise IndexError).
Proof.
  apply (proj2 (shorthand_needs_two_columns
                  (mkPdfMatrix ([VInt 1; VInt 0; VInt 0], [VInt 0], [])))).
  reflexivity.
Defined.

(** ** What composition returns *)

Lemma mapM_length {A B : Type} (fn : A -> result B) (l : list A)
  (r : list B) :
  mapM fn l = Ok r -> List.length r = List.length l.
Proof.
  revert r. induction l as [|x xs IH]; intros r H.
  - injection H as <-. reflexivity.
  - cbn [mapM] in H. apply bind_Ok in H. destruct H as (y & _ & H).
    apply bind_Ok in H. destruct H as (ys & Hys & H).
    injection H as <-. cbn [List.length]. now rewrite (IH ys Hys).
Qed.

Lemma mapM_Forall {A B : Type} (fn : A -> result B) (p : B -> Prop)
  (l : list A) (r : list B) :
  (forall x y, fn x = Ok y -> p y) -> mapM fn l = Ok r -> Forall p r.
Proof.
  intros Hp. revert r. induction l as [|x xs IH]; intros r H.
  - injection H as <-. constructor.
  - cbn [mapM] in H. apply bind_Ok in H. destruct H as (y & Hy & H).
    apply bind_Ok in H. destruct H as (ys & Hys & H).
    injection H as <-. constructor; eauto.
Qed.

Lemma entry_sum_value (row col : list value) (v : value) :
  entry row col = Ok v -> sum_value v = true.
Proof.
  unfold entry. intros H. apply bind_Ok in H. destruct H as (ts & _ & H).
  injection H as <-. now destruct ts.
Qed.

Lemma sum_value_formats (v : value) :
  sum_value v = true -> exists s, format_value v = Ok s.
Proof.
  destruct v as [z|x| | |]; cbn [sum_value]; try discriminate.
  - intros H. apply Z.eqb_eq in H. subst z. now eexists.
  - intros _. now eexists.
Qed.

Lemma matmul_shape (A B C : PdfMatrix) :
  __matmul__ A B = Ok C -> all_entries sum_value C = true.
Proof.
  unfold __matmul__, products.
  destruct A as [[[a0 a1] a2]], B as [[[b0 b1] b2]]. cbn [values].
  intros H. apply bind_Ok in H. destruct H as (rows & Hrows & H).
  cbn [mapM] in Hrows.
  apply bind_Ok in Hrows. destruct Hrows as (r0 & H0 & Hrows).
  apply bind_Ok in Hrows. destruct Hrows as (rs & Hrs & Hrows).
  injection Hrows as <-.
  apply bind_Ok in Hrs. destruct Hrs as (r1 & H1 & Hrs).
  apply bind_Ok in Hrs. destruct Hrs as (rs' & Hrs' & Hrs).
  injection Hrs as <-.
  apply bind_Ok in Hrs'. destruct Hrs' as (r2 & H2 & Hrs').
  injection Hrs' as <-.
  pose proof (mapM_length _ _ _ H0) as L0.
  pose proof (mapM_length _ _ _ H1) as L1.
  pose proof (mapM_length _ _ _ H2) as L2.
  pose proof (mapM_Forall _ (fun v => sum_value v = true) _ _
                (entry_sum_value a0) H0) as F0.
  pose proof (mapM_Forall _ (fun v => sum_value v = true) _ _
                (entry_sum_value a1) H1) as F1.
  pose proof (mapM_Forall _ (fun v => sum_value v = true) _ _
                (entry_sum_value a2) H2) as F2.
  unfold __init__ in H. cbn [List.length Nat.eqb map len_value Z.of_nat
    Pos.of_succ_nat Pos.succ bind Z.eqb Pos.eqb getitem_value getitem
    nth_error tuple] in H.
  destruct (Z.eqb_spec (Z.of_nat (List.length r0)) 3) as [E|_];
    [|discriminate H].
  injection H as <-.
  unfold all_entries, square, row0, row1, row2. cbn [values fst snd forallb].
  assert (E0 : List.length r0 = 3%nat) by lia.
  rewrite E0, (eq_trans L1 (eq_trans (eq_sym L0) E0)),
    (eq_trans L2 (eq_trans (eq_sym L0) E0)). cbn [Nat.eqb andb].
  rewrite andb_true_r.
  repeat (apply andb_true_intro; split); apply forallb_forall;
    apply Forall_forall; assumption.
Qed.

(** X5: whatever the operands, an instance returned by [@] has three rows
    of three entries, each a float (or the integer 0 of an empty sum); its
    [shorthand] is defined and [encode] returns bytes for it. *)
Theorem matmul_result_is_well_formed (A B C : PdfMatrix) :
  __matmul__ A B = Ok C ->
  all_entries sum_value C = true
  /\ (exists va vb vc vd ve vf, shorthand C = Ok [va; vb; vc; vd; ve; vf])
  /\ (exists bytes, encode C = Ok bytes).
Proof.
  intros H. pose proof (matmul_shape A B C H) as HC.
  split; [exact HC|].
  apply all_entries_inv in HC.
  destruct HC as (m00 & m01 & m02 & m10 & m11 & m12 & m20 & m21 & m22 & ->
                  & (H00 & H01 & _) & (H10 & H11 & _) & (H20 & H21 & _)).
  split; [now exists m00, m01, m10, m11, m20, m21|].
  unfold encode, a, b, c, d, e, f, row0, row1, row2.
  cbn [values fst snd getitem nth_error bind].
  destruct (sum_value_formats _ H00) as [s00 ->].
  destruct (sum_value_formats _ H01) as [s01 ->].
  destruct (sum_value_formats _ H10) as [s10 ->].
  destruct (sum_value_formats _ H11) as [s11 ->].
  destruct (sum_value_formats _ H20) as [s20 ->].
  destruct (sum_value_formats _ H21) as [s21 ->].
  cbn [bind]. now eexists.
Qed.

Lemma matmul_result_is_well_formed_witness :
  all_entries sum_value
    (mkPdfMatrix ([VInt 0; VInt 0; VInt 0],
                  [VFloat 2; VFloat 0; VFloat 0],
                  [VFloat 5; VFloat 6; VFloat 7])) = true
  /\ (exists va vb vc vd ve vf,
        shorthand (mkPdfMatrix ([VInt 0; VInt 0; VInt 0],
                                [VFloat 2; VFloat 0; VFloat 0],
                                [VFloat 5; VFloat 6; VFloat 7]))
        = Ok [va; vb; vc; vd; ve; vf])
  /\ (exists bytes,
        encode (mkPdfMatrix ([VInt 0; VInt 0; VInt 0],
                             [VFloat 2; VFloat 0; VFloat 0],
                             [VFloat 5; VFloat 6; VFloat 7])) = Ok bytes).
Proof.
  apply (matmul_result_is_well_formed
           (mkPdfMatrix ([], [VInt 2], [VInt 5; VInt 6; VInt 7; VNone]))
           (mkPdfMatrix ([VInt 1; VInt 0; VInt 0], [VInt 0; VInt 1; VInt 0],
                         [VInt 0; VInt 0; VInt 1]))).
  reflexivity.
Defined.

(** ** The transform builders *)

Module BuilderFacts.
Import FloatFacts.

Lemma add_zero_r_any (x z : PrimFloat.float) :
  zero z = true -> same (x + z) x.
Proof.
  unfold same, zero. intros Hz.
  destruct (Prim2SF z) as [sz| | |] eqn:Ez; try discriminate.
  destruct (Prim2SF x) as [sx|sx| |sx mx ex] eqn:Ex.
  - right. split; [|reflexivity]. rewrite add_spec, Ex, Ez.
    destruct sx, sz; reflexivity.
  - left. apply Prim2SF_inj. rewrite add_spec, Ex, Ez. reflexivity.
  - left. apply Prim2SF_inj. rewrite add_spec, Ex, Ez. reflexivity.
  - left. apply Prim2SF_inj. rewrite add_spec, Ex, Ez. reflexivity.
Qed.

Lemma add_zero_l_any (z x : PrimFloat.float) :
  zero z = true -> same (z + x) x.
Proof.
  unfold same, zero. intros Hz.
  destruct (Prim2SF z) as [sz| | |] eqn:Ez; try discriminate.
  destruct (Prim2SF x) as [sx|sx| |sx mx ex] eqn:Ex.
  - right. split; [|reflexivity]. rewrite add_spec, Ex, Ez.
    destruct sx, sz; reflexivity.
  - left. apply Prim2SF_inj. rewrite add_spec, Ex, Ez. reflexivity.
  - left. apply Prim2SF_inj. rewrite add_spec, Ex, Ez. reflexivity.
  - left. apply Prim2SF_inj. rewrite add_spec, Ex, Ez. reflexivity.
Qed.

Lemma same_trans (x y z : PrimFloat.float) :
  same x y -> same y z -> same x z.
Proof.
  intros [->|[Hx Hy]] [->|[Hy' Hz]]; unfold same; auto.
Qed.

Lemma same_zero (r x : PrimFloat.float) :
  same r x -> zero x = true -> zero r = true.
Proof. now intros [->|[Hr _]] Hx. Qed.

Lemma same_finite (r x : PrimFloat.float) :
  same r x -> finite x = true -> finite r = true.
Proof. intros [->|[Hr _]] Hx; auto using zero_finite. Qed.

Lemma same_one (r : PrimFloat.float) : same r 1 -> r = 1%float.
Proof. intros [->|[_ H]]; [reflexivity|discriminate H]. Qed.

(** Adding or multiplying on the right does not see the sign of a zero on
    the left, up to the sign of a zero in the result. *)
Lemma same_add_r (r x y : PrimFloat.float) :
  same r x -> same (r + y) (x + y).
Proof.
  intros [->|[Hr Hx]]; [now left|]. unfold same, zero in *.
  destruct (Prim2SF r) as [sr| | |] eqn:Er; try discriminate.
  destruct (Prim2SF x) as [sx| | |] eqn:Ex; try discriminate.
  destruct (Prim2SF y) as [sy|sy| |sy my ey] eqn:Ey.
  - right. rewrite !add_spec, Er, Ex, Ey.
    destruct sr, sx, sy; split; reflexivity.
  - left. apply Prim2SF_inj. rewrite !add_spec, Er, Ex, Ey. reflexivity.
  - left. apply Prim2SF_inj. rewrite !add_spec, Er, Ex, Ey. reflexivity.
  - left. apply Prim2SF_inj. rewrite !add_spec, Er, Ex, Ey. reflexivity.
Qed.

Lemma same_mul_r (r x y : PrimFloat.float) :
  same r x -> same (r * y) (x * y).
Proof.
  intros [->|[Hr Hx]]; [now left|]. unfold same, zero in *.
  destruct (Prim2SF r) as [sr| | |] eqn:Er; try discriminate.
  destruct (Prim2SF x) as [sx| | |] eqn:Ex; try discriminate.
  destruct (Prim2SF y) as [sy|sy| |sy my ey] eqn:Ey.
  - right. rewrite !mul_spec, Er, Ex, Ey. split; reflexivity.
  - left. apply Prim2SF_inj. rewrite !mul_spec, Er, Ex, Ey. reflexivity.
  - left. apply Prim2SF_inj. rewrite !mul_spec, Er, Ex, Ey. reflexivity.
  - right. rewrite !mul_spec, Er, Ex, Ey. split; reflexivity.
Qed.

Lemma same_add_zero_any (r x z : PrimFloat.float) :
  same r x -> zero z = true -> same (r + z) x.
Proof.
  intros H Hz. eapply same_trans; [apply same_add_r, H|].
  now apply add_zero_r_any.
Qed.

(** A sum of three terms of which two are zero, whatever the third. *)
Lemma sum3_first_any (p t1 t2 : PrimFloat.float) :
  zero t1 = true -> zero t2 = true -> same (0 + p + t1 + t2) p.
Proof.
  intros H1 H2. apply same_add_zero_any; [|assumption].
  apply same_add_zero_any; [|assumption]. now apply add_zero_l_any.
Qed.

Lemma sum3_second_any (t0 p t2 : PrimFloat.float) :
  zero t0 = true -> zero t2 = true -> same (0 + t0 + p + t2) p.
Proof.
  intros H0 H2. apply same_add_zero_any; [|assumption].
  apply add_zero_l_any. now apply zero_add_zero.
Qed.

Lemma sum3_third_any (t0 t1 p : PrimFloat.float) :
  zero t0 = true -> zero t1 = true -> same (0 + t0 + t1 + p) p.
Proof.
  intros H0 H1. apply add_zero_l_any.
  apply zero_add_zero; [|assumption]. now apply zero_add_zero.
Qed.

(** What a builder returns: the product of the receiver's floats with the
    floats of the six numbers. *)
Lemma builder_product (M : PdfMatrix) (v1 v2 v3 v4 v5 v6 : value)
  (x1 x2 x3 x4 x5 x6 a b u c d v e f w : PrimFloat.float) :
  mapM float_of_value [v1; v2; v3; v4; v5; v6] = Ok [x1; x2; x3; x4; x5; x6] ->
  floats M = Ok [[a; b; u]; [c; d; v]; [e; f; w]] ->
  (m <- __init__ [OVal (VTuple [v1; v2; v3; v4; v5; v6])] ;; __matmul__ M m)
  = Ok (product_grid a b u c d v e f w x1 x2 0 x3 x4 0 x5 x6 1).
Proof.
  intros Hv HM.
  rewrite (init_six_sequence (VTuple [v1; v2; v3; v4; v5; v6])
             v1 v2 v3 v4 v5 v6 x1 x2 x3 x4 x5 x6 eq_refl Hv).
  cbn [bind]. now apply matmul_numeric.
Qed.

Lemma scaled_product (M : PdfMatrix) (x y : value)
  (fx fy a b u c d v e f w : PrimFloat.float) :
  float_of_value x = Ok fx -> float_of_value y = Ok fy ->
  floats M = Ok [[a; b; u]; [c; d; v]; [e; f; w]] ->
  scaled M x y = Ok (product_grid a b u c d v e f w fx 0 0 0 fy 0 0 0 1).
Proof.
  intros Hx Hy HM. unfold scaled. apply builder_product; [|exact HM].
  cbn [mapM]. rewrite Hx, Hy. reflexivity.
Qed.

Lemma translated_product (M : PdfMatrix) (x y : value)
  (fx fy a b u c d v e f w : PrimFloat.float) :
  float_of_value x = Ok fx -> float_of_value y = Ok fy ->
  floats M = Ok [[a; b; u]; [c; d; v]; [e; f; w]] ->
  translated M x y = Ok (product_grid a b u c d v e f w 1 0 0 0 1 0 fx fy 1).
Proof.
  intros Hx Hy HM. unfold translated. apply builder_product; [|exact HM].
  cbn [mapM]. rewrite Hx, Hy. reflexivity.
Qed.

Lemma zero_0 : zero 0 = true.
Proof. reflexivity. Qed.

(** The entries of a row scaled by (x, y). *)
Lemma scaled_row (a b u fx fy : PrimFloat.float) :
  finite a = true -> finite b = true -> finite u = true ->
  same (dot3 a b u fx 0 0) (a * fx)
  /\ same (dot3 a b u 0 fy 0) (b * fy)
  /\ same (dot3 a b u 0 0 1) u.
Proof.
  intros Ha Hb Hu. unfold dot3. repeat split.
  - apply sum3_first_any; apply mul_zero_r; auto using zero_0.
  - apply sum3_second_any; apply mul_zero_r; auto using zero_0.
  - rewrite (mul_1_r u Hu).
    apply sum3_third_any; apply mul_zero_r; auto using zero_0.
Qed.

(** The entries of a row translated by (x, y), by the row's third entry. *)
Lemma translated_row_zero (a b u fx fy : PrimFloat.float) :
  finite a = true -> finite b = true -> zero u = true ->
  finite fx = true -> finite fy = true ->
  same (dot3 a b u 1 0 fx) a
  /\ same (dot3 a b u 0 1 fy) b
  /\ same (dot3 a b u 0 0 1) u.
Proof.
  intros Ha Hb Hu Hx Hy. pose proof (zero_finite u Hu) as Hfu.
  unfold dot3. repeat split.
  - rewrite (mul_1_r a Ha).
    apply sum3_first_any; [apply mul_zero_r|apply mul_zero_l]; auto using zero_0.
  - rewrite (mul_1_r b Hb).
    apply sum3_second_any; [apply mul_zero_r|apply mul_zero_l];
      auto using zero_0.
  - rewrite (mul_1_r u Hfu).
    apply sum3_third_any; apply mul_zero_r; auto using zero_0.
Qed.

Lemma translated_row_one (e f fx fy : PrimFloat.float) :
  finite e = true -> finite f = true ->
  finite fx = true -> finite fy = true ->
  same (dot3 e f 1 1 0 fx) (e + fx)
  /\ same (dot3 e f 1 0 1 fy) (f + fy)
  /\ dot3 e f 1 0 0 1 = 1%float.
Proof.
  intros He Hf Hx Hy. unfold dot3. repeat split.
  - rewrite (mul_1_r e He), (mul_1_l fx Hx). apply same_add_r.
    apply same_add_zero_any; [|apply mul_zero_r; auto using zero_0].
    now apply add_zero_l_any.
  - rewrite (mul_1_r f Hf), (mul_1_l fy Hy). apply same_add_r.
    apply add_zero_l_any. apply zero_add_zero; [reflexivity|].
    apply mul_zero_r; auto using zero_0.
  - apply same_one. change (1 * 1)%float with 1%float.
    apply sum3_third_any; apply mul_zero_r; auto using zero_0.
Qed.

End BuilderFacts.

Lemma forallb_finite9 (a b u c d v e f w : PrimFloat.float) :
  forallb finite [a; b; u; c; d; v; e; f; w] = true ->
  (finite a = true /\ finite b = true /\ finite u = true)
  /\ (finite c = true /\ finite d = true /\ finite v = true)
  /\ (finite e = true /\ finite f = true /\ finite w = true).
Proof.
  cbn [forallb]. intros H.
  repeat match type of H with
  | _ && _ = true => apply andb_true_iff in H; destruct H as [? H]
  end.
  repeat split; assumption.
Qed.

(** The floats of the third column of an instance that has the invariant. *)
Lemma third_column_floats (M : PdfMatrix)
  (a b u c d v e f w : PrimFloat.float) :
  floats M = Ok [[a; b; u]; [c; d; v]; [e; f; w]] -> invariant M = true ->
  zero u = true /\ zero v = true /\ w = 1%float.
Proof.
  destruct M as [[[r0 r1] r2]].
  unfold floats, row0, row1, row2. cbn [values fst snd]. intros HM Hi.
  apply mapM_cons_inv in HM. destruct HM as (? & ? & E & H0 & HM).
  injection E as <- <-.
  apply mapM_cons_inv in HM. destruct HM as (? & ? & E & H1 & HM).
  injection E as <- <-.
  apply mapM_cons_inv in HM. destruct HM as (? & ? & E & H2 & _).
  injection E as <- _.
  mapM_inv H0. mapM_inv H1. mapM_inv H2.
  rewrite ColumnFacts.invariant_grid in Hi.
  repeat match goal with
  | Hc : _ && _ = true |- _ => apply andb_true_iff in Hc; destruct Hc
  end.
  repeat split;
    eauto using ColumnFacts.value_zero, ColumnFacts.value_one.
Qed.

(** X6: on a receiver whose grid is three by three with finite entries,
    [scaled(x, y)] returns an instance whose shorthand is
    (a*x, b*y, c*x, d*y, e*x, f*y) in float arithmetic, up to the sign of
    a zero: the first column is multiplied by x and the second by y. *)
Theorem scaled_coefficients (M : PdfMatrix) (x y : value)
  (fx fy a b u c d v e f w : PrimFloat.float) :
  floats M = Ok [[a; b; u]; [c; d; v]; [e; f; w]] ->
  forallb finite [a; b; u; c; d; v; e; f; w] = true ->
  float_of_value x = Ok fx -> float_of_value y = Ok fy ->
  exists C rs,
    scaled M x y = Ok C
    /\ shorthand C = Ok (map VFloat rs)
    /\ same_all rs [a * fx; b * fy; c * fx; d * fy; e * fx; f * fy]%float.
Proof.
  intros HM Hfin Hx Hy.
  apply forallb_finite9 in Hfin.
  destruct Hfin as ((Ha & Hb & Hu) & (Hc & Hd & Hv) & (He & Hf & Hw)).
  eexists.
  exists [dot3 a b u fx 0 0; dot3 a b u 0 fy 0; dot3 c d v fx 0 0;
          dot3 c d v 0 fy 0; dot3 e f w fx 0 0; dot3 e f w 0 fy 0].
  split; [apply (BuilderFacts.scaled_product M x y fx fy _ _ _ _ _ _ _ _ _
                   Hx Hy HM)|].
  split; [reflexivity|].
  destruct (BuilderFacts.scaled_row a b u fx fy Ha Hb Hu) as (? & ? & _).
  destruct (BuilderFacts.scaled_row c d v fx fy Hc Hd Hv) as (? & ? & _).
  destruct (BuilderFacts.scaled_row e f w fx fy He Hf Hw) as (? & ? & _).
  unfold same_all.
  repeat (apply Forall2_cons; [assumption|]). apply Forall2_nil.
Qed.

Lemma scaled_coefficients_witness :
  exists C rs,
    scaled (mkPdfMatrix ([VFloat 0.5; VInt 2; VInt 0],
                         [VFloat (-3); VFloat 1.25; VInt 0],
                         [VInt 7; VFloat (-0); VInt 1]))
           (VInt 2) (VFloat 3.5) = Ok C
    /\ shorthand C = Ok (map VFloat rs)
    /\ same_all rs [0.5 * 2; 2 * 3.5; -3 * 2; 1.25 * 3.5; 7 * 2; -0 * 3.5]%float.
Proof.
  apply (scaled_coefficients
           (mkPdfMatrix ([VFloat 0.5; VInt 2; VInt 0],
                         [VFloat (-3); VFloat 1.25; VInt 0],
                         [VInt 7; VFloat (-0); VInt 1]))
           (VInt 2) (VFloat 3.5) 2 3.5 0.5 2 0 (-3) 1.25 0 7 (-0) 1);
    reflexivity.
Defined.

(** X7: on a receiver with third column (0, 0, 1) whose grid is three by
    three with finite entries, [translated(x, y)] for finite x and y
    returns an instance whose shorthand is (a, b, c, d, e + x, f + y) in
    float arithmetic, up to the sign of a zero, and whose third column is
    again (0, 0, 1). *)
Theorem translated_coefficients (M : PdfMatrix) (x y : value)
  (fx fy a b u c d v e f w : PrimFloat.float) :
  floats M = Ok [[a; b; u]; [c; d; v]; [e; f; w]] ->
  forallb finite [a; b; u; c; d; v; e; f; w] = true ->
  invariant M = true ->
  float_of_value x = Ok fx -> float_of_value y = Ok fy ->
  finite fx = true -> finite fy = true ->
  exists C rs,
    translated M x y = Ok C
    /\ shorthand C = Ok (map VFloat rs)
    /\ same_all rs [a; b; c; d; e + fx; f + fy]%float
    /\ invariant C = true.
Proof.
  intros HM Hfin Hi Hx Hy Hfx Hfy.
  apply forallb_finite9 in Hfin.
  destruct Hfin as ((Ha & Hb & _) & (Hc & Hd & _) & (He & Hf & _)).
  destruct (third_column_floats M _ _ _ _ _ _ _ _ _ HM Hi) as (Hu & Hv & ->).
  eexists.
  exists [dot3 a b u 1 0 fx; dot3 a b u 0 1 fy; dot3 c d v 1 0 fx;
          dot3 c d v 0 1 fy; dot3 e f 1 1 0 fx; dot3 e f 1 0 1 fy].
  split; [apply (BuilderFacts.translated_product M x y fx fy _ _ _ _ _ _ _ _ _
                   Hx Hy HM)|].
  split; [reflexivity|].
  destruct (BuilderFacts.translated_row_zero a b u fx fy Ha Hb Hu Hfx Hfy)
    as (? & ? & S0).
  destruct (BuilderFacts.translated_row_zero c d v fx fy Hc Hd Hv Hfx Hfy)
    as (? & ? & S1).
  destruct (BuilderFacts.translated_row_one e f fx fy He Hf Hfx Hfy)
    as (? & ? & E2).
  split; [unfold same_all;
          repeat (apply Forall2_cons; [assumption|]); apply Forall2_nil|].
  unfold product_grid. rewrite ColumnFacts.invariant_grid, E2.
  apply (BuilderFacts.same_zero _ _ S0) in Hu.
  apply (BuilderFacts.same_zero _ _ S1) in Hv.
  unfold zero in Hu, Hv. cbn [py_eq]. unfold int_eq_float.
  destruct (Prim2SF (dot3 a b u 0 0 1)); try discriminate Hu.
  destruct (Prim2SF (dot3 c d v 0 0 1)); try discriminate Hv.
  reflexivity.
Qed.

Lemma translated_coefficients_witness :
  exists C rs,
    translated (mkPdfMatrix ([VFloat 0.5; VInt 2; VInt 0],
                             [VFloat (-3); VFloat 1.25; VInt 0],
                             [VInt 7; VFloat (-0); VInt 1]))
               (VInt 2) (VFloat 3.5) = Ok C
    /\ shorthand C = Ok (map VFloat rs)
    /\ same_all rs [0.5; 2; -3; 1.25; 7 + 2; -0 + 3.5]%float
    /\ invariant C = true.
Proof.
  apply (translated_coefficients
           (mkPdfMatrix ([VFloat 0.5; VInt 2; VInt 0],
                         [VFloat (-3); VFloat 1.25; VInt 0],
                         [VInt 7; VFloat (-0); VInt 1]))
           (VInt 2) (VFloat 3.5) 2 3.5 0.5 2 0 (-3) 1.25 0 7 (-0) 1);
    reflexivity.
Defined.

Lemma same_of_zeros (r x : PrimFloat.float) :
  zero r = true -> zero x = true -> same r x.
Proof. intros Hr Hx. right. now split. Qed.

(** X8: translations add up.  From the identity, [translated(x1, y1)]
    followed by [translated(x2, y2)], for finite numbers, gives an
    instance with shorthand (1, 0, 0, 1, x1 + x2, y1 + y2) in float
    arithmetic, up to the sign of a zero. *)
Theorem translated_twice_from_identity (x1 y1 x2 y2 : value)
  (f1 g1 f2 g2 : PrimFloat.float) :
  float_of_value x1 = Ok f1 -> float_of_value y1 = Ok g1 ->
  float_of_value x2 = Ok f2 -> float_of_value y2 = Ok g2 ->
  forallb finite [f1; g1; f2; g2] = true ->
  exists I T1 T2 rs,
    identity = Ok I
    /\ translated I x1 y1 = Ok T1
    /\ translated T1 x2 y2 = Ok T2
    /\ shorthand T2 = Ok (map VFloat rs)
    /\ same_all rs [1; 0; 0; 1; f1 + f2; g1 + g2]%float.
Proof.
  intros Hx1 Hy1 Hx2 Hy2 Hfin. cbn [forallb] in Hfin.
  repeat match type of Hfin with
  | _ && _ = true => apply andb_true_iff in Hfin; destruct Hfin as [? Hfin]
  end.
  destruct identity_floats as (I & HI & HIf).
  assert (F0 : finite 0 = true) by reflexivity.
  assert (F1 : finite 1 = true) by reflexivity.
  assert (Z0 : zero 0 = true) by reflexivity.
  destruct (BuilderFacts.translated_row_zero 1 0 0 f1 g1) as (A0 & A1 & A2);
    try assumption.
  destruct (BuilderFacts.translated_row_zero 0 1 0 f1 g1) as (B0 & B1 & B2);
    try assumption.
  destruct (BuilderFacts.translated_row_one 0 0 f1 g1) as (C0 & C1 & C2);
    try assumption.
  pose proof (BuilderFacts.same_trans _ _ _ C0
                (BuilderFacts.add_zero_l_any 0 f1 Z0)) as C0'.
  pose proof (BuilderFacts.same_trans _ _ _ C1
                (BuilderFacts.add_zero_l_any 0 g1 Z0)) as C1'.
  exists I. eexists. eexists.
  exists [dot3 (dot3 1 0 0 1 0 f1) (dot3 1 0 0 0 1 g1) (dot3 1 0 0 0 0 1) 1 0 f2;
          dot3 (dot3 1 0 0 1 0 f1) (dot3 1 0 0 0 1 g1) (dot3 1 0 0 0 0 1) 0 1 g2;
          dot3 (dot3 0 1 0 1 0 f1) (dot3 0 1 0 0 1 g1) (dot3 0 1 0 0 0 1) 1 0 f2;
          dot3 (dot3 0 1 0 1 0 f1) (dot3 0 1 0 0 1 g1) (dot3 0 1 0 0 0 1) 0 1 g2;
          dot3 (dot3 0 0 1 1 0 f1) (dot3 0 0 1 0 1 g1) (dot3 0 0 1 0 0 1) 1 0 f2;
          dot3 (dot3 0 0 1 1 0 f1) (dot3 0 0 1 0 1 g1) (dot3 0 0 1 0 0 1) 0 1 g2].
  split; [exact HI|].
  split; [apply (BuilderFacts.translated_product I x1 y1 f1 g1
                   _ _ _ _ _ _ _ _ _ Hx1 Hy1 HIf)|].
  split; [eapply (BuilderFacts.translated_product _ x2 y2 f2 g2);
          [exact Hx2|exact Hy2|reflexivity]|].
  split; [reflexivity|].
  destruct (BuilderFacts.translated_row_zero
              (dot3 1 0 0 1 0 f1) (dot3 1 0 0 0 1 g1) (dot3 1 0 0 0 0 1) f2 g2)
    as (S00 & S01 & _);
    eauto using BuilderFacts.same_finite, BuilderFacts.same_zero.
  destruct (BuilderFacts.translated_row_zero
              (dot3 0 1 0 1 0 f1) (dot3 0 1 0 0 1 g1) (dot3 0 1 0 0 0 1) f2 g2)
    as (S10 & S11 & _);
    eauto using BuilderFacts.same_finite, BuilderFacts.same_zero.
  destruct (BuilderFacts.translated_row_one
              (dot3 0 0 1 1 0 f1) (dot3 0 0 1 0 1 g1) f2 g2)
    as (S20 & S21 & _);
    eauto using BuilderFacts.same_finite.
  unfold same_all.
  repeat (apply Forall2_cons; [|]); [..|apply Forall2_nil];
    eauto using BuilderFacts.same_trans, BuilderFacts.same_add_r.
Qed.

Lemma translated_twice_from_identity_witness :
  exists I T1 T2 rs,
    identity = Ok I
    /\ translated I (VInt 3) (VInt 4) = Ok T1
    /\ translated T1 (VInt 5) (VInt 6) = Ok T2
    /\ shorthand T2 = Ok (map VFloat rs)
    /\ same_all rs [1; 0; 0; 1; 3 + 5; 4 + 6]%float.
Proof.
  apply (translated_twice_from_identity (VInt 3) (VInt 4) (VInt 5) (VInt 6)
           3 4 5 6); reflexivity.
Defined.

(** X9: scalings multiply.  From the identity, [scaled(x1, y1)] followed
    by [scaled(x2, y2)], for finite numbers, gives an instance with
    shorthand (x1 * x2, 0, 0, y1 * y2, 0, 0) in float arithmetic, up to
    the sign of a zero. *)
Theorem scaled_twice_from_identity (x1 y1 x2 y2 : value)
  (f1 g1 f2 g2 : PrimFloat.float) :
  float_of_value x1 = Ok f1 -> float_of_value y1 = Ok g1 ->
  float_of_value x2 = Ok f2 -> float_of_value y2 = Ok g2 ->
  forallb finite [f1; g1; f2; g2] = true ->
  exists I S1 S2 rs,
    identity = Ok I
    /\ scaled I x1 y1 = Ok S1
    /\ scaled S1 x2 y2 = Ok S2
    /\ shorthand S2 = Ok (map VFloat rs)
    /\ same_all rs [f1 * f2; 0; 0; g1 * g2; 0; 0]%float.
Proof.
  intros Hx1 Hy1 Hx2 Hy2 Hfin. cbn [forallb] in Hfin.
  repeat match type of Hfin with
  | _ && _ = true => apply andb_true_iff in Hfin; destruct Hfin as [? Hfin]
  end.
  destruct identity_floats as (I & HI & HIf).
  assert (F0 : finite 0 = true) by reflexivity.
  assert (F1 : finite 1 = true) by reflexivity.
  assert (Z0 : zero 0 = true) by reflexivity.
  destruct (BuilderFacts.scaled_row 1 0 0 f1 g1) as (A0 & A1 & A2);
    try assumption.
  destruct (BuilderFacts.scaled_row 0 1 0 f1 g1) as (B0 & B1 & B2);
    try assumption.
  destruct (BuilderFacts.scaled_row 0 0 1 f1 g1) as (C0 & C1 & C2);
    try assumption.
  rewrite (FloatFacts.mul_1_l f1) in A0 by assumption.
  rewrite (FloatFacts.mul_1_l g1) in B1 by assumption.
  pose proof (FloatFacts.mul_zero_l 0 f1 Z0 ltac:(assumption)) as Zf.
  pose proof (FloatFacts.mul_zero_l 0 g1 Z0 ltac:(assumption)) as Zg.
  exists I. eexists. eexists.
  exists [dot3 (dot3 1 0 0 f1 0 0) (dot3 1 0 0 0 g1 0) (dot3 1 0 0 0 0 1) f2 0 0;
          dot3 (dot3 1 0 0 f1 0 0) (dot3 1 0 0 0 g1 0) (dot3 1 0 0 0 0 1) 0 g2 0;
          dot3 (dot3 0 1 0 f1 0 0) (dot3 0 1 0 0 g1 0) (dot3 0 1 0 0 0 1) f2 0 0;
          dot3 (dot3 0 1 0 f1 0 0) (dot3 0 1 0 0 g1 0) (dot3 0 1 0 0 0 1) 0 g2 0;
          dot3 (dot3 0 0 1 f1 0 0) (dot3 0 0 1 0 g1 0) (dot3 0 0 1 0 0 1) f2 0 0;
          dot3 (dot3 0 0 1 f1 0 0) (dot3 0 0 1 0 g1 0) (dot3 0 0 1 0 0 1) 0 g2 0].
  split; [exact HI|].
  split; [apply (BuilderFacts.scaled_product I x1 y1 f1 g1
                   _ _ _ _ _ _ _ _ _ Hx1 Hy1 HIf)|].
  split; [eapply (BuilderFacts.scaled_product _ x2 y2 f2 g2);
          [exact Hx2|exact Hy2|reflexivity]|].
  split; [reflexivity|].
  pose proof (BuilderFacts.same_zero _ _ A1 Zg) as ZA1.
  pose proof (BuilderFacts.same_zero _ _ B0 Zf) as ZB0.
  pose proof (BuilderFacts.same_zero _ _ C0 Zf) as ZC0.
  pose proof (BuilderFacts.same_zero _ _ C1 Zg) as ZC1.
  destruct (BuilderFacts.scaled_row
              (dot3 1 0 0 f1 0 0) (dot3 1 0 0 0 g1 0) (dot3 1 0 0 0 0 1) f2 g2)
    as (S00 & S01 & _);
    eauto using BuilderFacts.same_finite, FloatFacts.zero_finite.
  destruct (BuilderFacts.scaled_row
              (dot3 0 1 0 f1 0 0) (dot3 0 1 0 0 g1 0) (dot3 0 1 0 0 0 1) f2 g2)
    as (S10 & S11 & _);
    eauto using BuilderFacts.same_finite, FloatFacts.zero_finite.
  destruct (BuilderFacts.scaled_row
              (dot3 0 0 1 f1 0 0) (dot3 0 0 1 0 g1 0) (dot3 0 0 1 0 0 1) f2 g2)
    as (S20 & S21 & _);
    eauto using BuilderFacts.same_finite, FloatFacts.zero_finite.
  unfold same_all.
  apply Forall2_cons;
    [eauto using BuilderFacts.same_trans, BuilderFacts.same_mul_r|].
  apply Forall2_cons;
    [apply same_of_zeros; [|exact Z0];
     eauto using BuilderFacts.same_zero, FloatFacts.mul_zero_l|].
  apply Forall2_cons;
    [apply same_of_zeros; [|exact Z0];
     eauto using BuilderFacts.same_zero, FloatFacts.mul_zero_l|].
  apply Forall2_cons;
    [eauto using BuilderFacts.same_trans, BuilderFacts.same_mul_r|].
  apply Forall2_cons;
    [apply same_of_zeros; [|exact Z0];
     eauto using BuilderFacts.same_zero, FloatFacts.mul_zero_l|].
  apply Forall2_cons;
    [apply same_of_zeros; [|exact Z0];
     eauto using BuilderFacts.same_zero, FloatFacts.mul_zero_l|].
  apply Forall2_nil.
Qed.

Lemma scaled_twice_from_identity_witness :
  exists I S1 S2 rs,
    identity = Ok I
    /\ scaled I (VInt 2) (VInt 3) = Ok S1
    /\ scaled S1 (VFloat 0.5) (VInt (-4)) = Ok S2
    /\ shorthand S2 = Ok (map VFloat rs)
    /\ same_all rs [2 * 0.5; 0; 0; 3 * -4; 0; 0]%float.
Proof.
  apply (scaled_twice_from_identity (VInt 2) (VInt 3) (VFloat 0.5) (VInt (-4))
           2 3 0.5 (-4)); reflexivity.
Defined.

(** ** Neutral transforms *)

Lemma zero_opp (x : PrimFloat.float) : zero x = true -> zero (- x) = true.
Proof. unfold zero. rewrite opp_spec. destruct (Prim2SF x); easy. Qed.

(** Multiplying on the right by a grid whose first two columns are those
    of the identity, up to the sign of a zero, gives an equal instance. *)
Lemma matmul_unit_right (M B : PdfMatrix)
  (z01 z10 z20 z21 t0 t1 t2 : PrimFloat.float) :
  all_entries exact_value M = true ->
  floats B = Ok [[1; z01; t0]; [z10; 1; t1]; [z20; z21; t2]]%float ->
  zero z01 = true -> zero z10 = true -> zero z20 = true -> zero z21 = true ->
  exists R,
    __matmul__ M B = Ok R
    /\ forall shared, __eq__ shared R (OMat M) = Ok true.
Proof.
  intros H HB Z01 Z10 Z20 Z21. apply all_entries_inv in H.
  destruct H as (m00 & m01 & m02 & m10 & m11 & m12 & m20 & m21 & m22 & ->
                 & (H00 & H01 & H02) & (H10 & H11 & H12) & (H20 & H21 & H22)).
  apply exact_value_inv in H00, H01, H02, H10, H11, H12, H20, H21, H22.
  destruct H00 as (x00 & F00 & N00 & E00), H01 as (x01 & F01 & N01 & E01),
    H02 as (x02 & F02 & N02 & E02), H10 as (x10 & F10 & N10 & E10),
    H11 as (x11 & F11 & N11 & E11), H12 as (x12 & F12 & N12 & E12),
    H20 as (x20 & F20 & N20 & E20), H21 as (x21 & F21 & N21 & E21),
    H22 as (x22 & F22 & N22 & E22).
  pose proof (floats_of_grid _ _ _ _ _ _ _ _ _ _ _ _ _ _ _ _ _ _
                F00 F01 F02 F10 F11 F12 F20 F21 F22) as HM.
  eexists.
  split; [apply (matmul_numeric _ _ _ _ _ _ _ _ _ _ _ _ _ _ _ _ _ _ _ B HM HB)|].
  intros shared.
  unfold __eq__, shorthand, a, b, c, d, e, f, product_grid, row0, row1, row2.
  cbn [values fst snd getitem nth_error bind].
  apply eq_of_py_eq. rewrite py_eq_tuple6.
  repeat (apply andb_true_intro; split); try reflexivity;
    (eapply FloatFacts.py_eq_same; [|eassumption]);
    auto using FloatFacts.dot3_unit_0_r, FloatFacts.dot3_unit_1_r.
Qed.

(** X10: on a receiver whose grid is three by three with entries that are
    finite floats or integers that [float] converts without rounding,
    [scaled(1, 1)], [translated(0, 0)] (with either zero) and [rotated]
    by an angle whose cosine is one and whose sine is a zero all return an
    instance equal to the receiver. *)
Theorem neutral_transforms (cos sin : PrimFloat.float -> PrimFloat.float)
  (M : PdfMatrix) :
  all_entries exact_value M = true ->
  (forall x y,
     float_of_value x = Ok 1%float -> float_of_value y = Ok 1%float ->
     exists R, scaled M x y = Ok R
               /\ forall shared, __eq__ shared R (OMat M) = Ok true)
  /\ (forall x y fx fy,
        float_of_value x = Ok fx -> float_of_value y = Ok fy ->
        zero fx = true -> zero fy = true ->
        exists R, translated M x y = Ok R
                  /\ forall shared, __eq__ shared R (OMat M) = Ok true)
  /\ (forall angle theta,
        radians angle = Ok theta -> is_infinity theta = false ->
        cos theta = 1%float -> zero (sin theta) = true ->
        exists R, rotated cos sin M angle = Ok R
                  /\ forall shared, __eq__ shared R (OMat M) = Ok true).
Proof.
  intros HM. split; [|split].
  - intros x y Hx Hy. unfold scaled.
    rewrite (init_six_sequence (VTuple [x; VInt 0; VInt 0; y; VInt 0; VInt 0])
               x (VInt 0) (VInt 0) y (VInt 0) (VInt 0) 1 0 0 1 0 0 eq_refl)
      by (cbn [mapM]; rewrite Hx, Hy; reflexivity).
    cbn [bind]. eapply matmul_unit_right; try exact HM; reflexivity.
  - intros x y fx fy Hx Hy Zx Zy. unfold translated.
    rewrite (init_six_sequence (VTuple [VInt 1; VInt 0; VInt 0; VInt 1; x; y])
               (VInt 1) (VInt 0) (VInt 0) (VInt 1) x y 1 0 0 1 fx fy eq_refl)
      by (cbn [mapM]; rewrite Hx, Hy; reflexivity).
    cbn [bind].
    eapply matmul_unit_right; try exact HM; try reflexivity; assumption.
  - intros angle theta Ht Hinf Hc Hs.
    destruct (RotationFacts.rotated_unfold cos sin M angle theta Ht Hinf)
      as [_ ->].
    rewrite Hc.
    eapply matmul_unit_right; try exact HM; try reflexivity;
      auto using zero_opp.
Qed.

Lemma neutral_transforms_witness :
  exists R,
    scaled (mkPdfMatrix ([VFloat 0.5; VInt 2; VInt 0],
                         [VFloat (-3); VFloat 1.25; VInt 0],
                         [VInt 7; VFloat (-0); VInt 1]))
           (VInt 1) (VFloat 1) = Ok R
    /\ forall shared,
         __eq__ shared R
           (OMat (mkPdfMatrix ([VFloat 0.5; VInt 2; VInt 0],
                               [VFloat (-3); VFloat 1.25; VInt 0],
                               [VInt 7; VFloat (-0); VInt 1]))) = Ok true.
Proof.
  apply (proj1 (neutral_transforms (fun _ => 1%float) (fun _ => 0%float)
                  (mkPdfMatrix ([VFloat 0.5; VInt 2; VInt 0],
                                [VFloat (-3); VFloat 1.25; VInt 0],
                                [VInt 7; VFloat (-0); VInt 1]))
                  eq_refl) (VInt 1) (VFloat 1)); reflexivity.
Defined.

(** ** What equality and encoding read *)

(** X11: [__eq__] and [encode] read the first two entries of each row and
    nothing else: two instances that agree there have the same shorthand
    and encode to the same result, whatever their third columns hold;
    they are equal when they hold the same six coefficient objects, and,
    whatever objects they share, when the six coefficients are equal to
    themselves (none is NaN). *)
Theorem eq_and_encode_ignore_third_column
  (va vb vc vd ve vf : value) (t0 t1 t2 t0' t1' t2' : list value) :
  let M := mkPdfMatrix (va :: vb :: t0, vc :: vd :: t1, ve :: vf :: t2) in
  let N := mkPdfMatrix (va :: vb :: t0', vc :: vd :: t1', ve :: vf :: t2') in
  shorthand M = shorthand N
  /\ encode M = encode N
  /\ __eq__ all_same M (OMat N) = Ok true
  /\ (forallb reflexive_value [va; vb; vc; vd; ve; vf] = true ->
      forall shared, __eq__ shared M (OMat N) = Ok true).
Proof.
  intros M N. split; [reflexivity|]. split; [reflexivity|]. split.
  - apply (eq_all_same M N va vb vc vd ve vf); reflexivity.
  - intros H shared.
    unfold __eq__, M, N, shorthand, a, b, c, d, e, f, row0, row1, row2.
    cbn [values fst snd getitem nth_error bind].
    apply eq_of_py_eq.
    rewrite py_eq_tuple6. cbn [forallb] in H. unfold reflexive_value in H.
    exact H.
Qed.

Lemma eq_and_encode_ignore_third_column_witness :
  forallb reflexive_value [VInt 1; VInt 0; VInt 0; VInt 1; VInt 0; VInt 0]
  = true
  /\ forall shared,
       __eq__ shared
         (mkPdfMatrix ([VInt 1; VInt 0; VInt 5], [VInt 0; VInt 1],
                       [VInt 0; VInt 0; VNone]))
         (OMat (mkPdfMatrix ([VInt 1; VInt 0; VInt 0],
                             [VInt 0; VInt 1; VInt 0],
                             [VInt 0; VInt 0; VInt 1])))
       = Ok true.
Proof.
  split; [reflexivity|].
  apply (proj2 (proj2 (proj2
           (eq_and_encode_ignore_third_column
              (VInt 1) (VInt 0) (VInt 0) (VInt 1) (VInt 0) (VInt 0)
              [VInt 5] [] [VNone] [VInt 0] [VInt 0] [VInt 1])))).
  reflexivity.
Defined.

(** ** Symmetry of equality *)

Module EqFacts.

Lemma SFeqb_sym (x y : spec_float) : SFeqb x y = SFeqb y x.
Proof.
  unfold SFeqb, SFcompare.
  destruct x as [sx|sx| |sx mx ex], y as [sy|sy| |sy my ey];
    try reflexivity; try (destruct sx, sy; reflexivity);
    try (destruct sx; reflexivity); try (destruct sy; reflexivity).
  rewrite (Z.compare_antisym ex ey).
  rewrite !Pos.compare_cont_spec. cbn [Pos.switch_Eq].
  rewrite (Pos.compare_antisym mx my).
  destruct sx, sy; try reflexivity;
    destruct (ex ?= ey); cbn [CompOpp]; try reflexivity;
    destruct (mx ?= my)%positive; reflexivity.
Qed.

Lemma float_eqb_sym (x y : PrimFloat.float) :
  PrimFloat.eqb x y = PrimFloat.eqb y x.
Proof. rewrite !eqb_spec. apply SFeqb_sym. Qed.

Lemma py_eq_sym : forall u v : value, py_eq u v = py_eq v u.
Proof.
  fix IH 1. intros u v.
  destruct u as [z|x| |l|l], v as [z'|x'| |l'|l']; cbn [py_eq];
    try reflexivity.
  - apply Z.eqb_sym.
  - apply float_eqb_sym.
  - revert l'. induction l as [|w ws IHl]; intros [|w' ws']; try reflexivity.
    now rewrite (IH w w'), (IHl ws').
  - revert l'. induction l as [|w ws IHl]; intros [|w' ws']; try reflexivity.
    now rewrite (IH w w'), (IHl ws').
Qed.

Lemma identical_float_sym (x y : PrimFloat.float) :
  identical_float x y = identical_float y x.
Proof.
  unfold identical_float.
  destruct (Prim2SF x) as [sx|sx| |sx mx ex], (Prim2SF y) as [sy|sy| |sy my ey];
    try reflexivity; try (destruct sx, sy; reflexivity).
  rewrite (Pos.eqb_sym mx my), (Z.eqb_sym ex ey).
  destruct sx, sy; reflexivity.
Qed.

Lemma identical_sym : forall u v : value, identical u v = identical v u.
Proof.
  fix IH 1. intros u v.
  destruct u as [z|x| |l|l], v as [z'|x'| |l'|l']; cbn [identical];
    try reflexivity.
  - apply Z.eqb_sym.
  - apply identical_float_sym.
  - revert l'. induction l as [|w ws IHl]; intros [|w' ws']; try reflexivity.
    now rewrite (IH w w'), (IHl ws').
  - revert l'. induction l as [|w ws IHl]; intros [|w' ws']; try reflexivity.
    now rewrite (IH w w'), (IHl ws').
Qed.

Lemma py_eq_shared_sym :
  forall (u v : value) (sh : list sharing),
    py_eq_shared sh u v = py_eq_shared sh v u.
Proof.
  fix IH 1. intros u v sh.
  destruct u as [z|x| |l|l], v as [z'|x'| |l'|l']; cbn [py_eq_shared];
    try reflexivity.
  - apply Z.eqb_sym.
  - apply float_eqb_sym.
  - revert sh l'. induction l as [|w ws IHl]; intros sh [|w' ws'];
      try reflexivity.
    destruct sh as [|[|inner] sh'].
    + now rewrite (IH w w'), (IHl [] ws').
    + now rewrite (identical_sym w w'), (IH w w'), (IHl sh' ws').
    + now rewrite (IH w w'), (IHl sh' ws').
  - revert sh l'. induction l as [|w ws IHl]; intros sh [|w' ws'];
      try reflexivity.
    destruct sh as [|[|inner] sh'].
    + now rewrite (IH w w'), (IHl [] ws').
    + now rewrite (identical_sym w w'), (IH w w'), (IHl sh' ws').
    + now rewrite (IH w w'), (IHl sh' ws').
Qed.

End EqFacts.

(** X12: [__eq__] is symmetric on instances: whatever objects the two
    instances share, [M.__eq__(N)] and [N.__eq__(M)] give the same truth
    value, or both raise [IndexError]. *)
Theorem eq_is_symmetric (shared : list sharing) (M N : PdfMatrix) :
  __eq__ shared M (OMat N) = __eq__ shared N (OMat M)
  /\ (forall err, __eq__ shared M (OMat N) = Raise err -> err = IndexError).
Proof.
  assert (Herr : forall P s err, shorthand P = s -> s = Raise err ->
                                 err = IndexError).
  { intros P s err <-. unfold shorthand, a, b, c, d, e, f, getitem.
    destruct (nth_error (row0 P) 0); cbn [bind]; [|now intros [= <-]].
    destruct (nth_error (row0 P) 1); cbn [bind]; [|now intros [= <-]].
    destruct (nth_error (row1 P) 0); cbn [bind]; [|now intros [= <-]].
    destruct (nth_error (row1 P) 1); cbn [bind]; [|now intros [= <-]].
    destruct (nth_error (row2 P) 0); cbn [bind]; [|now intros [= <-]].
    destruct (nth_error (row2 P) 1); cbn [bind]; [|now intros [= <-]].
    discriminate. }
  unfold __eq__.
  destruct (shorthand M) as [s|e1] eqn:HM, (shorthand N) as [t|e2] eqn:HN;
    cbn [bind].
  - split; [now rewrite EqFacts.py_eq_shared_sym|discriminate].
  - rewrite (Herr N _ e2 HN eq_refl). split; [reflexivity|now intros ? [= <-]].
  - rewrite (Herr M _ e1 HM eq_refl). split; [reflexivity|now intros ? [= <-]].
  - rewrite (Herr M _ e1 HM eq_refl), (Herr N _ e2 HN eq_refl).
    split; [reflexivity|now intros ? [= <-]].
Qed.

(** ** When composition and the builders fail *)

Lemma zip3_length (r0 r1 r2 : list value) :
  List.length (zip3 r0 r1 r2)
  = Nat.min (List.length r0) (Nat.min (List.length r1) (List.length r2)).
Proof.
  revert r1 r2. induction r0 as [|x xs IH]; intros r1 r2; [reflexivity|].
  destruct r1 as [|y ys]; [reflexivity|].
  destruct r2 as [|z zs]; [cbn; lia|].
  cbn [zip3 List.length]. rewrite IH. lia.
Qed.

(** X13: [@] returns an instance only when the shortest row of the right
    operand has exactly three entries; otherwise it raises. *)
Theorem matmul_needs_three_columns (A B C : PdfMatrix) :
  __matmul__ A B = Ok C ->
  Nat.min (List.length (row0 B))
          (Nat.min (List.length (row1 B)) (List.length (row2 B))) = 3%nat.
Proof.
  unfold __matmul__, products, row0, row1, row2.
  destruct A as [[[a0 a1] a2]], B as [[[b0 b1] b2]]. cbn [values fst snd].
  intros H. apply bind_Ok in H. destruct H as (rows & Hrows & H).
  cbn [mapM] in Hrows.
  apply bind_Ok in Hrows. destruct Hrows as (r0 & H0 & Hrows).
  apply bind_Ok in Hrows. destruct Hrows as (rs & Hrs & Hrows).
  injection Hrows as <-.
  apply bind_Ok in Hrs. destruct Hrs as (r1 & H1 & Hrs).
  apply bind_Ok in Hrs. destruct Hrs as (rs' & Hrs' & Hrs).
  injection Hrs as <-.
  apply bind_Ok in Hrs'. destruct Hrs' as (r2 & H2 & Hrs').
  injection Hrs' as <-.
  pose proof (mapM_length _ _ _ H0) as L0.
  unfold __init__ in H. cbn [List.length Nat.eqb map len_value Z.of_nat
    Pos.of_succ_nat Pos.succ bind Z.eqb Pos.eqb getitem_value getitem
    nth_error tuple] in H.
  destruct (Z.eqb_spec (Z.of_nat (List.length r0)) 3) as [E|_];
    [|discriminate H].
  rewrite <- zip3_length. lia.
Qed.

Lemma matmul_needs_three_columns_witness :
  Nat.min (List.length (row0 (mkPdfMatrix ([VInt 1; VInt 0; VInt 0; VInt 9],
                                           [VInt 0; VInt 1; VInt 0],
                                           [VInt 0; VInt 0; VInt 1; VNone]))))
    (Nat.min
       (List.length (row1 (mkPdfMatrix ([VInt 1; VInt 0; VInt 0; VInt 9],
                                        [VInt 0; VInt 1; VInt 0],
                                        [VInt 0; VInt 0; VInt 1; VNone]))))
       (List.length (row2 (mkPdfMatrix ([VInt 1; VInt 0; VInt 0; VInt 9],
                                        [VInt 0; VInt 1; VInt 0],
                                        [VInt 0; VInt 0; VInt 1; VNone])))))
  = 3%nat.
Proof.
  apply (matmul_needs_three_columns
           (mkPdfMatrix ([VInt 1; VInt 0; VInt 0], [VInt 0; VInt 1; VInt 0],
                         [VInt 0; VInt 0; VInt 1]))
           (mkPdfMatrix ([VInt 1; VInt 0; VInt 0; VInt 9],
                         [VInt 0; VInt 1; VInt 0],
                         [VInt 0; VInt 0; VInt 1; VNone]))
           (mkPdfMatrix ([VFloat 1; VFloat 0; VFloat 0],
                         [VFloat 0; VFloat 1; VFloat 0],
                         [VFloat 0; VFloat 0; VFloat 1]))).
  reflexivity.
Defined.

(** X14: a builder makes its own matrix first, so an argument that
    [float] refuses fails the call with [float]'s error whatever the
    receiver is, the first argument before the second; [rotated] raises
    the [ValueError] of the [math] module when the angle is infinite. *)
Theorem builders_fail_on_their_arguments
  (cos sin : PrimFloat.float -> PrimFloat.float) (M : PdfMatrix) :
  (forall x y err,
     float_of_value x = Raise err ->
     scaled M x y = Raise err /\ translated M x y = Raise err)
  /\ (forall x y fx err,
        float_of_value x = Ok fx -> float_of_value y = Raise err ->
        scaled M x y = Raise err /\ translated M x y = Raise err)
  /\ (forall angle err,
        float_of_value angle = Raise err ->
        rotated cos sin M angle = Raise err)
  /\ (forall angle theta,
        radians angle = Ok theta -> is_infinity theta = true ->
        rotated cos sin M angle = Raise (ValueError math_domain_error)).
Proof.
  split; [|split; [|split]].
  - intros x y err Hx. unfold scaled, translated, __init__, from_six.
    cbn [List.length Nat.eqb len_value Z.of_nat Pos.of_succ_nat Pos.succ bind
      Z.eqb Pos.eqb tuple map mapM float]. rewrite Hx. split; reflexivity.
  - intros x y fx err Hx Hy. unfold scaled, translated, __init__, from_six.
    cbn [List.length Nat.eqb len_value Z.of_nat Pos.of_succ_nat Pos.succ bind
      Z.eqb Pos.eqb tuple map mapM float]. rewrite Hx, Hy. split; reflexivity.
  - intros angle err Ha. unfold rotated, radians. now rewrite Ha.
  - intros angle theta Ht Hinf. unfold rotated. rewrite Ht. cbn [bind].
    unfold math_fun. now rewrite Hinf.
Qed.

Lemma builders_fail_on_their_arguments_witness :
  scaled (mkPdfMatrix ([], [], [])) VNone (VInt 1) = Raise TypeError
  /\ translated (mkPdfMatrix ([], [], [])) VNone (VInt 1) = Raise TypeError.
Proof.
  apply (proj1 (builders_fail_on_their_arguments
                  (fun _ => 1%float) (fun _ => 0%float)
                  (mkPdfMatrix ([], [], [])))
               VNone (VInt 1) TypeError eq_refl).
Defined.

(** ** The affine composition formula *)

Module AffineFacts.
Import FloatFacts BuilderFacts.

Lemma sum_drop_last (p q z : PrimFloat.float) :
  zero z = true -> same (0 + p + q + z) (p + q).
Proof.
  intros Hz. apply same_add_zero_any; [|exact Hz].
  apply same_add_r. apply add_zero_l_any. reflexivity.
Qed.

Lemma sum_keep_all (p q t : PrimFloat.float) :
  same (0 + p + q + t) (p + q + t).
Proof.
  apply same_add_r, same_add_r. apply add_zero_l_any. reflexivity.
Qed.

(** A row whose third entry is a zero, and a row whose third entry is
    one, against a column whose last entry is finite. *)
Lemma linear_row (x y u p q t : PrimFloat.float) :
  zero u = true -> finite t = true ->
  same (dot3 x y u p q t) (x * p + y * q).
Proof.
  intros Hu Ht. unfold dot3. apply sum_drop_last. now apply mul_zero_l.
Qed.

Lemma affine_row (x y p q t : PrimFloat.float) :
  finite t = true ->
  same (dot3 x y 1 p q t) (x * p + y * q + t).
Proof.
  intros Ht. unfold dot3. rewrite (mul_1_l t Ht). apply sum_keep_all.
Qed.

Lemma rotated_entry (x y u p q : PrimFloat.float) :
  finite u = true -> same (dot3 x y u p q 0) (x * p + y * q).
Proof.
  intros Hu. unfold dot3. apply sum_drop_last.
  apply mul_zero_r; [exact Hu|reflexivity].
Qed.

End AffineFacts.

(** X15: for a left operand with third column (0, 0, 1) and a right
    operand with finite e and f, both three by three grids of numbers,
    the shorthand of [self @ other] is the composition of the two affine
    maps, in float arithmetic and up to the sign of a zero:
    (a a' + b c', a b' + b d', c a' + d c', c b' + d d',
     e a' + f c' + e', e b' + f d' + f'). *)
Theorem matmul_affine_formula (A B : PdfMatrix)
  (a b u c d v e f w a' b' u' c' d' v' e' f' w' : PrimFloat.float) :
  floats A = Ok [[a; b; u]; [c; d; v]; [e; f; w]] ->
  floats B = Ok [[a'; b'; u']; [c'; d'; v']; [e'; f'; w']] ->
  invariant A = true -> finite e' = true -> finite f' = true ->
  exists C rs,
    __matmul__ A B = Ok C
    /\ shorthand C = Ok (map VFloat rs)
    /\ same_all rs
         [a * a' + b * c'; a * b' + b * d';
          c * a' + d * c'; c * b' + d * d';
          e * a' + f * c' + e'; e * b' + f * d' + f']%float.
Proof.
  intros HA HB Hi He Hf.
  destruct (third_column_floats A _ _ _ _ _ _ _ _ _ HA Hi) as (Hu & Hv & ->).
  eexists.
  exists [dot3 a b u a' c' e'; dot3 a b u b' d' f'; dot3 c d v a' c' e';
          dot3 c d v b' d' f'; dot3 e f 1 a' c' e'; dot3 e f 1 b' d' f'].
  split; [apply (matmul_numeric _ _ _ _ _ _ _ _ _ _ _ _ _ _ _ _ _ _ A B HA HB)|].
  split; [reflexivity|]. unfold same_all.
  repeat (apply Forall2_cons;
          [first [now apply AffineFacts.linear_row
                 |now apply AffineFacts.affine_row]|]).
  apply Forall2_nil.
Qed.

Lemma matmul_affine_formula_witness :
  exists C rs,
    __matmul__
      (mkPdfMatrix ([VInt 1; VInt 2; VInt 0], [VInt 3; VInt 4; VInt 0],
                    [VInt 5; VInt 6; VInt 1]))
      (mkPdfMatrix ([VFloat 0.5; VInt 0; VInt 0], [VInt 0; VInt 2; VInt 0],
                    [VInt 7; VInt 8; VInt 1])) = Ok C
    /\ shorthand C = Ok (map VFloat rs)
    /\ same_all rs
         [1 * 0.5 + 2 * 0; 1 * 0 + 2 * 2; 3 * 0.5 + 4 * 0; 3 * 0 + 4 * 2;
          5 * 0.5 + 6 * 0 + 7; 5 * 0 + 6 * 2 + 8]%float.
Proof.
  apply (matmul_affine_formula
           (mkPdfMatrix ([VInt 1; VInt 2; VInt 0], [VInt 3; VInt 4; VInt 0],
                         [VInt 5; VInt 6; VInt 1]))
           (mkPdfMatrix ([VFloat 0.5; VInt 0; VInt 0], [VInt 0; VInt 2; VInt 0],
                         [VInt 7; VInt 8; VInt 1]))
           1 2 0 3 4 0 5 6 1 0.5 0 0 0 2 0 7 8 1); reflexivity.
Defined.

(** X16: on a receiver whose grid is three by three numbers with a finite
    third column, [rotated] by an angle with cosine k and sine s returns
    an instance whose shorthand is
    (a k + b (-s), a s + b k, c k + d (-s), c s + d k, e k + f (-s),
     e s + f k) in float arithmetic, up to the sign of a zero. *)
Theorem rotated_coefficients (cos sin : PrimFloat.float -> PrimFloat.float)
  (M : PdfMatrix) (angle : value)
  (theta a b u c d v e f w : PrimFloat.float) :
  floats M = Ok [[a; b; u]; [c; d; v]; [e; f; w]] ->
  forallb finite [u; v; w] = true ->
  radians angle = Ok theta -> is_infinity theta = false ->
  exists C rs,
    rotated cos sin M angle = Ok C
    /\ shorthand C = Ok (map VFloat rs)
    /\ same_all rs
         [a * cos theta + b * - sin theta; a * sin theta + b * cos theta;
          c * cos theta + d * - sin theta; c * sin theta + d * cos theta;
          e * cos theta + f * - sin theta; e * sin theta + f * cos theta]%float.
Proof.
  intros HM Hfin Ht Hinf. cbn [forallb] in Hfin.
  repeat match type of Hfin with
  | _ && _ = true => apply andb_true_iff in Hfin; destruct Hfin as [? Hfin]
  end.
  destruct (RotationFacts.rotated_unfold cos sin M angle theta Ht Hinf)
    as [_ ->].
  assert (HR : floats (rotation_grid (cos theta) (sin theta))
               = Ok [[cos theta; sin theta; 0];
                     [- sin theta; cos theta; 0]; [0; 0; 1]]%float)
    by reflexivity.
  eexists.
  exists [dot3 a b u (cos theta) (- sin theta) 0;
          dot3 a b u (sin theta) (cos theta) 0;
          dot3 c d v (cos theta) (- sin theta) 0;
          dot3 c d v (sin theta) (cos theta) 0;
          dot3 e f w (cos theta) (- sin theta) 0;
          dot3 e f w (sin theta) (cos theta) 0].
  split; [apply (matmul_numeric _ _ _ _ _ _ _ _ _ _ _ _ _ _ _ _ _ _ M _ HM HR)|].
  split; [reflexivity|]. unfold same_all.
  repeat (apply Forall2_cons; [now apply AffineFacts.rotated_entry|]).
  apply Forall2_nil.
Qed.

Lemma rotated_coefficients_witness :
  exists C rs,
    rotated (fun _ => 0.5%float) (fun _ => 0.25%float)
      (mkPdfMatrix ([VInt 1; VInt 2; VInt 0], [VInt 3; VInt 4; VInt 0],
                    [VInt 5; VInt 6; VInt 1])) (VInt 30) = Ok C
    /\ shorthand C = Ok (map VFloat rs)
    /\ same_all rs
         [1 * 0.5 + 2 * - 0.25; 1 * 0.25 + 2 * 0.5;
          3 * 0.5 + 4 * - 0.25; 3 * 0.25 + 4 * 0.5;
          5 * 0.5 + 6 * - 0.25; 5 * 0.25 + 6 * 0.5]%float.
Proof.
  apply (rotated_coefficients (fun _ => 0.5%float) (fun _ => 0.25%float)
           (mkPdfMatrix ([VInt 1; VInt 2; VInt 0], [VInt 3; VInt 4; VInt 0],
                         [VInt 5; VInt 6; VInt 1])) (VInt 30)
           (30 / 180 * pi)%float 1 2 0 3 4 0 5 6 1); reflexivity.
Defined.

(** ** Instances that can always be encoded *)

Lemma sum_grid_encodes (C : PdfMatrix) :
  all_entries sum_value C = true -> exists bytes, encode C = Ok bytes.
Proof.
  intros HC. apply all_entries_inv in HC.
  destruct HC as (m00 & m01 & m02 & m10 & m11 & m12 & m20 & m21 & m22 & ->
                  & (H00 & H01 & _) & (H10 & H11 & _) & (H20 & H21 & _)).
  unfold encode, a, b, c, d, e, f, row0, row1, row2.
  cbn [values fst snd getitem nth_error bind].
  destruct (sum_value_formats _ H00) as [s00 ->].
  destruct (sum_value_formats _ H01) as [s01 ->].
  destruct (sum_value_formats _ H10) as [s10 ->].
  destruct (sum_value_formats _ H11) as [s11 ->].
  destruct (sum_value_formats _ H20) as [s20 ->].
  destruct (sum_value_formats _ H21) as [s21 ->].
  cbn [bind]. now eexists.
Qed.

Lemma from_six_encodes (xs : list pyobj) (M : PdfMatrix) :
  from_six xs = Ok M -> exists bytes, encode M = Ok bytes.
Proof.
  unfold from_six. intros H. apply bind_Ok in H. destruct H as (fs & _ & H).
  destruct fs as [|? [|? [|? [|? [|? [|? [|]]]]]]]; try discriminate H.
  injection H as <-. now eexists.
Qed.

(** X17: [encode] never fails on an instance made by the constructor from
    six arguments or from a sequence of six, nor on an instance returned
    by [scaled], [translated] or [rotated]. *)
Theorem built_instances_encode
  (cos sin : PrimFloat.float -> PrimFloat.float) (M : PdfMatrix) :
  (forall o1 o2 o3 o4 o5 o6,
     __init__ [o1; o2; o3; o4; o5; o6] = Ok M ->
     exists bytes, encode M = Ok bytes)
  /\ (forall s v1 v2 v3 v4 v5 v6,
        tuple s = Ok [v1; v2; v3; v4; v5; v6] ->
        __init__ [OVal s] = Ok M -> exists bytes, encode M = Ok bytes)
  /\ (forall R x y,
        scaled R x y = Ok M \/ translated R x y = Ok M ->
        exists bytes, encode M = Ok bytes)
  /\ (forall R angle,
        rotated cos sin R angle = Ok M -> exists bytes, encode M = Ok bytes).
Proof.
  split; [|split; [|split]].
  - intros o1 o2 o3 o4 o5 o6 H. now apply from_six_encodes in H.
  - intros s v1 v2 v3 v4 v5 v6 Hs H.
    unfold __init__ in H. cbn [List.length Nat.eqb] in H.
    rewrite (len_value_tuple _ _ Hs) in H.
    cbn [bind List.length Z.of_nat Pos.of_succ_nat Pos.succ Z.eqb Pos.eqb]
      in H.
    rewrite Hs in H. cbn [bind] in H. now apply from_six_encodes in H.
  - intros R x y [H|H]; unfold scaled, translated in H;
      apply bind_Ok in H; destruct H as (m & _ & H);
      apply matmul_shape in H; now apply sum_grid_encodes.
  - intros R angle H. unfold rotated in H.
    apply bind_Ok in H. destruct H as (t & _ & H).
    apply bind_Ok in H. destruct H as (k & _ & H).
    apply bind_Ok in H. destruct H as (s & _ & H).
    apply bind_Ok in H. destruct H as (m & _ & H).
    apply matmul_shape in H. now apply sum_grid_encodes.
Qed.

Lemma built_instances_encode_witness :
  exists bytes,
    encode (mkPdfMatrix ([VFloat 1; VFloat infinity; VInt 0],
                         [VFloat 3; VFloat nan; VInt 0],
                         [VFloat 5; VFloat 6; VInt 1])) = Ok bytes.
Proof.
  apply (proj1 (built_instances_encode (fun _ => 1%float) (fun _ => 0%float)
                  (mkPdfMatrix ([VFloat 1; VFloat infinity; VInt 0],
                                [VFloat 3; VFloat nan; VInt 0],
                                [VFloat 5; VFloat 6; VInt 1])))
               (OVal (VInt 1)) (OVal (VFloat infinity)) (OVal (VInt 3))
               (OVal (VFloat nan)) (OVal (VInt 5)) (OVal (VInt 6))).
  reflexivity.
Defined.
